(** * AI-Tracker: day finalization and streak rules

    A shallow embedding of the day-state and streak logic of the tracker,
    taken from [script.js] (the dashboard's own finalize path) and from
    [habitSystem.js] (the [HabitRegistry] / [DayStateMachine] /
    [HabitStreakAuthority] objects), followed by the properties of the
    specification that concern them.

    Conventions of the embedding.
    - JavaScript numbers that hold hours are rationals ([Q]); streak counters
      are integers ([Z]).  A field read through [x || d] is an [option]:
      [None] stands for undefined, null and NaN.
    - The globals of [script.js] ([dashboardData], [settingsAuthority],
      [useBackend], the [localStorage] entry) are the fields of [World];
      a function that mutates them returns the new [World].
    - The functions embedded here only search [dashboardData.dailyLogs] by
      date, and the code keeps one log per date, so the array is a finite
      map from the date string to the log.
    - The engine's [Date] constructor and the life-score formula are
      parameters of the development. *)

From Stdlib Require Import ZArith QArith Bool List Lia.
From stdpp Require Import base strings gmap.
Import ListNotations.

Local Open Scope string_scope.
Local Open Scope Z_scope.

(** ** JavaScript idioms *)

(** [x || d] for a number: undefined, null, NaN and 0 are falsy. *)
Definition num_or (x : option Q) (d : Q) : Q :=
  match x with
  | Some q => if Qeq_bool q 0 then d else q
  | None => d
  end.

(** [x || d] for an integer counter. *)
Definition int_or (x : option Z) (d : Z) : Z :=
  match x with
  | Some n => if n =? 0 then d else n
  | None => d
  end.

(** [x || d] for a string: undefined, null and the empty string are falsy. *)
Definition str_or (x : option string) (d : string) : string :=
  match x with
  | Some s => if String.eqb s "" then d else s
  | None => d
  end.

(** Truthiness of a string-or-null value, as in [!log.wakeUp]. *)
Definition str_truthy (x : option string) : bool :=
  match x with
  | Some s => negb (String.eqb s "")
  | None => false
  end.

(** [x !== false] for a flag that may be absent. *)
Definition not_false (x : option bool) : bool :=
  match x with
  | Some false => false
  | _ => true
  end.

(** [x === false]. *)
Definition is_false (x : option bool) : bool := negb (not_false x).

(** [a < b] on numbers. *)
Definition Qlt_bool (a b : Q) : bool := (Qnum a * QDen b <? Qnum b * QDen a)%Z.

(** [Math.ceil(n / 3)] on an integer. *)
Definition ceil_div3 (n : Z) : Z := (n + 2) / 3.

(** [a === b] between a string-or-null value and a string. *)
Definition str_is (a : option string) (b : string) : bool :=
  match a with
  | Some s => String.eqb s b
  | None => false
  end.

(** ** Data model *)

(** [DAY_STATES] of script.js, [DayState] of habitSystem.js. *)
Inductive DayState : Type :=
  | COMPLETED
  | MISSED
  | NOT_COUNTED
  | NOT_STARTED
  | IN_PROGRESS.

(** One entry of [dashboardData.dailyLogs]; the fields are those of the
    object literal in [createTodayLog]. *)
Record DayLog : Type := mkDayLog {
  date : string;
  wakeUp : option string;
  sleptOnTime : option bool;
  learned : string;
  learningDone : bool;
  learningHours : option Q;
  workout : bool;
  workoutType : option string;
  screenTime : option Q;
  mood : option Z;
  mits : list string;
  mitsDone : list bool;
  tasks : list (string * bool);
  archived : bool;
  finalized : bool;
  finalizedAt : option string;
  finalState : option DayState;
  lastInteraction : option string
}.

Definition with_finalized (b : bool) (l : DayLog) : DayLog :=
  mkDayLog (date l) (wakeUp l) (sleptOnTime l) (learned l) (learningDone l)
    (learningHours l) (workout l) (workoutType l) (screenTime l) (mood l)
    (mits l) (mitsDone l) (tasks l) (archived l)
    b (finalizedAt l) (finalState l) (lastInteraction l).

Definition with_finalizedAt (t : option string) (l : DayLog) : DayLog :=
  mkDayLog (date l) (wakeUp l) (sleptOnTime l) (learned l) (learningDone l)
    (learningHours l) (workout l) (workoutType l) (screenTime l) (mood l)
    (mits l) (mitsDone l) (tasks l) (archived l)
    (finalized l) t (finalState l) (lastInteraction l).

Definition with_finalState (s : option DayState) (l : DayLog) : DayLog :=
  mkDayLog (date l) (wakeUp l) (sleptOnTime l) (learned l) (learningDone l)
    (learningHours l) (workout l) (workoutType l) (screenTime l) (mood l)
    (mits l) (mitsDone l) (tasks l) (archived l)
    (finalized l) (finalizedAt l) s (lastInteraction l).

Definition with_lastInteraction (t : option string) (l : DayLog) : DayLog :=
  mkDayLog (date l) (wakeUp l) (sleptOnTime l) (learned l) (learningDone l)
    (learningHours l) (workout l) (workoutType l) (screenTime l) (mood l)
    (mits l) (mitsDone l) (tasks l) (archived l)
    (finalized l) (finalizedAt l) (finalState l) t.

(** The per-habit entry of [settings.nonNegotiables]; every field may be
    absent, as the code reads them through optional chaining. *)
Module HabitSettings.
Record t : Type := mk {
  enabled : option bool;
  countsTowardCompletion : option bool;
  minHoursDaily : option Q;
  wakeupTarget : option string;
  wakeupTolerance : option Q;
  dailyLimit : option Q
}.
End HabitSettings.

(** The settings object held in [SettingsAuthority.current]. *)
Record Settings : Type := mkSettings {
  nonNegotiables : option (gmap string HabitSettings.t);
  streaks_sensitivity : option string
}.

Record SettingsAuthority : Type := mkSettingsAuthority {
  current : option Settings
}.

(** [settings?.nonNegotiables?.[habitId]]. *)
Definition habitSettingsOf (settings : option Settings) (habitId : string)
  : option HabitSettings.t :=
  match settings with
  | Some s =>
      match nonNegotiables s with
      | Some nn => nn !! habitId
      | None => None
      end
  | None => None
  end.

(** [habitSettings?.enabled], and likewise for the other fields. *)
Definition hs_enabled (hs : option HabitSettings.t) : option bool :=
  match hs with Some h => HabitSettings.enabled h | None => None end.
Definition hs_countsTowardCompletion (hs : option HabitSettings.t) : option bool :=
  match hs with Some h => HabitSettings.countsTowardCompletion h | None => None end.
Definition hs_minHoursDaily (hs : option HabitSettings.t) : option Q :=
  match hs with Some h => HabitSettings.minHoursDaily h | None => None end.
Definition hs_wakeupTarget (hs : option HabitSettings.t) : option string :=
  match hs with Some h => HabitSettings.wakeupTarget h | None => None end.
Definition hs_wakeupTolerance (hs : option HabitSettings.t) : option Q :=
  match hs with Some h => HabitSettings.wakeupTolerance h | None => None end.
Definition hs_dailyLimit (hs : option HabitSettings.t) : option Q :=
  match hs with Some h => HabitSettings.dailyLimit h | None => None end.

(** [SettingsAuthority.get('nonNegotiables.<habitId>.enabled')]: null when
    [current] is null or a key of the path is missing. *)
Definition get_enabled (sa : SettingsAuthority) (habitId : string) : option bool :=
  hs_enabled (habitSettingsOf (current sa) habitId).

(** [SettingsAuthority.get('streaks.sensitivity')]. *)
Definition get_sensitivity (sa : SettingsAuthority) : option string :=
  match current sa with
  | Some s => streaks_sensitivity s
  | None => None
  end.

(** The three streak habits: the keys of [SCHEMA.streaks] and of
    [SCHEMA.streakHistory], and the literal array the streak loops walk. *)
Inductive StreakKey : Type := k_learning | k_gym | k_sleep.

#[global] Instance StreakKey_eq_dec : EqDecision StreakKey.
Proof. solve_decision. Defined.

Definition habitId (k : StreakKey) : string :=
  match k with
  | k_learning => "learning"
  | k_gym => "gym"
  | k_sleep => "sleep"
  end.

Definition streakKeys : list StreakKey := [k_learning; k_gym; k_sleep].

Record PerHabit (A : Type) : Type := mkPerHabit {
  of_learning : A;
  of_gym : A;
  of_sleep : A
}.
Arguments mkPerHabit {A} _ _ _.
Arguments of_learning {A} _.
Arguments of_gym {A} _.
Arguments of_sleep {A} _.

Definition pget {A} (t : PerHabit A) (k : StreakKey) : A :=
  match k with
  | k_learning => of_learning t
  | k_gym => of_gym t
  | k_sleep => of_sleep t
  end.

Definition pset {A} (k : StreakKey) (v : A) (t : PerHabit A) : PerHabit A :=
  match k with
  | k_learning => mkPerHabit v (of_gym t) (of_sleep t)
  | k_gym => mkPerHabit (of_learning t) v (of_sleep t)
  | k_sleep => mkPerHabit (of_learning t) (of_gym t) v
  end.

(** An entry of [dashboardData.streakHistory]. *)
Module StreakHistory.
Record t : Type := mk {
  best : Z;
  lastBroken : option string;
  recoveryDays : Z;
  lastUpdated : option string
}.
End StreakHistory.

(** [dashboardData.settings]. *)
Record DashSettings : Type := mkDashSettings {
  theme : string;
  wakeupTarget : string;
  bedtimeTarget : string;
  screenTimeGoal : option Q
}.

Record DashboardData : Type := mkDashboardData {
  lifeScore : Z;
  dailyLogs : gmap string DayLog;
  streaks : PerHabit Z;
  streakHistory : PerHabit StreakHistory.t;
  lastActiveDate : option string;
  settings : DashSettings
}.

(** The module-level state of script.js. *)
Record World : Type := mkWorld {
  dashboardData : DashboardData;
  settingsAuthority : option SettingsAuthority;
  useBackend : bool;
  localStorage : option DashboardData
}.

(** [SCHEMA]: the initial [dashboardData]. *)
Definition SCHEMA : DashboardData :=
  mkDashboardData 0 ∅
    (mkPerHabit 0 0 0)
    (mkPerHabit (StreakHistory.mk 0 None 0 None)
                (StreakHistory.mk 0 None 0 None)
                (StreakHistory.mk 0 None 0 None))
    None
    (mkDashSettings "dark" "05:45" "23:30" (Some 3%Q)).

(** ** habitSystem.js: registry *)

(** An entry of [HabitRegistry.habits]. *)
Module Habit.
Record t : Type := mk {
  id : string;
  name : string;
  defaultEnabled : bool;
  streakEnabled : bool;
  inverted : bool;
  countsTowardCompletion : bool
}.
End Habit.

(** [HabitRegistry.habits], in insertion order. *)
Definition HabitRegistry_habits : list Habit.t :=
  [ Habit.mk "learning" "Learning" true true false true;
    Habit.mk "gym" "Workout" true true false true;
    Habit.mk "sleep" "Sleep" true true false true;
    Habit.mk "screenTime" "Screen Time" true false true true ].

(** [HabitRegistry.getHabit]: [this.habits[id] || null]. *)
Definition getHabit (id : string) : option Habit.t :=
  find (fun h => String.eqb (Habit.id h) id) HabitRegistry_habits.

(** [HabitRegistry.getAllHabits]: [Object.values(this.habits)]. *)
Definition getAllHabits : list Habit.t := HabitRegistry_habits.

(** [HabitRegistry.getEnabledHabits]. *)
Definition getEnabledHabits (settings : option Settings) : list Habit.t :=
  filter (fun h => not_false (hs_enabled (habitSettingsOf settings (Habit.id h))))
         getAllHabits.

(** [HabitRegistry.getStreakHabits]. *)
Definition getStreakHabits (settings : option Settings) : list Habit.t :=
  filter (fun h => Habit.streakEnabled h) (getEnabledHabits settings).

(** [HabitRegistry.getCompletionHabits]. *)
Definition getCompletionHabits (settings : option Settings) : list Habit.t :=
  filter (fun h =>
            not_false (hs_countsTowardCompletion (habitSettingsOf settings (Habit.id h)))
            && Habit.countsTowardCompletion h)
         (getEnabledHabits settings).

(** The streak record [HabitStreakAuthority] works on; [lastUpdated] holds
    an ISO timestamp. *)
Module StreakData.
Record t : Type := mk {
  current : option Z;
  best : option Z;
  recoveryDays : option Z;
  lastBroken : option string;
  lastUpdated : option string
}.
End StreakData.

(** ** script.js: plain helpers *)

(** The result of [previewFinalState]. *)
Record Preview : Type := mkPreview {
  state : DayState;
  missingHabits : list string;
  mitsCompleted : Z
}.

(** Where the [try] block of [saveNow] may throw: at the [localStorage]
    write, inside the awaited [saveToBackendSync], or in the interface
    refresh that follows. *)
Inductive FailPoint : Type := AtLocalStorage | AtBackend | AtInterface.

(** [settingsAuthority?.get('nonNegotiables.<habitId>.enabled')]. *)
Definition sa_get_enabled (w : World) (habitId : string) : option bool :=
  match settingsAuthority w with
  | Some sa => get_enabled sa habitId
  | None => None
  end.

(** [settingsAuthority?.get('streaks.sensitivity') || 'normal']. *)
Definition sensitivityOf (w : World) : string :=
  str_or (match settingsAuthority w with
          | Some sa => get_sensitivity sa
          | None => None
          end) "normal".

(** The habit segment of [enabledKey] in the two streak loops. *)
Definition enabledKey (habitId : string) : string :=
  if String.eqb habitId "gym" then "gym"
  else if String.eqb habitId "sleep" then "sleep"
  else "learning".

(** [getEnabledRequiredHabits]. *)
Definition getEnabledRequiredHabits (w : World) : list string :=
  let habits : list string := [] in
  let habits := if not_false (sa_get_enabled w "learning") then (habits ++ ["learning"])%list else habits in
  let habits := if not_false (sa_get_enabled w "gym") then (habits ++ ["gym"])%list else habits in
  let habits := if not_false (sa_get_enabled w "sleep") then (habits ++ ["sleep"])%list else habits in
  let habits := if not_false (sa_get_enabled w "screenTime") then (habits ++ ["screenTime"])%list else habits in
  habits.

(** [getHabitDisplayName]. *)
Definition getHabitDisplayName (habitId : string) : string :=
  if String.eqb habitId "learning" then "Learning"
  else if String.eqb habitId "gym" then "Workout"
  else if String.eqb habitId "sleep" then "Wake-up"
  else if String.eqb habitId "screenTime" then "Screen Time"
  else habitId.

Definition set_dashboardData (d : DashboardData) (w : World) : World :=
  mkWorld d (settingsAuthority w) (useBackend w) (localStorage w).

Definition set_localStorage (s : option DashboardData) (w : World) : World :=
  mkWorld (dashboardData w) (settingsAuthority w) (useBackend w) s.

Definition set_lifeScore (n : Z) (d : DashboardData) : DashboardData :=
  mkDashboardData n (dailyLogs d) (streaks d) (streakHistory d)
    (lastActiveDate d) (settings d).

Definition set_dailyLogs (m : gmap string DayLog) (d : DashboardData) : DashboardData :=
  mkDashboardData (lifeScore d) m (streaks d) (streakHistory d)
    (lastActiveDate d) (settings d).

Definition set_streaks (s : PerHabit Z) (d : DashboardData) : DashboardData :=
  mkDashboardData (lifeScore d) (dailyLogs d) s (streakHistory d)
    (lastActiveDate d) (settings d).

Definition set_streakHistory (h : PerHabit StreakHistory.t) (d : DashboardData)
  : DashboardData :=
  mkDashboardData (lifeScore d) (dailyLogs d) (streaks d) h
    (lastActiveDate d) (settings d).

Definition set_lastActiveDate (a : option string) (d : DashboardData) : DashboardData :=
  mkDashboardData (lifeScore d) (dailyLogs d) (streaks d) (streakHistory d)
    a (settings d).

(** [dashboardData.streaks[k] = v]. *)
Definition set_streak (k : StreakKey) (v : Z) (w : World) : World :=
  set_dashboardData
    (set_streaks (pset k v (streaks (dashboardData w))) (dashboardData w)) w.

(** A write through the [history] reference of a streak loop. *)
Definition set_history (k : StreakKey) (h : StreakHistory.t) (w : World) : World :=
  set_dashboardData
    (set_streakHistory (pset k h (streakHistory (dashboardData w))) (dashboardData w)) w.

(** A write through the [todayLog] reference: the log stored under its date. *)
Definition putLog (today : string) (l : DayLog) (w : World) : World :=
  set_dashboardData
    (set_dailyLogs (<[today := l]> (dailyLogs (dashboardData w))) (dashboardData w)) w.

(** [saveToStorage]: stamps [lastActiveDate] and writes the [localStorage]
    entry.  The debounced [saveToBackend] it schedules runs later and is
    not part of the call. *)
Definition saveToStorage (today : string) (w : World) : World :=
  let w1 := set_dashboardData (set_lastActiveDate (Some today) (dashboardData w)) w in
  set_localStorage (Some (dashboardData w1)) w1.

(** [createTodayLog]: the existing log of the date, or a new one. *)
Definition createTodayLog (todayStr : string) (w : World) : DayLog * World :=
  match dailyLogs (dashboardData w) !! todayStr with
  | Some existing => (existing, w)
  | None =>
      let todayLog :=
        {| date := todayStr;
           wakeUp := Some (wakeupTarget (settings (dashboardData w)));
           sleptOnTime := None;
           learned := "";
           learningDone := false;
           learningHours := Some 0%Q;
           workout := false;
           workoutType := Some "gym";
           screenTime := Some 0%Q;
           mood := None;
           mits := [""; ""; ""];
           mitsDone := [false; false; false];
           tasks := [];
           archived := false;
           finalized := false;
           finalizedAt := None;
           finalState := None;
           lastInteraction := None |} in
      (todayLog, saveToStorage todayStr (putLog todayStr todayLog w))
  end.

(** [getTodayLog]. *)
Definition getTodayLog (today : string) (w : World) : DayLog * World :=
  match dailyLogs (dashboardData w) !! today with
  | Some log => (log, w)
  | None => createTodayLog today w
  end.

(** A sample of the engine's time parsing: the [HH:MM] value of a time
    input, as milliseconds after midnight. *)
Definition digitOf (c : Ascii.ascii) : option Z :=
  let n := Z.of_nat (Ascii.nat_of_ascii c) - 48 in
  if (0 <=? n) && (n <=? 9) then Some n else None.

Definition clockMs (s : string) : option Z :=
  match s with
  | String a (String b (String sep (String c (String d EmptyString)))) =>
      match digitOf a, digitOf b, digitOf c, digitOf d with
      | Some h1, Some h0, Some m1, Some m0 =>
          let h := 10 * h1 + h0 in
          let m := 10 * m1 + m0 in
          if Ascii.eqb sep (Ascii.ascii_of_nat 58) && (h <? 24) && (m <? 60)
          then Some ((h * 60 + m) * 60000)
          else None
      | _, _, _, _ => None
      end
  | _ => None
  end.

(** [SettingsAuthority.defaults], as far as the habit rules read it. *)
Definition SettingsAuthority_defaults : Settings :=
  mkSettings
    (Some (<["learning" := HabitSettings.mk (Some true) None (Some 2%Q) None None None]>
          (<["gym" := HabitSettings.mk (Some true) None None None None None]>
          (<["sleep" := HabitSettings.mk (Some true) None None (Some "05:45") (Some 30%Q) None]>
          (<["screenTime" := HabitSettings.mk (Some true) None None None None (Some 3%Q)]>
           ∅)))))
    (Some "normal").

(** The defaults with one habit switched off, and with the strict streak
    sensitivity. *)
Definition settings_without (habitId : string) : Settings :=
  mkSettings
    (match nonNegotiables SettingsAuthority_defaults with
     | Some nn =>
         Some (<[habitId := HabitSettings.mk (Some false) None None None None None]> nn)
     | None => None
     end)
    (Some "normal").

Definition settings_strict : Settings :=
  mkSettings (nonNegotiables SettingsAuthority_defaults) (Some "strict").

(** A day with every habit done, and a day with one hour of learning and
    no workout. *)
Definition goodDay (d : string) : DayLog :=
  mkDayLog d (Some "05:45") None "proofs" true (Some 3%Q) true (Some "gym")
    (Some 1%Q) None [""; ""; ""] [false; false; false] [] false
    false None None None.

Definition thinDay (d : string) : DayLog :=
  mkDayLog d (Some "05:45") None "notes" true (Some 1%Q) false (Some "gym")
    (Some 1%Q) None [""; ""; ""] [false; false; false] [] false
    false None None None.

(** The world right after start-up, holding one log. *)
Definition worldWith (cfg : Settings) (l : DayLog) (backend : bool) : World :=
  mkWorld (set_dailyLogs (<[date l := l]> ∅) SCHEMA)
    (Some (mkSettingsAuthority (Some cfg))) backend None.

(** A world under the strict sensitivity, with a gym streak of four days
    and a day on which the workout is not done. *)
Definition strictWorld (d : string) (backend : bool) : World :=
  set_streak k_gym 4 (worldWith settings_strict (thinDay d) backend).

(** The world at first start: the schema, the default settings, no log. *)
Definition firstStart : World :=
  mkWorld SCHEMA (Some (mkSettingsAuthority (Some SettingsAuthority_defaults)))
    false None.

(** The defaults under the moderate streak sensitivity, and a world under
    it with a gym streak of five days and a day without the workout. *)
Definition settings_moderate : Settings :=
  mkSettings (nonNegotiables SettingsAuthority_defaults) (Some "moderate").

Definition moderateWorld (d : string) : World :=
  set_streak k_gym 5 (worldWith settings_moderate (thinDay d) false).

(** A world in which the gym habit is serving a recovery of [r] days after
    a streak of four. *)
Definition recoveringWorld (d : string) (r : Z) : World :=
  set_history k_gym (StreakHistory.mk 4 (Some "2026-03-01") r (Some "2026-03-01"))
    (worldWith SettingsAuthority_defaults (goodDay d) false).

(** A world last used on the date [d], with the thin day of that date left
    without a save. *)
Definition leftOpen (d : string) : World :=
  saveToStorage d (worldWith SettingsAuthority_defaults (thinDay d) false).

(** A sample of the date arithmetic, within the first nine days of March
    2026: the day of the month, the days between two dates, and the date a
    number of days before a date. *)
Definition marchDay (s : string) : Z :=
  match String.get 8 s, String.get 9 s with
  | Some a, Some b =>
      match digitOf a, digitOf b with
      | Some x, Some y => 10 * x + y
      | _, _ => 0
      end
  | _, _ => 0
  end.

Definition marchDaysBetween (a b : string) : Z := marchDay b - marchDay a.

Definition marchDaysAgo (today : string) (i : Z) : string :=
  String.append "2026-03-0"
    (String (Ascii.ascii_of_nat (Z.to_nat (48 + (marchDay today - i)))) EmptyString).

Section Tracker.

(** [newDate s] is the time value, in milliseconds, of
    [new Date(`2000-01-01T${s}`)]; [None] is an Invalid Date. *)
Variable newDate : string -> option Z.

(** [calculateLifeScore]: the 0..100 score read off [dashboardData] and
    the clock. *)
Variable calculateLifeScore : DashboardData -> Z.

(** [(a - b) / 60000 <= tolerance] on two dates; a comparison with NaN
    is false. *)
Definition minutesLate_le (a b : option Z) (tolerance : Q) : bool :=
  match a, b with
  | Some x, Some y => Qle_bool (inject_Z (x - y) / inject_Z 60000) tolerance
  | _, _ => false
  end.

(** *** habitSystem.js: DayStateMachine *)

(** [DayStateMachine.isWakeupOnTime]. *)
Definition isWakeupOnTime (wakeupTime : option string) (targetTime : string)
    (toleranceMinutes : Q) : bool :=
  match wakeupTime with
  | None => false
  | Some time =>
      if String.eqb time "" then false
      else
        let wakeup := newDate time in
        let target := newDate targetTime in
        minutesLate_le wakeup target toleranceMinutes
  end.

(** [DayStateMachine.isHabitComplete]. *)
Definition isHabitComplete (habitId : string) (dayLog : option DayLog)
    (settings : option Settings) : bool :=
  match dayLog with
  | None => false
  | Some dayLog =>
      let habitSettings := habitSettingsOf settings habitId in
      if String.eqb habitId "learning" then
        if negb (learningDone dayLog) then false
        else
          let minHours := num_or (hs_minHoursDaily habitSettings) 0 in
          Qle_bool minHours (num_or (learningHours dayLog) 0)
      else if String.eqb habitId "gym" then
        workout dayLog
      else if String.eqb habitId "sleep" then
        if negb (str_truthy (wakeUp dayLog)) then false
        else
          let target := str_or (hs_wakeupTarget habitSettings) "05:45" in
          let tolerance := num_or (hs_wakeupTolerance habitSettings) 30 in
          isWakeupOnTime (wakeUp dayLog) target tolerance
      else if String.eqb habitId "screenTime" then
        let limit := num_or (hs_dailyLimit habitSettings) 3 in
        Qle_bool (num_or (screenTime dayLog) 0) limit
      else false
  end.

(** [DayStateMachine.calculateState]. *)
Definition calculateState (dayLog : option DayLog) (settings : option Settings)
    : DayState :=
  match dayLog with
  | None => NOT_COUNTED
  | Some log =>
      if negb (finalized log) then NOT_COUNTED
      else
        let enabledHabits := getCompletionHabits settings in
        if (length enabledHabits =? 0)%nat then COMPLETED
        else
          let allMet :=
            fold_left
              (fun allMet habit =>
                 if negb (isHabitComplete (Habit.id habit) dayLog settings)
                 then false else allMet)
              enabledHabits true in
          if allMet then COMPLETED else MISSED
  end.

(** *** habitSystem.js: HabitStreakAuthority *)

(** [HabitStreakAuthority.breakHabitStreak]; [now] is
    [new Date().toISOString()]. *)
Definition breakHabitStreak (now : string) (habitId : string)
    (streakData : StreakData.t) : StreakData.t :=
  let currentStreak := int_or (StreakData.current streakData) 0 in
  if currentStreak =? 0 then streakData
  else
    StreakData.mk
      (Some 0)
      (Some (Z.max currentStreak (int_or (StreakData.best streakData) 0)))
      (Some (Z.min (ceil_div3 currentStreak) 5))
      (Some now)
      (StreakData.lastUpdated streakData).

(** [HabitStreakAuthority.updateHabitStreak]. *)
Definition updateHabitStreak (now : string) (habitId : string) (dayLog : DayLog)
    (streakData : StreakData.t) (settings : option Settings) : StreakData.t :=
  match getHabit habitId with
  | None => streakData
  | Some habit =>
      if negb (Habit.streakEnabled habit) then streakData
      else
        let habitSettings := habitSettingsOf settings habitId in
        if is_false (hs_enabled habitSettings) then streakData
        else if negb (finalized dayLog) then streakData
        else
          let isComplete := isHabitComplete habitId (Some dayLog) settings in
          let currentStreak := int_or (StreakData.current streakData) 0 in
          let recoveryDays := int_or (StreakData.recoveryDays streakData) 0 in
          if 0 <? recoveryDays then
            if isComplete then
              let newRecovery := recoveryDays - 1 in
              StreakData.mk
                (Some (if newRecovery =? 0 then 1 else currentStreak))
                (StreakData.best streakData)
                (Some newRecovery)
                (StreakData.lastBroken streakData)
                (Some now)
            else streakData
          else if isComplete then
            let newStreak := currentStreak + 1 in
            StreakData.mk
              (Some newStreak)
              (Some (Z.max newStreak (int_or (StreakData.best streakData) 0)))
              (StreakData.recoveryDays streakData)
              (StreakData.lastBroken streakData)
              (Some now)
          else breakHabitStreak now habitId streakData
  end.

(** *** script.js: habit validation and day state *)

(** [wasWakeupOnTime]. *)
Definition wasWakeupOnTime (w : World) (log : option DayLog) : bool :=
  match log with
  | None => false
  | Some l =>
      match wakeUp l with
      | None => false
      | Some time =>
          if String.eqb time "" then false
          else
            let wakeupDate := newDate time in
            let targetDate := newDate (wakeupTarget (settings (dashboardData w))) in
            minutesLate_le wakeupDate targetDate 30
      end
  end.

(** [isHabitValidated]. *)
Definition isHabitValidated (w : World) (habitId : string) (log : option DayLog)
    : bool :=
  match log with
  | None => false
  | Some l =>
      if String.eqb habitId "learning" then
        learningDone l && Qlt_bool 0 (num_or (learningHours l) 0)
      else if String.eqb habitId "gym" then
        workout l
      else if String.eqb habitId "sleep" then
        wasWakeupOnTime w log
      else if String.eqb habitId "screenTime" then
        let goal := num_or (screenTimeGoal (settings (dashboardData w))) 3 in
        Qle_bool (num_or (screenTime l) 0) goal
      else true
  end.

(** [checkHabitCompletion]. *)
Definition checkHabitCompletion (w : World) (habitId : string)
    (log : option DayLog) : bool :=
  isHabitValidated w habitId log.

(** The [for ... of] loop of [calculateDayState], which leaves at the
    first habit that is not validated. *)
Fixpoint allMetUntilBreak (w : World) (log : option DayLog)
    (enabledHabits : list string) : bool :=
  match enabledHabits with
  | [] => true
  | habit :: rest =>
      if negb (isHabitValidated w habit log) then false
      else allMetUntilBreak w log rest
  end.

(** [calculateDayState]. *)
Definition calculateDayState (w : World) (log : option DayLog) : DayState :=
  match log with
  | None => NOT_COUNTED
  | Some l =>
      if negb (finalized l) then NOT_COUNTED
      else
        let enabledHabits := getEnabledRequiredHabits w in
        if (length enabledHabits =? 0)%nat then COMPLETED
        else if allMetUntilBreak w log enabledHabits then COMPLETED else MISSED
  end.

(** [previewFinalState]. *)
Definition previewFinalState (w : World) (log : option DayLog) : Preview :=
  match log with
  | None => mkPreview NOT_COUNTED [] 0
  | Some l =>
      let enabledHabits := getEnabledRequiredHabits w in
      let '(allMet, missingHabits) :=
        fold_left
          (fun (acc : bool * list string) habitId =>
             if negb (isHabitValidated w habitId log)
             then (false, (snd acc ++ [getHabitDisplayName habitId])%list)
             else acc)
          enabledHabits (true, []) in
      let mitsCompleted := Z.of_nat (length (filter (fun b : bool => b) (mitsDone l))) in
      let state :=
        if (length enabledHabits =? 0)%nat then COMPLETED
        else if allMet then COMPLETED else MISSED in
      mkPreview state missingHabits mitsCompleted
  end.

(** *** script.js: streak loops *)

Definition with_recoveryDays (n : Z) (h : StreakHistory.t) : StreakHistory.t :=
  StreakHistory.mk (StreakHistory.best h) (StreakHistory.lastBroken h) n
    (StreakHistory.lastUpdated h).

Definition with_lastUpdated (t : option string) (h : StreakHistory.t)
    : StreakHistory.t :=
  StreakHistory.mk (StreakHistory.best h) (StreakHistory.lastBroken h)
    (StreakHistory.recoveryDays h) t.

Definition with_best (n : Z) (h : StreakHistory.t) : StreakHistory.t :=
  StreakHistory.mk n (StreakHistory.lastBroken h) (StreakHistory.recoveryDays h)
    (StreakHistory.lastUpdated h).

Definition with_lastBroken (t : option string) (h : StreakHistory.t)
    : StreakHistory.t :=
  StreakHistory.mk (StreakHistory.best h) t (StreakHistory.recoveryDays h)
    (StreakHistory.lastUpdated h).

Definition streakOf (w : World) (k : StreakKey) : Z :=
  pget (streaks (dashboardData w)) k.

Definition historyOf (w : World) (k : StreakKey) : StreakHistory.t :=
  pget (streakHistory (dashboardData w)) k.

(** The body of the [forEach] in [validateAndUpdateAllStreaks], for one
    habit. *)
Definition updateStreakOf (today : string) (todayLog : DayLog) (w : World)
    (k : StreakKey) : World :=
  if is_false (sa_get_enabled w (enabledKey (habitId k))) then w
  else if str_is (StreakHistory.lastUpdated (historyOf w k)) today then w
  else
    let isComplete := checkHabitCompletion w (habitId k) (Some todayLog) in
    if 0 <? StreakHistory.recoveryDays (historyOf w k) then
      let w1 :=
        if isComplete then
          let w' :=
            set_history k
              (with_recoveryDays (StreakHistory.recoveryDays (historyOf w k) - 1)
                 (historyOf w k)) w in
          if StreakHistory.recoveryDays (historyOf w' k) =? 0
          then set_streak k 1 w' else w'
        else w in
      set_history k (with_lastUpdated (Some today) (historyOf w1 k)) w1
    else
      let w1 :=
        if isComplete then
          let w' := set_streak k (streakOf w k + 1) w in
          if StreakHistory.best (historyOf w' k) <? streakOf w' k
          then set_history k (with_best (streakOf w' k) (historyOf w' k)) w'
          else w'
        else w in
      set_history k (with_lastUpdated (Some today) (historyOf w1 k)) w1.

(** [validateAndUpdateAllStreaks]. *)
Definition validateAndUpdateAllStreaks (today : string) (w : World) : World :=
  let '(todayLog, w0) := getTodayLog today w in
  fold_left (updateStreakOf today todayLog) streakKeys w0.

(** The body of the [forEach] in [applyMissedDayPenalty], for one habit. *)
Definition penalizeStreakOf (today : string) (todayLog : DayLog)
    (sensitivity : string) (w : World) (k : StreakKey) : World :=
  if is_false (sa_get_enabled w (enabledKey (habitId k))) then w
  else
    let isComplete := isHabitValidated w (habitId k) (Some todayLog) in
    if negb isComplete then
      if str_is (StreakHistory.lastUpdated (historyOf w k)) today then w
      else
        let w1 :=
          if String.eqb sensitivity "strict" then
            let wa :=
              if 0 <? streakOf w k
              then set_history k
                     (with_best (Z.max (StreakHistory.best (historyOf w k)) (streakOf w k))
                        (historyOf w k)) w
              else w in
            let wb := set_streak k 0 wa in
            let wc := set_history k (with_lastBroken (Some today) (historyOf wb k)) wb in
            set_history k (with_recoveryDays 5 (historyOf wc k)) wc
          else if String.eqb sensitivity "moderate" then
            set_streak k (streakOf w k / 2) w
          else w in
        set_history k (with_lastUpdated (Some today) (historyOf w1 k)) w1
    else w.

(** [applyMissedDayPenalty]. *)
Definition applyMissedDayPenalty (today : string) (w : World) : World :=
  let '(todayLog, w0) := getTodayLog today w in
  let sensitivity := sensitivityOf w0 in
  fold_left (penalizeStreakOf today todayLog sensitivity) streakKeys w0.

(** *** script.js: finalize *)

(** The [catch] branch of [saveNow]: [todayLog.finalized = false]. *)
Definition revertFinalized (today : string) (w : World) : World :=
  set_dashboardData
    (set_dailyLogs (alter (with_finalized false) today (dailyLogs (dashboardData w)))
       (dashboardData w)) w.

(** The statements of the [try] block of [saveNow] that come before the
    storage writes: finalize the log, compute and store its state, update
    the streaks, the score and [lastActiveDate]. *)
Definition finalizeToday (today now : string) (todayLog : DayLog) (w0 : World)
    : World :=
  let log1 :=
    with_lastInteraction (Some now)
      (with_finalizedAt (Some now) (with_finalized true todayLog)) in
  let w1 := putLog today log1 w0 in
  let dayState := calculateDayState w1 (Some log1) in
  let log2 := with_finalState (Some dayState) log1 in
  let w2 := putLog today log2 w1 in
  let w3 :=
    match dayState with
    | COMPLETED => validateAndUpdateAllStreaks today w2
    | MISSED => applyMissedDayPenalty today w2
    | _ => w2
    end in
  let score := calculateLifeScore (dashboardData w3) in
  let w4 := set_dashboardData (set_lifeScore score (dashboardData w3)) w3 in
  set_dashboardData (set_lastActiveDate (Some today) (dashboardData w4)) w4.

(** Whether the [try] block of [saveNow] throws: [saveToBackendSync] is
    only awaited when the backend is in use. *)
Definition raised (failure : option FailPoint) (w : World) : bool :=
  match failure with
  | Some AtLocalStorage => true
  | Some AtBackend => useBackend w
  | Some AtInterface => true
  | None => false
  end.

(** [saveNow].  [today] is [getDateString()], [now] the ISO timestamp,
    [btn] tells whether the save button exists, and [failure] says
    whether and where the [try] block throws; the [catch] branch then
    runs [revertFinalized]. *)
Definition saveNow (today now : string) (btn : bool) (failure : option FailPoint)
    (w : World) : World :=
  if negb btn then w
  else
    let '(todayLog, w0) := getTodayLog today w in
    if finalized todayLog then w0
    else
      let w5 := finalizeToday today now todayLog w0 in
      match failure with
      | Some AtLocalStorage => revertFinalized today w5
      | _ =>
          let w6 := set_localStorage (Some (dashboardData w5)) w5 in
          if raised failure w6 then revertFinalized today w6 else w6
      end.

(** *** habitSystem.js: interface state and completion percentage *)

(** [x && x > 0] on a number that may be missing. *)
Definition num_pos (x : option Q) : bool :=
  match x with
  | Some q => Qlt_bool 0 q
  | None => false
  end.

(** [DayStateMachine.hasAnyData]. *)
Definition hasAnyData (dayLog : option DayLog) : bool :=
  match dayLog with
  | None => false
  | Some l =>
      learningDone l
      || workout l
      || str_truthy (wakeUp l)
      || num_pos (screenTime l)
      || num_pos (learningHours l)
  end.

(** [DayStateMachine.getUIState]. *)
Definition DayStateMachine_getUIState (dayLog : option DayLog)
    (settings : option Settings) : DayState :=
  match dayLog with
  | None => NOT_STARTED
  | Some l =>
      if finalized l then calculateState dayLog settings
      else if negb (hasAnyData dayLog) then NOT_STARTED
      else IN_PROGRESS
  end.

(** [Math.round((completed / total) * 100)] for [total > 0]:
    [Math.round x] is [floor (x + 1/2)].  The habit lists hold at most four
    entries, where the quotient is never close to a half. *)
Definition roundPercent (completed total : nat) : Z :=
  (200 * Z.of_nat completed + Z.of_nat total) / (2 * Z.of_nat total).

(** [DayStateMachine.getCompletionPercent]. *)
Definition getCompletionPercent (dayLog : option DayLog)
    (settings : option Settings) : Z :=
  let enabledHabits := getEnabledHabits settings in
  if (length enabledHabits =? 0)%nat then 100
  else
    let completed :=
      fold_left
        (fun (completed : nat) habit =>
           if isHabitComplete (Habit.id habit) dayLog settings
           then S completed else completed)
        enabledHabits 0%nat in
    roundPercent completed (length enabledHabits).

(** *** script.js: interface state *)

Section Interface.

(** [String.prototype.trim]. *)
Variable trim : string -> string.

(** [hasAnyDataEntered]. *)
Definition hasAnyDataEntered (w : World) (log : option DayLog) : bool :=
  match log with
  | None => false
  | Some l =>
      learningDone l
      || workout l
      || (match wakeUp l with
          | Some time =>
              negb (String.eqb time "")
              && negb (String.eqb time (wakeupTarget (settings (dashboardData w))))
          | None => false
          end)
      || num_pos (screenTime l)
      || num_pos (learningHours l)
      || existsb (fun m => negb (String.eqb m "") && negb (String.eqb (trim m) ""))
           (mits l)
  end.

(** [getUIState] of script.js. *)
Definition getUIState (w : World) (log : option DayLog) : DayState :=
  match log with
  | None => NOT_STARTED
  | Some l =>
      if finalized l then calculateDayState w log
      else if hasAnyDataEntered w log then IN_PROGRESS else NOT_STARTED
  end.

End Interface.

(** The [completionPercent] that [updateDayStateDisplay] computes for the
    header badge. *)
Definition completionPercent (w : World) (todayLog : DayLog) : Z :=
  let enabledHabits := getEnabledRequiredHabits w in
  let completed :=
    fold_left
      (fun (completed : nat) habitId =>
         if isHabitValidated w habitId (Some todayLog)
         then S completed else completed)
      enabledHabits 0%nat in
  if (0 <? length enabledHabits)%nat
  then roundPercent completed (length enabledHabits)
  else 100.

(** *** script.js: day rollover *)

Definition with_archived (b : bool) (l : DayLog) : DayLog :=
  mkDayLog (date l) (wakeUp l) (sleptOnTime l) (learned l) (learningDone l)
    (learningHours l) (workout l) (workoutType l) (screenTime l) (mood l)
    (mits l) (mitsDone l) (tasks l) b
    (finalized l) (finalizedAt l) (finalState l) (lastInteraction l).

(** [archiveDay]. *)
Definition archiveDay (dateStr : string) (w : World) : World :=
  match dailyLogs (dashboardData w) !! dateStr with
  | Some log =>
      if negb (archived log) then putLog dateStr (with_archived true log) w else w
  | None => w
  end.

(** [finalizeDayState]: the close of a day that has passed. *)
Definition finalizeDayState (dateStr : string) (w : World) : World :=
  match dailyLogs (dashboardData w) !! dateStr with
  | None => w
  | Some log =>
      if finalized log then w
      else
        putLog dateStr
          (with_archived true (with_finalState (Some NOT_COUNTED) log)) w
  end.

Section Rollover.

(** [getDateString] of the day [i] days before now, as the loop of
    [handleInactivityGap] computes it with [Date.setDate]. *)
Variable dateDaysAgo : Z -> string.

(** [getDaysBetween]: whole days from one date string to another. *)
Variable getDaysBetween : string -> string -> Z.

(** The placeholder log [handleInactivityGap] pushes for a day without
    one. *)
Definition gapLog (gapDateStr : string) : DayLog :=
  {| date := gapDateStr;
     wakeUp := None;
     sleptOnTime := None;
     learned := "";
     learningDone := false;
     learningHours := Some 0%Q;
     workout := false;
     workoutType := None;
     screenTime := Some 0%Q;
     mood := None;
     mits := [""; ""; ""];
     mitsDone := [false; false; false];
     tasks := [];
     archived := true;
     finalized := false;
     finalizedAt := None;
     finalState := Some NOT_COUNTED;
     lastInteraction := None |}.

(** The [for] loop of [handleInactivityGap], from [i] down to 1. *)
Fixpoint fillGapDays (i : nat) (w : World) : World :=
  match i with
  | O => w
  | S j =>
      let gapDateStr := dateDaysAgo (Z.of_nat i) in
      let w' :=
        match dailyLogs (dashboardData w) !! gapDateStr with
        | Some _ => w
        | None => putLog gapDateStr (gapLog gapDateStr) w
        end in
      fillGapDays j w'
  end.

(** [handleInactivityGap]. *)
Definition handleInactivityGap (today : string) (daysMissed : Z) (w : World) : World :=
  saveToStorage today (fillGapDays (Z.to_nat (daysMissed - 1)) w).

(** [handleDayTransition]. *)
Definition handleDayTransition (today : string) (w : World) : World :=
  if negb (str_truthy (lastActiveDate (dashboardData w)))
  then snd (createTodayLog today w)
  else
    let lastActive := str_or (lastActiveDate (dashboardData w)) "" in
    let daysMissed := getDaysBetween lastActive today in
    if 0 <? daysMissed then
      let w1 := archiveDay lastActive w in
      let w2 := finalizeDayState lastActive w1 in
      let w3 := if 1 <? daysMissed then handleInactivityGap today daysMissed w2 else w2 in
      snd (createTodayLog today w3)
    else
      match dailyLogs (dashboardData w) !! today with
      | Some _ => w
      | None => snd (createTodayLog today w)
      end.

End Rollover.

(** *** script.js: the single-habit streak functions *)

(** [updateSingleHabitStreak]. *)
Definition updateSingleHabitStreak (today : string) (k : StreakKey) (w : World)
    : World :=
  let '(todayLog, w0) := getTodayLog today w in
  if str_is (StreakHistory.lastUpdated (historyOf w0 k)) today then w0
  else
    let isComplete := checkHabitCompletion w0 (habitId k) (Some todayLog) in
    if 0 <? StreakHistory.recoveryDays (historyOf w0 k) then
      let w1 :=
        if isComplete then
          let w' :=
            set_history k
              (with_recoveryDays (StreakHistory.recoveryDays (historyOf w0 k) - 1)
                 (historyOf w0 k)) w0 in
          if StreakHistory.recoveryDays (historyOf w' k) =? 0
          then set_streak k 1 w' else w'
        else w0 in
      saveToStorage today
        (set_history k (with_lastUpdated (Some today) (historyOf w1 k)) w1)
    else
      let w1 :=
        if isComplete then
          let w' := set_streak k (streakOf w0 k + 1) w0 in
          if StreakHistory.best (historyOf w' k) <? streakOf w' k
          then set_history k (with_best (streakOf w' k) (historyOf w' k)) w'
          else w'
        else w0 in
      saveToStorage today
        (set_history k (with_lastUpdated (Some today) (historyOf w1 k)) w1).

(** [breakSingleStreak]; the backend call in its middle has its errors
    caught and changes nothing here. *)
Definition breakSingleStreak (today : string) (k : StreakKey) (w : World) : World :=
  let currentStreak := streakOf w k in
  if currentStreak =? 0 then w
  else
    let w1 :=
      if StreakHistory.best (historyOf w k) <? currentStreak
      then set_history k (with_best currentStreak (historyOf w k)) w
      else w in
    let w2 := set_history k (with_lastBroken (Some today) (historyOf w1 k)) w1 in
    let w3 :=
      set_history k
        (with_recoveryDays (Z.min (ceil_div3 currentStreak) 5) (historyOf w2 k)) w2 in
    let w4 := set_streak k 0 w3 in
    saveToStorage today w4.

(** The body of the [forEach] in [applyScreenTimePunishment]. *)
Definition slowRecoveryOf (w : World) (k : StreakKey) : World :=
  if 0 <? StreakHistory.recoveryDays (historyOf w k)
  then set_history k
         (with_recoveryDays (Z.min (StreakHistory.recoveryDays (historyOf w k) + 1) 7)
            (historyOf w k)) w
  else w.

(** [applyScreenTimePunishment].  Its test is [hours > goal * 2].  A goal
    that reads as [None] is undefined, NaN or null: for undefined and NaN
    the product is NaN and the test is false; for null the product is 0 and
    the test is [hours > 0].  [goalIsNull] tells which of the two an absent
    goal is. *)
Definition applyScreenTimePunishment (goalIsNull : bool) (hours : Q) (w : World)
    : World :=
  let over :=
    match screenTimeGoal (settings (dashboardData w)) with
    | Some goal => Qlt_bool (goal * 2) hours
    | None => goalIsNull && Qlt_bool 0 hours
    end in
  if over then fold_left slowRecoveryOf streakKeys w else w.

(** *** Predicates used in the proofs *)

(** What a streak step leaves alone: everything but the two streak
    tables. *)
Definition same_outside_streaks (w w' : World) : Prop :=
  settingsAuthority w' = settingsAuthority w
  /\ useBackend w' = useBackend w
  /\ localStorage w' = localStorage w
  /\ dailyLogs (dashboardData w') = dailyLogs (dashboardData w)
  /\ settings (dashboardData w') = settings (dashboardData w)
  /\ lifeScore (dashboardData w') = lifeScore (dashboardData w)
  /\ lastActiveDate (dashboardData w') = lastActiveDate (dashboardData w).

(** The entry of habit [k] in both streak tables is the same in [w] and
    [w']. *)
Definition same_entry (k : StreakKey) (w w' : World) : Prop :=
  streakOf w' k = streakOf w k /\ historyOf w' k = historyOf w k.

(** A streak habit is settled for [today] when it is switched off or its
    [lastUpdated] stamp is [today]. *)
Definition settled (today : string) (w : World) (k : StreakKey) : Prop :=
  is_false (sa_get_enabled w (enabledKey (habitId k))) = true
  \/ str_is (StreakHistory.lastUpdated (historyOf w k)) today = true.

(** A habit is spared by the penalty loop when it is switched off, done
    today, or already stamped with [today]. *)
Definition spared (today : string) (log : DayLog) (w : World) (k : StreakKey) : Prop :=
  is_false (sa_get_enabled w (enabledKey (habitId k))) = true
  \/ isHabitValidated w (habitId k) (Some log) = true
  \/ str_is (StreakHistory.lastUpdated (historyOf w k)) today = true.

Ltac split_ifs :=
  repeat match goal with
         | |- context [if ?c then _ else _] => destruct c eqn:?
         end.

(** A streak record of habitSystem.js in good order: the counter is not
    above the best, the recovery period is at most five days, and a habit in
    recovery has a counter of 0 and has had a streak before. *)
Definition streak_wf (s : StreakData.t) : Prop :=
  0 <= int_or (StreakData.current s) 0 <= int_or (StreakData.best s) 0
  /\ 0 <= int_or (StreakData.recoveryDays s) 0 <= 5
  /\ (0 < int_or (StreakData.recoveryDays s) 0 ->
      int_or (StreakData.current s) 0 = 0 /\ 1 <= int_or (StreakData.best s) 0).

(** A streak entry of script.js in order: the counter is not negative, the
    recovery period is between 0 and 7 days, and a habit in recovery has a
    counter of 0. *)
Definition entry_in_order (s : Z) (h : StreakHistory.t) : Prop :=
  0 <= s
  /\ 0 <= StreakHistory.recoveryDays h <= 7
  /\ (0 < StreakHistory.recoveryDays h -> s = 0).

Definition streaks_in_order (w : World) : Prop :=
  forall k, entry_in_order (streakOf w k) (historyOf w k).


(** The rollover may set the [archived] flag and the stored state of a
    log; everything else in the log stays. *)
Definition same_day_data (l l' : DayLog) : Prop :=
  with_archived true (with_finalState None l')
  = with_archived true (with_finalState None l).

(** Every log of [w] is still there in [w'], with what was logged and the
    [finalized] flag as they were, and with its stored state too if the day
    was finalized. *)
Definition logs_kept (w w' : World) : Prop :=
  forall d l,
    dailyLogs (dashboardData w) !! d = Some l ->
    exists l',
      dailyLogs (dashboardData w') !! d = Some l'
      /\ same_day_data l l'
      /\ finalized l' = finalized l
      /\ (finalized l = true -> finalState l' = finalState l).

(** Every log of [w] is in [w'] unchanged. *)
Definition logs_extended (w w' : World) : Prop :=
  forall d l,
    dailyLogs (dashboardData w) !! d = Some l ->
    dailyLogs (dashboardData w') !! d = Some l.

Definition same_streak_tables (w w' : World) : Prop :=
  streaks (dashboardData w') = streaks (dashboardData w)
  /\ streakHistory (dashboardData w') = streakHistory (dashboardData w).

(** The streak entry that script.js keeps for habit [k], read as a streak
    record of habitSystem.js. *)
Definition streakDataOf (w : World) (k : StreakKey) : StreakData.t :=
  StreakData.mk
    (Some (streakOf w k))
    (Some (StreakHistory.best (historyOf w k)))
    (Some (StreakHistory.recoveryDays (historyOf w k)))
    (StreakHistory.lastBroken (historyOf w k))
    (StreakHistory.lastUpdated (historyOf w k)).

(** ** Auxiliary facts *)

Lemma Qlt_bool_iff (a b : Q) : Qlt_bool a b = true <-> (a < b)%Q.
Proof. unfold Qlt_bool, Qlt. apply Z.ltb_lt. Qed.

Lemma not_false_is_false (x : option bool) : is_false x = true <-> x = Some false.
Proof.
  unfold is_false, not_false.
  destruct x as [[|]|]; simpl; split; intro H; congruence.
Qed.

Lemma pget_pset_same {A} (k : StreakKey) (v : A) (t : PerHabit A) :
  pget (pset k v t) k = v.
Proof. destruct k; reflexivity. Qed.

Lemma pget_pset_other {A} (k k' : StreakKey) (v : A) (t : PerHabit A) :
  k <> k' -> pget (pset k v t) k' = pget t k'.
Proof. destruct k, k'; intro H; try reflexivity; congruence. Qed.

(** The validation predicate of script.js reads the log's own data, the
    dashboard settings and nothing else of the world. *)
Lemma isHabitValidated_settings (w w' : World) (h : string) (log : option DayLog) :
  settings (dashboardData w) = settings (dashboardData w') ->
  isHabitValidated w h log = isHabitValidated w' h log.
Proof.
  intro E. unfold isHabitValidated, wasWakeupOnTime.
  destruct log as [l|]; [|reflexivity]. rewrite E. reflexivity.
Qed.

Lemma isHabitValidated_with_finalized (w : World) (h : string) (l : DayLog) (b : bool) :
  isHabitValidated w h (Some (with_finalized b l)) = isHabitValidated w h (Some l).
Proof. reflexivity. Qed.

(** The early exit of [calculateDayState] computes a conjunction. *)
Lemma allMetUntilBreak_forallb (w : World) (log : option DayLog) (hs : list string) :
  allMetUntilBreak w log hs = forallb (fun h => isHabitValidated w h log) hs.
Proof.
  induction hs as [|h hs IH]; simpl; [reflexivity|].
  rewrite IH. destruct (isHabitValidated w h log); reflexivity.
Qed.

(** So does the flag that the [forEach] of [DayStateMachine.calculateState]
    clears. *)
Lemma forEach_allMet_forallb {A} (p : A -> bool) (hs : list A) (acc : bool) :
  fold_left (fun allMet h => if negb (p h) then false else allMet) hs acc
  = acc && forallb p hs.
Proof.
  revert acc. induction hs as [|h hs IH]; intro acc; simpl.
  - now rewrite andb_true_r.
  - rewrite IH. destruct (p h), acc; simpl; reflexivity.
Qed.

(** And the flag of the [forEach] of [previewFinalState]. *)
Lemma preview_fold_fst (w : World) (log : option DayLog) (hs : list string)
    (acc : bool * list string) :
  fst (fold_left
         (fun (acc : bool * list string) habitId =>
            if negb (isHabitValidated w habitId log)
            then (false, (snd acc ++ [getHabitDisplayName habitId])%list)
            else acc) hs acc)
  = fst acc && forallb (fun h => isHabitValidated w h log) hs.
Proof.
  revert acc. induction hs as [|h hs IH]; intro acc; simpl.
  - now rewrite andb_true_r.
  - rewrite IH. destruct (isHabitValidated w h log), acc as [[|] ?]; reflexivity.
Qed.

Lemma forallb_Forall_true {A} (p : A -> bool) (l : list A) :
  forallb p l = true <-> Forall (fun x => p x = true) l.
Proof.
  rewrite forallb_forall, Forall_forall.
  split; intros H x Hx; apply H; [apply list_elem_of_In|apply list_elem_of_In in Hx]; assumption.
Qed.

Lemma calculateDayState_finalized (w : World) (l : DayLog) :
  finalized l = true ->
  calculateDayState w (Some l)
  = if forallb (fun h => isHabitValidated w h (Some l)) (getEnabledRequiredHabits w)
    then COMPLETED else MISSED.
Proof.
  intro F. unfold calculateDayState. rewrite F. simpl.
  rewrite allMetUntilBreak_forallb.
  destruct (getEnabledRequiredHabits w); reflexivity.
Qed.

Lemma calculateState_finalized (settings : option Settings) (l : DayLog) :
  finalized l = true ->
  calculateState (Some l) settings
  = if forallb (fun h => isHabitComplete (Habit.id h) (Some l) settings)
         (getCompletionHabits settings)
    then COMPLETED else MISSED.
Proof.
  intro F. unfold calculateState. rewrite F. simpl.
  rewrite (forEach_allMet_forallb
             (fun h => isHabitComplete (Habit.id h) (Some l) settings)).
  destruct (getCompletionHabits settings); reflexivity.
Qed.

Lemma previewFinalState_state (w : World) (l : DayLog) :
  state (previewFinalState w (Some l))
  = if forallb (fun h => isHabitValidated w h (Some l)) (getEnabledRequiredHabits w)
    then COMPLETED else MISSED.
Proof.
  unfold previewFinalState.
  pose proof (preview_fold_fst w (Some l) (getEnabledRequiredHabits w) (true, [])) as P.
  destruct (fold_left _ (getEnabledRequiredHabits w) (true, [])) as [allMet missing].
  simpl in P. subst allMet. simpl.
  destruct (getEnabledRequiredHabits w); reflexivity.
Qed.

(** ** Day state *)

(** C1. A day log whose [finalized] flag is false is NOT_COUNTED, whatever
    its other fields and whatever the configuration, in [calculateDayState]
    of script.js and in [DayStateMachine.calculateState] of habitSystem.js;
    a missing log is NOT_COUNTED too. *)
Theorem unfinalized_day_is_NOT_COUNTED
    (w : World) (settings : option Settings) (log : DayLog) :
  finalized log = false ->
  calculateDayState w (Some log) = NOT_COUNTED
  /\ calculateState (Some log) settings = NOT_COUNTED
  /\ calculateDayState w None = NOT_COUNTED
  /\ calculateState None settings = NOT_COUNTED.
Proof.
  intro F. unfold calculateDayState, calculateState. rewrite F. simpl.
  repeat split; reflexivity.
Qed.

(** C2. For a finalized day log: with no enabled required habit the state
    is COMPLETED; otherwise it is COMPLETED exactly when every habit of the
    list is satisfied and MISSED exactly when one is not, and no other state
    is returned.  Both for script.js ([getEnabledRequiredHabits],
    [isHabitValidated]) and for habitSystem.js ([getCompletionHabits],
    [isHabitComplete]). *)
Theorem finalized_day_is_all_or_nothing
    (w : World) (settings : option Settings) (log : DayLog) :
  finalized log = true ->
  ((getEnabledRequiredHabits w = [] -> calculateDayState w (Some log) = COMPLETED)
   /\ (calculateDayState w (Some log) = COMPLETED <->
       Forall (fun h => isHabitValidated w h (Some log) = true)
              (getEnabledRequiredHabits w))
   /\ (calculateDayState w (Some log) = MISSED <->
       ~ Forall (fun h => isHabitValidated w h (Some log) = true)
                (getEnabledRequiredHabits w))
   /\ (calculateDayState w (Some log) = COMPLETED
       \/ calculateDayState w (Some log) = MISSED))
  /\
  ((getCompletionHabits settings = [] -> calculateState (Some log) settings = COMPLETED)
   /\ (calculateState (Some log) settings = COMPLETED <->
       Forall (fun h => isHabitComplete (Habit.id h) (Some log) settings = true)
              (getCompletionHabits settings))
   /\ (calculateState (Some log) settings = MISSED <->
       ~ Forall (fun h => isHabitComplete (Habit.id h) (Some log) settings = true)
                (getCompletionHabits settings))
   /\ (calculateState (Some log) settings = COMPLETED
       \/ calculateState (Some log) settings = MISSED)).
Proof.
  intro F.
  rewrite (calculateDayState_finalized w log F).
  rewrite (calculateState_finalized settings log F).
  rewrite <- !forallb_Forall_true.
  split.
  - split; [intros ->; reflexivity|].
    destruct (forallb _ (getEnabledRequiredHabits w));
      repeat split; try tauto; try congruence; intros; try discriminate; auto.
  - split; [intros ->; reflexivity|].
    destruct (forallb _ (getCompletionHabits settings));
      repeat split; try tauto; try congruence; intros; try discriminate; auto.
Qed.

(** ** Habit validation *)

(** C5, as the code has it.  [DayStateMachine.isHabitComplete] accepts
    learning exactly when the toggle is on and the hours reach the
    configured [minHoursDaily] (0 when unset); [isHabitValidated] of
    script.js accepts it exactly when the toggle is on and the hours are
    positive, and reads no configured minimum. *)
Theorem learning_rule (w : World) (settings : option Settings) (log : DayLog) :
  (isHabitComplete "learning" (Some log) settings = true <->
     learningDone log = true
     /\ (num_or (hs_minHoursDaily (habitSettingsOf settings "learning")) 0
         <= num_or (learningHours log) 0)%Q)
  /\ (isHabitValidated w "learning" (Some log) = true <->
     learningDone log = true /\ (0 < num_or (learningHours log) 0)%Q).
Proof.
  unfold isHabitComplete, isHabitValidated. simpl.
  rewrite andb_true_iff, Qlt_bool_iff.
  destruct (learningDone log); simpl.
  - rewrite Qle_bool_iff. tauto.
  - split; split; intro H; try discriminate; destruct H; discriminate.
Qed.

(** C6, as the code has it.  For a habit id outside the four known ones,
    [isHabitValidated] of script.js answers true on every log, and
    [DayStateMachine.isHabitComplete] answers false. *)
Theorem unknown_habit_rule
    (w : World) (settings : option Settings) (log : DayLog) (h : string) :
  h <> "learning" -> h <> "gym" -> h <> "sleep" -> h <> "screenTime" ->
  isHabitValidated w h (Some log) = true
  /\ isHabitComplete h (Some log) settings = false.
Proof.
  intros H1 H2 H3 H4.
  apply String.eqb_neq in H1, H2, H3, H4.
  unfold isHabitValidated, isHabitComplete.
  rewrite H1, H2, H3, H4. split; reflexivity.
Qed.

(** ** Streaks in script.js *)

Lemma same_outside_streaks_refl (w : World) : same_outside_streaks w w.
Proof. repeat split. Qed.

Lemma same_outside_streaks_trans (w1 w2 w3 : World) :
  same_outside_streaks w1 w2 -> same_outside_streaks w2 w3 ->
  same_outside_streaks w1 w3.
Proof.
  unfold same_outside_streaks. intros (a1 & a2 & a3 & a4 & a5 & a6 & a7)
    (b1 & b2 & b3 & b4 & b5 & b6 & b7).
  repeat split; congruence.
Qed.

Lemma set_history_frame (w w' : World) (k : StreakKey) (h : StreakHistory.t) :
  same_outside_streaks w w' -> same_outside_streaks w (set_history k h w').
Proof. intro H. exact H. Qed.

Lemma set_streak_frame (w w' : World) (k : StreakKey) (v : Z) :
  same_outside_streaks w w' -> same_outside_streaks w (set_streak k v w').
Proof. intro H. exact H. Qed.

Ltac solve_frame :=
  repeat first [apply set_history_frame | apply set_streak_frame];
  apply same_outside_streaks_refl.

Lemma historyOf_set_history_same (k : StreakKey) (h : StreakHistory.t) (w : World) :
  historyOf (set_history k h w) k = h.
Proof. unfold historyOf, set_history. simpl. apply pget_pset_same. Qed.

Lemma historyOf_set_history_other (j k : StreakKey) (h : StreakHistory.t) (w : World) :
  j <> k -> historyOf (set_history j h w) k = historyOf w k.
Proof. intro N. unfold historyOf, set_history. simpl. now apply pget_pset_other. Qed.

Lemma historyOf_set_streak (j k : StreakKey) (v : Z) (w : World) :
  historyOf (set_streak j v w) k = historyOf w k.
Proof. reflexivity. Qed.

Lemma streakOf_set_history (j k : StreakKey) (h : StreakHistory.t) (w : World) :
  streakOf (set_history j h w) k = streakOf w k.
Proof. reflexivity. Qed.

Lemma streakOf_set_streak_same (k : StreakKey) (v : Z) (w : World) :
  streakOf (set_streak k v w) k = v.
Proof. unfold streakOf, set_streak. simpl. apply pget_pset_same. Qed.

Lemma streakOf_set_streak_other (j k : StreakKey) (v : Z) (w : World) :
  j <> k -> streakOf (set_streak j v w) k = streakOf w k.
Proof. intro N. unfold streakOf, set_streak. simpl. now apply pget_pset_other. Qed.

Lemma same_entry_refl (k : StreakKey) (w : World) : same_entry k w w.
Proof. split; reflexivity. Qed.

Lemma set_history_entry (j k : StreakKey) (h : StreakHistory.t) (w w' : World) :
  j <> k -> same_entry k w w' -> same_entry k w (set_history j h w').
Proof.
  intros N [S H]. split.
  - now rewrite streakOf_set_history.
  - now rewrite historyOf_set_history_other.
Qed.

Lemma set_streak_entry (j k : StreakKey) (v : Z) (w w' : World) :
  j <> k -> same_entry k w w' -> same_entry k w (set_streak j v w').
Proof.
  intros N [S H]. split.
  - now rewrite streakOf_set_streak_other.
  - now rewrite historyOf_set_streak.
Qed.

Ltac solve_entry N :=
  repeat first [apply (set_history_entry _ _ _ _ _ N)
               | apply (set_streak_entry _ _ _ _ _ N)];
  apply same_entry_refl.

Lemma updateStreakOf_frame (today : string) (log : DayLog) (w : World) (k : StreakKey) :
  same_outside_streaks w (updateStreakOf today log w k).
Proof.
  unfold updateStreakOf. cbv zeta. split_ifs; solve_frame.
Qed.

Lemma penalizeStreakOf_frame (today : string) (log : DayLog) (s : string)
    (w : World) (k : StreakKey) :
  same_outside_streaks w (penalizeStreakOf today log s w k).
Proof.
  unfold penalizeStreakOf. cbv zeta. split_ifs; solve_frame.
Qed.

Lemma updateStreakOf_other (today : string) (log : DayLog) (w : World)
    (j k : StreakKey) :
  j <> k -> same_entry k w (updateStreakOf today log w j).
Proof.
  intro N. unfold updateStreakOf. cbv zeta. split_ifs; solve_entry N.
Qed.

Lemma penalizeStreakOf_other (today : string) (log : DayLog) (s : string)
    (w : World) (j k : StreakKey) :
  j <> k -> same_entry k w (penalizeStreakOf today log s w j).
Proof.
  intro N. unfold penalizeStreakOf. cbv zeta. split_ifs; solve_entry N.
Qed.

Lemma sa_get_enabled_frame (w w' : World) (h : string) :
  same_outside_streaks w w' -> sa_get_enabled w' h = sa_get_enabled w h.
Proof. intros (E & _). unfold sa_get_enabled. now rewrite E. Qed.

Lemma isHabitValidated_frame (w w' : World) (h : string) (log : option DayLog) :
  same_outside_streaks w w' -> isHabitValidated w' h log = isHabitValidated w h log.
Proof.
  intros (_ & _ & _ & _ & E & _). now apply isHabitValidated_settings.
Qed.

Lemma enabledKey_habitId (k : StreakKey) : enabledKey (habitId k) = habitId k.
Proof. destruct k; reflexivity. Qed.

Lemma getTodayLog_frame (today : string) (w : World) :
  settingsAuthority (snd (getTodayLog today w)) = settingsAuthority w
  /\ useBackend (snd (getTodayLog today w)) = useBackend w
  /\ settings (dashboardData (snd (getTodayLog today w))) = settings (dashboardData w)
  /\ streaks (dashboardData (snd (getTodayLog today w))) = streaks (dashboardData w)
  /\ streakHistory (dashboardData (snd (getTodayLog today w)))
     = streakHistory (dashboardData w)
  /\ dailyLogs (dashboardData (snd (getTodayLog today w))) !! today
     = Some (fst (getTodayLog today w)).
Proof.
  unfold getTodayLog, createTodayLog.
  destruct (dailyLogs (dashboardData w) !! today) as [l|] eqn:E; simpl.
  - repeat split. exact E.
  - repeat split. apply lookup_insert_eq.
Qed.

(** Once a log of the date exists, [getTodayLog] returns it and changes
    nothing. *)
Lemma getTodayLog_found (today : string) (w : World) (l : DayLog) :
  dailyLogs (dashboardData w) !! today = Some l -> getTodayLog today w = (l, w).
Proof. intro E. unfold getTodayLog. now rewrite E. Qed.

Lemma stamped_today (today : string) (k : StreakKey) (h : StreakHistory.t) (w : World) :
  str_is (StreakHistory.lastUpdated
            (historyOf (set_history k (with_lastUpdated (Some today) h) w) k)) today
  = true.
Proof. rewrite historyOf_set_history_same. simpl. apply String.eqb_refl. Qed.

Lemma updateStreakOf_settled_id (today : string) (log : DayLog) (w : World)
    (k : StreakKey) :
  settled today w k -> updateStreakOf today log w k = w.
Proof.
  intros [D|D]; unfold updateStreakOf; rewrite D; [reflexivity|].
  destruct (is_false _); reflexivity.
Qed.

Lemma updateStreakOf_settles (today : string) (log : DayLog) (w : World)
    (k : StreakKey) :
  settled today (updateStreakOf today log w k) k.
Proof.
  unfold settled.
  rewrite (sa_get_enabled_frame w _ _ (updateStreakOf_frame today log w k)).
  unfold updateStreakOf.
  destruct (is_false (sa_get_enabled w (enabledKey (habitId k)))) eqn:D;
    [left; reflexivity|].
  right.
  destruct (str_is (StreakHistory.lastUpdated (historyOf w k)) today) eqn:U;
    [exact U|].
  cbv zeta.
  destruct (0 <? StreakHistory.recoveryDays (historyOf w k)); apply stamped_today.
Qed.

Lemma updateStreakOf_keeps_settled (today : string) (log : DayLog) (w : World)
    (j k : StreakKey) :
  settled today w k -> settled today (updateStreakOf today log w j) k.
Proof.
  intro S.
  destruct (decide (j = k)) as [->|N].
  - now rewrite updateStreakOf_settled_id.
  - unfold settled in *.
    rewrite (sa_get_enabled_frame w _ _ (updateStreakOf_frame today log w j)).
    destruct (updateStreakOf_other today log w j k N) as [_ ->]. exact S.
Qed.

(** X29. The [lastUpdated] guard at work: a second run of
    [validateAndUpdateAllStreaks] on the same date changes nothing. *)
Theorem validateAndUpdateAllStreaks_idempotent (today : string) (w : World) :
  validateAndUpdateAllStreaks today (validateAndUpdateAllStreaks today w)
  = validateAndUpdateAllStreaks today w.
Proof.
  unfold validateAndUpdateAllStreaks at 2 3.
  pose proof (getTodayLog_frame today w) as (_ & _ & _ & _ & _ & L).
  destruct (getTodayLog today w) as [log w0] eqn:G.
  simpl in L.
  unfold streakKeys. simpl fold_left.
  set (w1 := updateStreakOf today log w0 k_learning).
  set (w2 := updateStreakOf today log w1 k_gym).
  set (w3 := updateStreakOf today log w2 k_sleep).
  assert (S1 : settled today w3 k_learning).
  { do 2 apply updateStreakOf_keeps_settled. apply updateStreakOf_settles. }
  assert (S2 : settled today w3 k_gym).
  { apply updateStreakOf_keeps_settled. apply updateStreakOf_settles. }
  assert (S3 : settled today w3 k_sleep) by apply updateStreakOf_settles.
  assert (L3 : dailyLogs (dashboardData w3) !! today = Some log).
  { destruct (updateStreakOf_frame today log w2 k_sleep) as (_ & _ & _ & E3 & _).
    destruct (updateStreakOf_frame today log w1 k_gym) as (_ & _ & _ & E2 & _).
    destruct (updateStreakOf_frame today log w0 k_learning) as (_ & _ & _ & E1 & _).
    fold w1 in E1, E2. fold w2 in E2, E3. fold w3 in E3.
    rewrite E3, E2, E1. exact L. }
  unfold validateAndUpdateAllStreaks.
  rewrite (getTodayLog_found today w3 log L3).
  unfold streakKeys. simpl fold_left.
  rewrite (updateStreakOf_settled_id today log w3 k_learning S1).
  rewrite (updateStreakOf_settled_id today log w3 k_gym S2).
  apply (updateStreakOf_settled_id today log w3 k_sleep S3).
Qed.

Lemma penalizeStreakOf_spared_id (today : string) (log : DayLog) (s : string)
    (w : World) (k : StreakKey) :
  spared today log w k -> penalizeStreakOf today log s w k = w.
Proof.
  intros [D|[D|D]]; unfold penalizeStreakOf; rewrite D.
  - reflexivity.
  - destruct (is_false (sa_get_enabled w (enabledKey (habitId k)))); reflexivity.
  - destruct (is_false (sa_get_enabled w (enabledKey (habitId k))));
      [reflexivity|].
    destruct (isHabitValidated w (habitId k) (Some log)); reflexivity.
Qed.

Lemma penalizeStreakOf_spares (today : string) (log : DayLog) (s : string)
    (w : World) (k : StreakKey) :
  spared today log (penalizeStreakOf today log s w k) k.
Proof.
  unfold spared.
  rewrite (sa_get_enabled_frame w _ _ (penalizeStreakOf_frame today log s w k)).
  rewrite (isHabitValidated_frame w _ _ _ (penalizeStreakOf_frame today log s w k)).
  unfold penalizeStreakOf.
  destruct (is_false (sa_get_enabled w (enabledKey (habitId k)))) eqn:D;
    [left; reflexivity|].
  destruct (isHabitValidated w (habitId k) (Some log)) eqn:V;
    [right; left; reflexivity|].
  right; right. simpl negb. cbv iota.
  destruct (str_is (StreakHistory.lastUpdated (historyOf w k)) today) eqn:U;
    [exact U|].
  cbv zeta. apply stamped_today.
Qed.

Lemma penalizeStreakOf_keeps_spared (today : string) (log : DayLog) (s : string)
    (w : World) (j k : StreakKey) :
  spared today log w k -> spared today log (penalizeStreakOf today log s w j) k.
Proof.
  intro S.
  destruct (decide (j = k)) as [->|N].
  - now rewrite penalizeStreakOf_spared_id.
  - unfold spared in *.
    rewrite (sa_get_enabled_frame w _ _ (penalizeStreakOf_frame today log s w j)).
    rewrite (isHabitValidated_frame w _ _ _ (penalizeStreakOf_frame today log s w j)).
    destruct (penalizeStreakOf_other today log s w j k N) as [_ ->]. exact S.
Qed.

(** X30. And a second run of [applyMissedDayPenalty] on the same date
    changes nothing either. *)
Theorem applyMissedDayPenalty_idempotent (today : string) (w : World) :
  applyMissedDayPenalty today (applyMissedDayPenalty today w)
  = applyMissedDayPenalty today w.
Proof.
  unfold applyMissedDayPenalty at 2 3.
  pose proof (getTodayLog_frame today w) as (_ & _ & _ & _ & _ & L).
  destruct (getTodayLog today w) as [log w0] eqn:G.
  simpl in L.
  unfold streakKeys. simpl fold_left.
  set (s := sensitivityOf w0).
  set (w1 := penalizeStreakOf today log s w0 k_learning).
  set (w2 := penalizeStreakOf today log s w1 k_gym).
  set (w3 := penalizeStreakOf today log s w2 k_sleep).
  assert (S1 : spared today log w3 k_learning).
  { do 2 apply penalizeStreakOf_keeps_spared. apply penalizeStreakOf_spares. }
  assert (S2 : spared today log w3 k_gym).
  { apply penalizeStreakOf_keeps_spared. apply penalizeStreakOf_spares. }
  assert (S3 : spared today log w3 k_sleep) by apply penalizeStreakOf_spares.
  assert (L3 : dailyLogs (dashboardData w3) !! today = Some log).
  { destruct (penalizeStreakOf_frame today log s w2 k_sleep) as (_ & _ & _ & E3 & _).
    destruct (penalizeStreakOf_frame today log s w1 k_gym) as (_ & _ & _ & E2 & _).
    destruct (penalizeStreakOf_frame today log s w0 k_learning) as (_ & _ & _ & E1 & _).
    fold w1 in E1, E2. fold w2 in E2, E3. fold w3 in E3.
    rewrite E3, E2, E1. exact L. }
  unfold applyMissedDayPenalty.
  rewrite (getTodayLog_found today w3 log L3).
  unfold streakKeys. simpl fold_left.
  rewrite (penalizeStreakOf_spared_id today log _ w3 k_learning S1).
  rewrite (penalizeStreakOf_spared_id today log _ w3 k_gym S2).
  apply (penalizeStreakOf_spared_id today log _ w3 k_sleep S3).
Qed.

Lemma fold_penalize_frame (today : string) (log : DayLog) (s : string)
    (ks : list StreakKey) (w : World) :
  same_outside_streaks w (fold_left (penalizeStreakOf today log s) ks w).
Proof.
  revert w. induction ks as [|j ks IH]; intro w; simpl.
  - apply same_outside_streaks_refl.
  - eapply same_outside_streaks_trans; [apply penalizeStreakOf_frame|apply IH].
Qed.

Lemma fold_update_frame (today : string) (log : DayLog)
    (ks : list StreakKey) (w : World) :
  same_outside_streaks w (fold_left (updateStreakOf today log) ks w).
Proof.
  revert w. induction ks as [|j ks IH]; intro w; simpl.
  - apply same_outside_streaks_refl.
  - eapply same_outside_streaks_trans; [apply updateStreakOf_frame|apply IH].
Qed.

Lemma same_entry_trans (k : StreakKey) (w1 w2 w3 : World) :
  same_entry k w1 w2 -> same_entry k w2 w3 -> same_entry k w1 w3.
Proof. intros [a b] [c d]. split; congruence. Qed.

Lemma fold_penalize_other (today : string) (log : DayLog) (s : string)
    (ks : list StreakKey) (w : World) (k : StreakKey) :
  ~ In k ks ->
  same_entry k w (fold_left (penalizeStreakOf today log s) ks w).
Proof.
  revert w. induction ks as [|j ks IH]; intros w N; simpl.
  - apply same_entry_refl.
  - assert (Nj : j <> k) by (intros ->; apply N; now left).
    assert (Nk : ~ In k ks) by (intro I; apply N; now right).
    eapply same_entry_trans; [apply penalizeStreakOf_other, Nj|apply IH, Nk].
Qed.

(** A habit that is switched off goes through either loop untouched. *)
Lemma fold_update_disabled (today : string) (log : DayLog)
    (ks : list StreakKey) (w : World) (k : StreakKey) :
  sa_get_enabled w (habitId k) = Some false ->
  same_entry k w (fold_left (updateStreakOf today log) ks w).
Proof.
  revert w. induction ks as [|j ks IH]; intros w D; simpl.
  - apply same_entry_refl.
  - eapply same_entry_trans; [|apply IH].
    + destruct (decide (j = k)) as [->|N].
      * rewrite updateStreakOf_settled_id; [apply same_entry_refl|].
        left. rewrite enabledKey_habitId, D. reflexivity.
      * now apply updateStreakOf_other.
    + now rewrite (sa_get_enabled_frame w _ _ (updateStreakOf_frame today log w j)).
Qed.

Lemma fold_penalize_disabled (today : string) (log : DayLog) (s : string)
    (ks : list StreakKey) (w : World) (k : StreakKey) :
  sa_get_enabled w (habitId k) = Some false ->
  same_entry k w (fold_left (penalizeStreakOf today log s) ks w).
Proof.
  revert w. induction ks as [|j ks IH]; intros w D; simpl.
  - apply same_entry_refl.
  - eapply same_entry_trans; [|apply IH].
    + destruct (decide (j = k)) as [->|N].
      * rewrite penalizeStreakOf_spared_id; [apply same_entry_refl|].
        left. rewrite enabledKey_habitId, D. reflexivity.
      * now apply penalizeStreakOf_other.
    + now rewrite (sa_get_enabled_frame w _ _ (penalizeStreakOf_frame today log s w j)).
Qed.

Lemma getTodayLog_entry (today : string) (w : World) (k : StreakKey) :
  same_entry k w (snd (getTodayLog today w)).
Proof.
  pose proof (getTodayLog_frame today w) as (_ & _ & _ & Fk & Fh & _).
  unfold same_entry, streakOf, historyOf. rewrite Fk, Fh. split; reflexivity.
Qed.

(** C9. A habit whose [enabled] flag is false keeps its streak state:
    [HabitStreakAuthority.updateHabitStreak] returns the record it was
    given, and the two streak loops of script.js leave the habit's counter
    and history entry as they were, whatever the day log holds. *)
Theorem disabled_habit_streak_unchanged
    (now today : string) (dayLog : DayLog) (streakData : StreakData.t)
    (settings : option Settings) (h : string) (w : World) (k : StreakKey) :
  hs_enabled (habitSettingsOf settings h) = Some false ->
  sa_get_enabled w (habitId k) = Some false ->
  updateHabitStreak now h dayLog streakData settings = streakData
  /\ streakOf (validateAndUpdateAllStreaks today w) k = streakOf w k
  /\ historyOf (validateAndUpdateAllStreaks today w) k = historyOf w k
  /\ streakOf (applyMissedDayPenalty today w) k = streakOf w k
  /\ historyOf (applyMissedDayPenalty today w) k = historyOf w k.
Proof.
  intros Hs Hw.
  split.
  { unfold updateHabitStreak. rewrite Hs.
    destruct (getHabit h) as [habit|]; [|reflexivity].
    destruct (Habit.streakEnabled habit); reflexivity. }
  pose proof (getTodayLog_frame today w) as (Fa & _).
  pose proof (getTodayLog_entry today w k) as E0.
  unfold validateAndUpdateAllStreaks, applyMissedDayPenalty.
  destruct (getTodayLog today w) as [log w0]. simpl in Fa, E0.
  assert (D0 : sa_get_enabled w0 (habitId k) = Some false)
    by (unfold sa_get_enabled in *; now rewrite Fa).
  destruct (same_entry_trans k _ _ _ E0
              (fold_update_disabled today log streakKeys w0 k D0)) as [U1 U2].
  destruct (same_entry_trans k _ _ _ E0
              (fold_penalize_disabled today log (sensitivityOf w0) streakKeys w0 k D0))
    as [P1 P2].
  repeat split; assumption.
Qed.

(** ** Breaking a streak *)

(** [ceil_div3 n] is the least integer [r] with [n <= 3 * r]. *)
Lemma ceil_div3_spec (n : Z) : 3 * (ceil_div3 n - 1) < n <= 3 * ceil_div3 n.
Proof.
  unfold ceil_div3.
  pose proof (Z.div_mod (n + 2) 3 ltac:(lia)) as E.
  pose proof (Z.mod_pos_bound (n + 2) 3 ltac:(lia)) as B.
  lia.
Qed.

Lemma str_is_false (a : option string) (b : string) :
  a <> Some b -> str_is a b = false.
Proof.
  intro N. destruct a as [s|]; simpl; [|reflexivity].
  apply String.eqb_neq. congruence.
Qed.

Lemma is_false_false (x : option bool) : x <> Some false -> is_false x = false.
Proof.
  intro N. destruct (is_false x) eqn:E; [|reflexivity].
  apply not_false_is_false in E. contradiction.
Qed.

(** One strict penalty step on a habit with a running streak. *)
Lemma penalizeStreakOf_strict (today : string) (log : DayLog) (w : World)
    (k : StreakKey) :
  sa_get_enabled w (habitId k) <> Some false ->
  isHabitValidated w (habitId k) (Some log) = false ->
  StreakHistory.lastUpdated (historyOf w k) <> Some today ->
  0 < streakOf w k ->
  streakOf (penalizeStreakOf today log "strict" w k) k = 0
  /\ historyOf (penalizeStreakOf today log "strict" w k) k
     = StreakHistory.mk
         (Z.max (StreakHistory.best (historyOf w k)) (streakOf w k))
         (Some today) 5 (Some today).
Proof.
  intros E V U P.
  unfold penalizeStreakOf.
  rewrite enabledKey_habitId, (is_false_false _ E), V, (str_is_false _ _ U).
  apply Z.ltb_lt in P. rewrite P.
  change (String.eqb "strict" "strict") with true. cbv iota zeta. simpl negb.
  cbv iota.
  rewrite !streakOf_set_history, streakOf_set_streak_same.
  rewrite !historyOf_set_history_same.
  rewrite historyOf_set_streak, historyOf_set_history_same.
  split; reflexivity.
Qed.

(** The keys before and after a given key in the literal array. *)
Lemma streakKeys_split (k : StreakKey) :
  exists pre post,
    streakKeys = (pre ++ k :: post)%list /\ ~ In k pre /\ ~ In k post.
Proof.
  destruct k.
  - exists [], [k_gym; k_sleep]. repeat split; simpl; intuition congruence.
  - exists [k_learning], [k_sleep]. repeat split; simpl; intuition congruence.
  - exists [k_learning; k_gym], []. repeat split; simpl; intuition congruence.
Qed.

(** C4, as the code has it.  [HabitStreakAuthority.breakHabitStreak], the
    break of the path without sensitivity modes, turns a running streak
    [c] into: current 0, best [max c best], break date stamped, recovery
    [min (ceil (c / 3)) 5]; and returns a streak of 0 unchanged.
    [applyMissedDayPenalty] of script.js under the strict sensitivity,
    for an enabled habit that is not validated, not yet stamped today and
    has a running streak: counter 0, best [max best streak], break date
    [today], and a recovery of 5 days whatever the streak was. *)
Theorem streak_break_rule
    (now h : string) (streakData : StreakData.t)
    (today : string) (w : World) (k : StreakKey) :
  let c := int_or (StreakData.current streakData) 0 in
  (c <> 0 ->
     breakHabitStreak now h streakData
     = StreakData.mk (Some 0)
         (Some (Z.max c (int_or (StreakData.best streakData) 0)))
         (Some (Z.min (ceil_div3 c) 5))
         (Some now)
         (StreakData.lastUpdated streakData))
  /\ (c = 0 -> breakHabitStreak now h streakData = streakData)
  /\ 3 * (ceil_div3 c - 1) < c <= 3 * ceil_div3 c
  /\ (sensitivityOf w = "strict" ->
      sa_get_enabled w (habitId k) <> Some false ->
      isHabitValidated w (habitId k) (Some (fst (getTodayLog today w))) = false ->
      StreakHistory.lastUpdated (historyOf w k) <> Some today ->
      0 < streakOf w k ->
      streakOf (applyMissedDayPenalty today w) k = 0
      /\ historyOf (applyMissedDayPenalty today w) k
         = StreakHistory.mk
             (Z.max (StreakHistory.best (historyOf w k)) (streakOf w k))
             (Some today) 5 (Some today)).
Proof.
  intro c. split; [|split; [|split]].
  - intro N. unfold breakHabitStreak. fold c.
    apply Z.eqb_neq in N. now rewrite N.
  - intro Z0. unfold breakHabitStreak. fold c. now rewrite Z0.
  - apply ceil_div3_spec.
  - intros S E V U P.
    pose proof (getTodayLog_frame today w) as (Fa & _ & Fs & _).
    pose proof (getTodayLog_entry today w k) as [Es Eh].
    unfold applyMissedDayPenalty.
    destruct (getTodayLog today w) as [log w0]. cbn [fst snd] in Fa, Fs, Es, Eh, V.
    assert (S0 : sensitivityOf w0 = "strict")
      by (unfold sensitivityOf in *; now rewrite Fa).
    rewrite S0.
    destruct (streakKeys_split k) as (pre & post & -> & Npre & Npost).
    rewrite fold_left_app. simpl fold_left.
    set (wp := fold_left (penalizeStreakOf today log "strict") pre w0).
    destruct (fold_penalize_other today log "strict" post
                (penalizeStreakOf today log "strict" wp k) k Npost) as [-> ->].
    pose proof (fold_penalize_frame today log "strict" pre w0) as Fp.
    destruct (fold_penalize_other today log "strict" pre w0 k Npre) as [Ps Ph].
    fold wp in Fp, Ps, Ph.
    assert (Ks : streakOf wp k = streakOf w k) by congruence.
    assert (Kh : historyOf wp k = historyOf w k) by congruence.
    rewrite <- Ks, <- Kh.
    apply penalizeStreakOf_strict.
    + rewrite (sa_get_enabled_frame w0 wp _ Fp).
      unfold sa_get_enabled in *. now rewrite Fa.
    + rewrite (isHabitValidated_frame w0 wp _ _ Fp).
      rewrite <- V. apply isHabitValidated_settings. exact Fs.
    + now rewrite Kh.
    + now rewrite Ks.
Qed.

(** ** A new day log *)

Lemma getEnabledRequiredHabits_known (w : World) (h : string) :
  In h (getEnabledRequiredHabits w) ->
  h = "learning" \/ h = "gym" \/ h = "sleep" \/ h = "screenTime".
Proof.
  unfold getEnabledRequiredHabits. cbv zeta.
  destruct (not_false (sa_get_enabled w "learning")),
           (not_false (sa_get_enabled w "gym")),
           (not_false (sa_get_enabled w "sleep")),
           (not_false (sa_get_enabled w "screenTime"));
    simpl; intuition.
Qed.

(** Every name [previewFinalState] reports as missing is the display name
    of a listed habit that is not validated. *)
Lemma preview_fold_snd (w : World) (log : option DayLog) (hs : list string)
    (acc : bool * list string) (name : string) :
  In name
     (snd (fold_left
             (fun (acc : bool * list string) habitId =>
                if negb (isHabitValidated w habitId log)
                then (false, (snd acc ++ [getHabitDisplayName habitId])%list)
                else acc) hs acc)) ->
  In name (snd acc)
  \/ exists h, In h hs /\ isHabitValidated w h log = false
               /\ name = getHabitDisplayName h.
Proof.
  revert acc. induction hs as [|h hs IH]; intros acc I; simpl in I.
  - now left.
  - apply IH in I. destruct I as [I|(h' & I & V & E)].
    + destruct (isHabitValidated w h log) eqn:V; simpl in I.
      * now left.
      * apply in_app_or in I. destruct I as [I|[I|[]]]; [now left|].
        right. exists h. repeat split; [now left|exact V|now symmetry].
    + right. exists h'. repeat split; [now right|exact V|exact E].
Qed.

Lemma missingHabits_sound (w : World) (l : DayLog) (name : string) :
  In name (missingHabits (previewFinalState w (Some l))) ->
  exists h, In h (getEnabledRequiredHabits w)
            /\ isHabitValidated w h (Some l) = false
            /\ name = getHabitDisplayName h.
Proof.
  unfold previewFinalState.
  pose proof (preview_fold_snd w (Some l) (getEnabledRequiredHabits w) (true, []) name) as P.
  destruct (fold_left _ (getEnabledRequiredHabits w) (true, [])) as [allMet missing].
  simpl. intro I. destruct (P I) as [[]|E]. exact E.
Qed.

(** C10. When no log of the date exists and the configured wake-up target
    is a time the engine parses, the log [createTodayLog] builds carries
    that target as its wake-up time, so [wasWakeupOnTime] and the sleep
    rule of [isHabitValidated] hold on it before any input; neither the
    preview nor the finalized log can count sleep among the failed
    habits. *)
Theorem fresh_log_satisfies_sleep (today : string) (w : World) (t : Z) :
  dailyLogs (dashboardData w) !! today = None ->
  wakeupTarget (settings (dashboardData w)) <> "" ->
  newDate (wakeupTarget (settings (dashboardData w))) = Some t ->
  let log := fst (createTodayLog today w) in
  let w' := snd (createTodayLog today w) in
  wakeUp log = Some (wakeupTarget (settings (dashboardData w)))
  /\ (finalized log = false /\ learningDone log = false /\ workout log = false)
  /\ dailyLogs (dashboardData w') !! today = Some log
  /\ wasWakeupOnTime w' (Some log) = true
  /\ isHabitValidated w' "sleep" (Some log) = true
  /\ ~ In "Wake-up" (missingHabits (previewFinalState w' (Some log)))
  /\ (forall h, In h (getEnabledRequiredHabits w') ->
                isHabitValidated w' h (Some (with_finalized true log)) = false ->
                h <> "sleep").
Proof.
  intros Fresh Nonempty Parsed log w'.
  assert (W : wasWakeupOnTime w' (Some log) = true).
  { subst log w'. unfold createTodayLog. rewrite Fresh. cbn [fst snd].
    unfold wasWakeupOnTime. cbn [wakeUp].
    apply String.eqb_neq in Nonempty. rewrite Nonempty.
    change (settings (dashboardData (saveToStorage today _)))
      with (settings (dashboardData w)).
    rewrite Parsed. unfold minutesLate_le. rewrite Z.sub_diag. reflexivity. }
  assert (V : isHabitValidated w' "sleep" (Some log) = true) by exact W.
  split; [|split; [|split; [|split; [|split; [|split]]]]].
  - subst log. unfold createTodayLog. now rewrite Fresh.
  - subst log. unfold createTodayLog. rewrite Fresh. repeat split.
  - subst log w'. unfold createTodayLog. rewrite Fresh. cbn [fst snd].
    unfold saveToStorage, putLog. cbn. apply lookup_insert_eq.
  - exact W.
  - exact V.
  - intro I. apply missingHabits_sound in I. destruct I as (h & I & F & E).
    apply getEnabledRequiredHabits_known in I.
    destruct I as [-> | [-> | [-> | ->]]]; try discriminate E.
    rewrite V in F. discriminate.
  - intros h _ F E. subst h.
    rewrite isHabitValidated_with_finalized, V in F. discriminate.
Qed.

(** ** Finalize *)

Lemma validateAndUpdateAllStreaks_frame (today : string) (w : World) (l : DayLog) :
  dailyLogs (dashboardData w) !! today = Some l ->
  same_outside_streaks w (validateAndUpdateAllStreaks today w).
Proof.
  intro L. unfold validateAndUpdateAllStreaks.
  rewrite (getTodayLog_found _ _ _ L). apply fold_update_frame.
Qed.

Lemma applyMissedDayPenalty_frame (today : string) (w : World) (l : DayLog) :
  dailyLogs (dashboardData w) !! today = Some l ->
  same_outside_streaks w (applyMissedDayPenalty today w).
Proof.
  intro L. unfold applyMissedDayPenalty.
  rewrite (getTodayLog_found _ _ _ L). apply fold_penalize_frame.
Qed.

(** What the in-memory part of a finalize does to today's log: it is
    stamped, flagged, and given the state the preview announced. *)
Lemma finalizeToday_log (today now : string) (l : DayLog) (w0 : World) :
  dailyLogs (dashboardData (finalizeToday today now l w0)) !! today
  = Some (with_finalState (Some (state (previewFinalState w0 (Some l))))
            (with_lastInteraction (Some now)
               (with_finalizedAt (Some now) (with_finalized true l))))
  /\ useBackend (finalizeToday today now l w0) = useBackend w0.
Proof.
  unfold finalizeToday. cbv zeta.
  set (log1 := with_lastInteraction (Some now)
                 (with_finalizedAt (Some now) (with_finalized true l))).
  assert (D : calculateDayState (putLog today log1 w0) (Some log1)
              = state (previewFinalState w0 (Some l))).
  { rewrite previewFinalState_state, calculateDayState_finalized by reflexivity.
    reflexivity. }
  rewrite D. set (ds := state (previewFinalState w0 (Some l))).
  set (log2 := with_finalState (Some ds) log1).
  set (w2 := putLog today log2 (putLog today log1 w0)).
  assert (L2 : dailyLogs (dashboardData w2) !! today = Some log2).
  { subst w2. unfold putLog. cbn. apply lookup_insert_eq. }
  set (w3 := match ds with
             | COMPLETED => validateAndUpdateAllStreaks today w2
             | MISSED => applyMissedDayPenalty today w2
             | _ => w2
             end).
  assert (F3 : same_outside_streaks w2 w3).
  { subst w3. destruct ds.
    - eapply validateAndUpdateAllStreaks_frame, L2.
    - eapply applyMissedDayPenalty_frame, L2.
    - apply same_outside_streaks_refl.
    - apply same_outside_streaks_refl.
    - apply same_outside_streaks_refl. }
  destruct F3 as (_ & Fb & _ & Fl & _).
  cbn [dailyLogs dashboardData useBackend set_dashboardData set_lastActiveDate
       set_lifeScore].
  rewrite Fl, Fb. split; [exact L2|reflexivity].
Qed.

(** After [saveNow] on a day that was not finalized, today's log carries
    the stamps and the previewed state; its [finalized] flag is true when
    the [try] block ran through and false when it threw. *)
Lemma saveNow_log (today now : string) (failure : option FailPoint)
    (w w0 : World) (l : DayLog) :
  getTodayLog today w = (l, w0) ->
  finalized l = false ->
  let log2 :=
    with_finalState (Some (state (previewFinalState w0 (Some l))))
      (with_lastInteraction (Some now)
         (with_finalizedAt (Some now) (with_finalized true l))) in
  (raised failure w0 = false ->
   dailyLogs (dashboardData (saveNow today now true failure w)) !! today
   = Some log2)
  /\ (raised failure w0 = true ->
      dailyLogs (dashboardData (saveNow today now true failure w)) !! today
      = Some (with_finalized false log2)).
Proof.
  intros G F log2. unfold saveNow. cbn [negb]. rewrite G, F.
  destruct (finalizeToday_log today now l w0) as [L B]. fold log2 in L.
  cbv zeta.
  generalize dependent (finalizeToday today now l w0). intros w5 L B.
  clearbody log2.
  assert (R : forall w', dailyLogs (dashboardData w') !! today = Some log2 ->
            dailyLogs (dashboardData (revertFinalized today w')) !! today
            = Some (with_finalized false log2)).
  { intros w' E. unfold revertFinalized.
    cbn [dailyLogs dashboardData set_dashboardData set_dailyLogs].
    now rewrite lookup_alter_eq, E. }
  destruct failure as [[| |]|]; cbn [raised set_localStorage useBackend].
  - split; [discriminate|]. intros _. now apply R.
  - rewrite B. destruct (useBackend w0); split; try discriminate; intros _.
    + now apply R.
    + exact L.
  - split; [discriminate|]. intros _. now apply R.
  - split; [|discriminate]. intros _. exact L.
Qed.

(** C7. The state [previewFinalState] announces for a day log is the state
    [calculateDayState] returns for that log once its [finalized] flag is
    set (and a missing log is NOT_COUNTED on both sides); and when [saveNow]
    runs through on an unfinalized day, the state it stores in today's log
    is the one the preview announced. *)
Theorem preview_agrees_with_finalize
    (w : World) (log : DayLog) (today now : string) :
  state (previewFinalState w (Some log))
    = calculateDayState w (Some (with_finalized true log))
  /\ state (previewFinalState w None) = calculateDayState w None
  /\ (dailyLogs (dashboardData w) !! today = Some log ->
      finalized log = false ->
      dailyLogs (dashboardData (saveNow today now true None w)) !! today
      = Some (with_finalState (Some (state (previewFinalState w (Some log))))
                (with_lastInteraction (Some now)
                   (with_finalizedAt (Some now) (with_finalized true log))))).
Proof.
  split; [|split].
  - rewrite previewFinalState_state.
    rewrite calculateDayState_finalized by reflexivity. reflexivity.
  - reflexivity.
  - intros L F.
    destruct (saveNow_log today now None w w log
                (getTodayLog_found today w log L) F) as [S _].
    apply S. reflexivity.
Qed.

(** ** More on the streak record of habitSystem.js *)

Lemma int_or_Some (n : Z) : int_or (Some n) 0 = n.
Proof. simpl. destruct (Z.eqb_spec n 0); congruence. Qed.

(** X1. [HabitStreakAuthority.updateHabitStreak] returns the record it was
    given whenever the day is not finalized, and for every habit id other
    than the three streak habits of the registry (screen time included). *)
Theorem updateHabitStreak_only_on_finalized_streak_habits
    (now h : string) (dayLog : DayLog) (streakData : StreakData.t)
    (settings : option Settings) :
  finalized dayLog = false \/ (h <> "learning" /\ h <> "gym" /\ h <> "sleep") ->
  updateHabitStreak now h dayLog streakData settings = streakData.
Proof.
  intros [F|(N1 & N2 & N3)]; unfold updateHabitStreak.
  - rewrite F.
    destruct (getHabit h) as [habit|]; [|reflexivity].
    destruct (Habit.streakEnabled habit); [|reflexivity].
    destruct (is_false _); reflexivity.
  - unfold getHabit, HabitRegistry_habits. cbn [find Habit.id].
    apply String.eqb_neq in N1, N2, N3.
    rewrite (String.eqb_sym "learning" h), N1.
    rewrite (String.eqb_sym "gym" h), N2.
    rewrite (String.eqb_sym "sleep" h), N3.
    destruct (String.eqb "screenTime" h); reflexivity.
Qed.

(** X2. [updateHabitStreak] keeps a streak record in good order: if the
    counter is between 0 and the best, the recovery period between 0 and 5,
    and a habit in recovery has counter 0 and a best of at least 1, the
    same holds of the record it returns. *)
Theorem updateHabitStreak_keeps_good_order
    (now h : string) (dayLog : DayLog) (streakData : StreakData.t)
    (settings : option Settings) :
  streak_wf streakData ->
  streak_wf (updateHabitStreak now h dayLog streakData settings).
Proof.
  intro W. unfold updateHabitStreak.
  destruct (getHabit h) as [habit|]; [|exact W].
  destruct (Habit.streakEnabled habit); [|exact W].
  destruct (is_false _); [exact W|].
  destruct (finalized dayLog); [|exact W].
  cbv zeta. simpl negb. cbv iota.
  unfold streak_wf in *.
  set (c := int_or (StreakData.current streakData) 0) in *.
  set (b := int_or (StreakData.best streakData) 0) in *.
  set (r := int_or (StreakData.recoveryDays streakData) 0) in *.
  destruct W as (Wc & Wr & Wi).
  destruct (Z.ltb_spec 0 r) as [R|R].
  - destruct (isHabitComplete h (Some dayLog) settings).
    + cbn [StreakData.current StreakData.best StreakData.recoveryDays].
      rewrite !int_or_Some. fold b.
      destruct (Z.eqb_spec (r - 1) 0); lia.
    + fold c b r. lia.
  - destruct (isHabitComplete h (Some dayLog) settings).
    + cbn [StreakData.current StreakData.best StreakData.recoveryDays].
      rewrite !int_or_Some. fold b r. lia.
    + unfold breakHabitStreak. fold c.
      destruct (Z.eqb_spec c 0).
      * fold c b r. lia.
      * cbn [StreakData.current StreakData.best StreakData.recoveryDays].
        rewrite !int_or_Some. fold b.
        pose proof (ceil_div3_spec c). lia.
Qed.

(** X3. The best count never goes down, whatever record, day and settings
    [updateHabitStreak] is given. *)
Theorem updateHabitStreak_best_never_decreases
    (now h : string) (dayLog : DayLog) (streakData : StreakData.t)
    (settings : option Settings) :
  int_or (StreakData.best streakData) 0
  <= int_or (StreakData.best (updateHabitStreak now h dayLog streakData settings)) 0.
Proof.
  unfold updateHabitStreak.
  destruct (getHabit h) as [habit|]; [|lia].
  destruct (Habit.streakEnabled habit); simpl negb; cbv iota; [|lia].
  destruct (is_false _); [lia|].
  destruct (finalized dayLog); simpl negb; cbv iota; [|lia].
  cbv zeta.
  destruct (0 <? int_or (StreakData.recoveryDays streakData) 0).
  - destruct (isHabitComplete h (Some dayLog) settings);
      cbn [StreakData.best]; lia.
  - destruct (isHabitComplete h (Some dayLog) settings).
    + cbn [StreakData.best]. rewrite int_or_Some. lia.
    + unfold breakHabitStreak.
      destruct (int_or (StreakData.current streakData) 0 =? 0); [lia|].
      cbn [StreakData.best]. rewrite int_or_Some. lia.
Qed.

(** X4. On a day on which the habit is not complete, a second
    [updateHabitStreak] changes nothing more: one missed day costs at most
    one break. *)
Theorem updateHabitStreak_missed_day_penalizes_once
    (now h : string) (dayLog : DayLog) (streakData : StreakData.t)
    (settings : option Settings) :
  isHabitComplete h (Some dayLog) settings = false ->
  updateHabitStreak now h dayLog
    (updateHabitStreak now h dayLog streakData settings) settings
  = updateHabitStreak now h dayLog streakData settings.
Proof.
  intro M. unfold updateHabitStreak.
  destruct (getHabit h) as [habit|]; [|reflexivity].
  destruct (Habit.streakEnabled habit); [|reflexivity].
  destruct (is_false _); [reflexivity|].
  destruct (finalized dayLog); [|reflexivity].
  rewrite M. cbv zeta. simpl negb. cbv iota.
  destruct (0 <? int_or (StreakData.recoveryDays streakData) 0) eqn:R.
  - now rewrite R.
  - assert (B : breakHabitStreak now h streakData = streakData
                \/ StreakData.current (breakHabitStreak now h streakData) = Some 0).
    { unfold breakHabitStreak.
      destruct (int_or (StreakData.current streakData) 0 =? 0);
        [left|right]; reflexivity. }
    destruct B as [B|B].
    + rewrite B, R. exact B.
    + destruct (0 <? int_or (StreakData.recoveryDays
                               (breakHabitStreak now h streakData)) 0);
        [reflexivity|].
      unfold breakHabitStreak at 1. now rewrite B.
Qed.

(** A habit in recovery, over days on which it is complete. *)
Lemma recovery_replay (now h : string) (habit : Habit.t) (settings : option Settings)
    (days : list DayLog) :
  getHabit h = Some habit ->
  Habit.streakEnabled habit = true ->
  hs_enabled (habitSettingsOf settings h) <> Some false ->
  Forall (fun d => finalized d = true /\ isHabitComplete h (Some d) settings = true)
         days ->
  forall s : StreakData.t,
    (1 <= length days)%nat ->
    Z.of_nat (length days) <= int_or (StreakData.recoveryDays s) 0 ->
    let s' := fold_left (fun s d => updateHabitStreak now h d s settings) days s in
    StreakData.recoveryDays s'
    = Some (int_or (StreakData.recoveryDays s) 0 - Z.of_nat (length days))
    /\ StreakData.current s'
       = Some (if int_or (StreakData.recoveryDays s) 0 - Z.of_nat (length days) =? 0
               then 1 else int_or (StreakData.current s) 0)
    /\ StreakData.best s' = StreakData.best s.
Proof.
  intros G E D A.
  induction A as [|d days [F C] A IH]; intros s L R; [simpl in L; lia|].
  cbn [fold_left].
  set (s1 := updateHabitStreak now h d s settings).
  assert (S1 : s1 = StreakData.mk
                      (Some (if int_or (StreakData.recoveryDays s) 0 - 1 =? 0
                             then 1 else int_or (StreakData.current s) 0))
                      (StreakData.best s)
                      (Some (int_or (StreakData.recoveryDays s) 0 - 1))
                      (StreakData.lastBroken s)
                      (Some now)).
  { subst s1. unfold updateHabitStreak.
    rewrite G, E, (is_false_false _ D), F, C. cbn [negb]. cbv zeta.
    cbn [length] in R.
    destruct (Z.ltb_spec 0 (int_or (StreakData.recoveryDays s) 0)); [reflexivity|lia]. }
  assert (R1 : int_or (StreakData.recoveryDays s1) 0
               = int_or (StreakData.recoveryDays s) 0 - 1)
    by (rewrite S1; apply int_or_Some).
  assert (C1 : int_or (StreakData.current s1) 0
               = if int_or (StreakData.recoveryDays s) 0 - 1 =? 0
                 then 1 else int_or (StreakData.current s) 0)
    by (rewrite S1; apply int_or_Some).
  assert (B1 : StreakData.best s1 = StreakData.best s) by (rewrite S1; reflexivity).
  cbn [length] in L, R |- *.
  destruct days as [|d' days'].
  - cbn [fold_left length]. rewrite S1.
    cbn [StreakData.recoveryDays StreakData.current StreakData.best].
    repeat split; reflexivity.
  - clear S1. cbn [length] in IH, R |- *.
    destruct (IH s1) as (I1 & I2 & I3); [lia|rewrite R1; lia|].
    rewrite I1, I2, I3, R1, C1, B1.
    destruct (Z.eqb_spec (int_or (StreakData.recoveryDays s) 0 - 1) 0); [lia|].
    split; [f_equal; lia|]. split; [|reflexivity].
    f_equal.
    match goal with
    | |- (if ?a =? 0 then _ else _) = (if ?b =? 0 then _ else _) =>
        replace a with b by lia
    end.
    reflexivity.
Qed.

(** X5. A habit in recovery for [r] days returns to a streak of exactly 1
    after [r] finalized days on which it is complete, with the recovery
    period back at 0 and the best unchanged; after fewer such days the
    counter is still what it was and the remaining period has gone down by
    one per day. *)
Theorem recovery_ends_after_its_length
    (now h : string) (habit : Habit.t) (settings : option Settings)
    (days : list DayLog) (s : StreakData.t) :
  getHabit h = Some habit ->
  Habit.streakEnabled habit = true ->
  hs_enabled (habitSettingsOf settings h) <> Some false ->
  Forall (fun d => finalized d = true /\ isHabitComplete h (Some d) settings = true)
         days ->
  (1 <= length days)%nat ->
  Z.of_nat (length days) <= int_or (StreakData.recoveryDays s) 0 ->
  let r := int_or (StreakData.recoveryDays s) 0 in
  let s' := fold_left (fun s d => updateHabitStreak now h d s settings) days s in
  StreakData.recoveryDays s' = Some (r - Z.of_nat (length days))
  /\ (Z.of_nat (length days) = r -> StreakData.current s' = Some 1)
  /\ (Z.of_nat (length days) < r ->
      StreakData.current s' = Some (int_or (StreakData.current s) 0))
  /\ StreakData.best s' = StreakData.best s.
Proof.
  intros G E D A L R r s'.
  destruct (recovery_replay now h habit settings days G E D A s L R) as (P1 & P2 & P3).
  fold r in P1, P2. fold s' in P1, P2, P3.
  split; [exact P1|]. split; [|split; [|exact P3]].
  - intro Q. rewrite P2. replace (r - Z.of_nat (length days)) with 0 by lia.
    reflexivity.
  - intro Q. rewrite P2.
    destruct (Z.eqb_spec (r - Z.of_nat (length days)) 0); [lia|reflexivity].
Qed.

(** X6. The recovery period a break hands out: for a running streak it is
    between 1 and 5 days, it is 1 day up to a streak of 3 and the full 5
    days exactly from a streak of 13 on, and a longer streak never gets a
    shorter period. *)
Theorem breakHabitStreak_recovery_length
    (now h : string) (s1 s2 : StreakData.t) :
  0 < int_or (StreakData.current s1) 0 ->
  int_or (StreakData.current s1) 0 <= int_or (StreakData.current s2) 0 ->
  let r1 := int_or (StreakData.recoveryDays (breakHabitStreak now h s1)) 0 in
  let r2 := int_or (StreakData.recoveryDays (breakHabitStreak now h s2)) 0 in
  1 <= r1 <= 5
  /\ (r1 = 1 <-> int_or (StreakData.current s1) 0 <= 3)
  /\ (r1 = 5 <-> 13 <= int_or (StreakData.current s1) 0)
  /\ r1 <= r2.
Proof.
  intros P Le r1 r2. subst r1 r2. unfold breakHabitStreak.
  destruct (Z.eqb_spec (int_or (StreakData.current s1) 0) 0); [lia|].
  destruct (Z.eqb_spec (int_or (StreakData.current s2) 0) 0); [lia|].
  cbn [StreakData.recoveryDays]. rewrite !int_or_Some.
  pose proof (ceil_div3_spec (int_or (StreakData.current s1) 0)).
  pose proof (ceil_div3_spec (int_or (StreakData.current s2) 0)).
  lia.
Qed.

(** ** The habit lists, the interface state and the completion percentage *)

Lemma not_false_true (x : option bool) : x <> Some false -> not_false x = true.
Proof. destruct x as [[|]|]; simpl; congruence. Qed.

(** The list filter on a boolean test. *)
Lemma filter_bool_cons {A} (p : A -> bool) (x : A) (l : list A) :
  filter (fun a => p a) (x :: l)
  = if p x then x :: filter (fun a => p a) l else filter (fun a => p a) l.
Proof. rewrite filter_cons. destruct (p x); reflexivity. Qed.

Lemma filter_bool_nil {A} (p : A -> bool) : filter (fun a => p a) [] = [].
Proof. reflexivity. Qed.

(** X7. The two day-state machines walk the same habits in the same order:
    when no setting takes a habit out of the completion count, the ids of
    [HabitRegistry.getCompletionHabits] for the current settings are the
    list [getEnabledRequiredHabits] of script.js returns. *)
Theorem completion_lists_agree (w : World) (sa : SettingsAuthority) :
  settingsAuthority w = Some sa ->
  (forall h, hs_countsTowardCompletion (habitSettingsOf (current sa) h) <> Some false) ->
  map Habit.id (getCompletionHabits (current sa)) = getEnabledRequiredHabits w.
Proof.
  intros S C.
  unfold getEnabledRequiredHabits, sa_get_enabled, get_enabled. rewrite S.
  unfold getCompletionHabits, getEnabledHabits, getAllHabits, HabitRegistry_habits.
  cbv zeta.
  rewrite !(filter_bool_cons
              (fun h => not_false (hs_enabled (habitSettingsOf (current sa) (Habit.id h))))).
  rewrite filter_bool_nil. cbn [Habit.id].
  destruct (not_false (hs_enabled (habitSettingsOf (current sa) "learning"))),
           (not_false (hs_enabled (habitSettingsOf (current sa) "gym"))),
           (not_false (hs_enabled (habitSettingsOf (current sa) "sleep"))),
           (not_false (hs_enabled (habitSettingsOf (current sa) "screenTime")));
    rewrite ?(filter_bool_cons
                (fun h => not_false (hs_countsTowardCompletion
                                       (habitSettingsOf (current sa) (Habit.id h)))
                          && Habit.countsTowardCompletion h)),
            ?filter_bool_nil;
    cbn [Habit.id Habit.countsTowardCompletion];
    rewrite ?(not_false_true _ (C _)); reflexivity.
Qed.

Lemma calculateDayState_terminal (w : World) (l : DayLog) :
  finalized l = true ->
  calculateDayState w (Some l) = COMPLETED \/ calculateDayState w (Some l) = MISSED.
Proof.
  intro F. rewrite calculateDayState_finalized by exact F.
  destruct (forallb _ _); [left|right]; reflexivity.
Qed.

Lemma calculateState_terminal (settings : option Settings) (l : DayLog) :
  finalized l = true ->
  calculateState (Some l) settings = COMPLETED
  \/ calculateState (Some l) settings = MISSED.
Proof.
  intro F. rewrite calculateState_finalized by exact F.
  destruct (forallb _ _); [left|right]; reflexivity.
Qed.

(** X8. Both [getUIState] functions show a terminal state (COMPLETED or
    MISSED) exactly on a finalized log, where they return what the day-state
    computation returns; on a log that is not finalized they answer
    NOT_STARTED or IN_PROGRESS, and never NOT_COUNTED. *)
Theorem ui_state_is_terminal_exactly_when_finalized
    (trim : string -> string) (w : World) (settings : option Settings) (l : DayLog) :
  let u := getUIState trim w (Some l) in
  let v := DayStateMachine_getUIState (Some l) settings in
  ((u = COMPLETED \/ u = MISSED) <-> finalized l = true)
  /\ ((v = COMPLETED \/ v = MISSED) <-> finalized l = true)
  /\ (finalized l = true ->
      u = calculateDayState w (Some l) /\ v = calculateState (Some l) settings)
  /\ (finalized l = false ->
      (u = NOT_STARTED \/ u = IN_PROGRESS) /\ (v = NOT_STARTED \/ v = IN_PROGRESS)).
Proof.
  intros u v. subst u v. unfold getUIState, DayStateMachine_getUIState.
  destruct (finalized l) eqn:F.
  - pose proof (calculateDayState_terminal w l F).
    pose proof (calculateState_terminal settings l F).
    repeat split; auto; discriminate.
  - destruct (hasAnyDataEntered trim w (Some l)), (hasAnyData (Some l)); cbn [negb];
      repeat split; auto; try discriminate;
        intros [H|H]; discriminate H.
Qed.

(** X9. The log [createTodayLog] builds counts as untouched for script.js:
    its wake-up time equals the target, so [getUIState] says NOT_STARTED.
    [DayStateMachine.getUIState] of habitSystem.js reads the same log as
    IN_PROGRESS, because its wake-up time is filled in. *)
Theorem fresh_log_ui_state
    (trim : string -> string) (today : string) (w : World)
    (cfg : option Settings) :
  dailyLogs (dashboardData w) !! today = None ->
  wakeupTarget (settings (dashboardData w)) <> "" ->
  getUIState trim (snd (createTodayLog today w)) (Some (fst (createTodayLog today w)))
  = NOT_STARTED
  /\ DayStateMachine_getUIState (Some (fst (createTodayLog today w))) cfg
     = IN_PROGRESS.
Proof.
  intros Fresh Nonempty. unfold createTodayLog. rewrite Fresh. cbn [fst snd].
  unfold getUIState, DayStateMachine_getUIState, hasAnyDataEntered, hasAnyData.
  cbn [finalized learningDone workout wakeUp screenTime learningHours mits
       num_pos str_truthy existsb orb andb negb].
  change (settings (dashboardData (saveToStorage today _)))
    with (settings (dashboardData w)).
  rewrite String.eqb_refl.
  apply String.eqb_neq in Nonempty. rewrite Nonempty.
  split; reflexivity.
Qed.

(** The counter of a [forEach] that counts the entries passing a test. *)
Lemma count_fold_bounds {A} (p : A -> bool) (l : list A) (n : nat) :
  let c := fold_left (fun (c : nat) x => if p x then S c else c) l n in
  (n <= c <= n + length l)%nat
  /\ (c = (n + length l)%nat <-> forallb p l = true).
Proof.
  revert n. induction l as [|x l IH]; intro n; cbn [fold_left length forallb].
  - split; [lia|]. split; [reflexivity|lia].
  - destruct (p x); cbn [andb].
    + destruct (IH (S n)) as [B E]. cbv zeta in B, E. split; [lia|].
      rewrite <- E. lia.
    + destruct (IH n) as [B E]. cbv zeta in B, E. split; [lia|].
      split; [lia|discriminate].
Qed.

(** The rounded percentage of [completed] out of [total]. *)
Lemma roundPercent_spec (completed total : nat) :
  (completed <= total)%nat -> (0 < total < 200)%nat ->
  0 <= roundPercent completed total <= 100
  /\ (roundPercent completed total = 100 <-> completed = total).
Proof.
  intros Le B. unfold roundPercent.
  set (c := Z.of_nat completed). set (n := Z.of_nat total).
  assert (Hc : 0 <= c <= n) by lia. assert (Hn : 0 < n < 200) by lia.
  pose proof (Z.div_mod (200 * c + n) (2 * n) ltac:(lia)) as D.
  pose proof (Z.mod_pos_bound (200 * c + n) (2 * n) ltac:(lia)) as M.
  set (q := (200 * c + n) / (2 * n)) in *.
  assert (Q0 : 0 <= q) by nia.
  assert (Q1 : q <= 100) by nia.
  split; [lia|]. split.
  - intro E. assert (c = n) by nia. lia.
  - intro E. assert (c = n) by lia. nia.
Qed.

Lemma getEnabledHabits_length (settings : option Settings) :
  (length (getEnabledHabits settings) <= 4)%nat.
Proof.
  unfold getEnabledHabits.
  etransitivity; [apply length_filter|]. reflexivity.
Qed.

Lemma getEnabledRequiredHabits_length (w : World) :
  (length (getEnabledRequiredHabits w) <= 4)%nat.
Proof.
  unfold getEnabledRequiredHabits. cbv zeta.
  destruct (not_false (sa_get_enabled w "learning")),
           (not_false (sa_get_enabled w "gym")),
           (not_false (sa_get_enabled w "sleep")),
           (not_false (sa_get_enabled w "screenTime")); simpl; lia.
Qed.

(** X10. [DayStateMachine.getCompletionPercent] lies between 0 and 100, and
    it is 100 exactly when every enabled habit is complete (in particular
    when none is enabled). *)
Theorem getCompletionPercent_is_100_iff_all_complete
    (dayLog : option DayLog) (settings : option Settings) :
  0 <= getCompletionPercent dayLog settings <= 100
  /\ (getCompletionPercent dayLog settings = 100 <->
      Forall (fun h => isHabitComplete (Habit.id h) dayLog settings = true)
             (getEnabledHabits settings)).
Proof.
  unfold getCompletionPercent. cbv zeta.
  rewrite <- forallb_Forall_true.
  pose proof (getEnabledHabits_length settings) as L4.
  destruct (count_fold_bounds
              (fun h => isHabitComplete (Habit.id h) dayLog settings)
              (getEnabledHabits settings) 0) as [B E].
  cbv zeta in B, E. cbn [Nat.add] in B, E.
  destruct (Nat.eqb_spec (length (getEnabledHabits settings)) 0) as [Z0|NZ].
  - apply nil_length_inv in Z0. rewrite Z0. cbn [forallb].
    split; [lia|]. split; reflexivity.
  - destruct (roundPercent_spec _ (length (getEnabledHabits settings))
                (proj2 B) ltac:(lia)) as [R1 R2].
    split; [exact R1|]. rewrite R2. exact E.
Qed.

(** X11. The percentage [updateDayStateDisplay] shows lies between 0 and
    100, and it is 100 exactly when [previewFinalState] announces
    COMPLETED: the badge never reads 100% next to a list of missing
    habits. *)
Theorem completionPercent_is_100_iff_preview_completed (w : World) (l : DayLog) :
  0 <= completionPercent w l <= 100
  /\ (completionPercent w l = 100 <-> state (previewFinalState w (Some l)) = COMPLETED).
Proof.
  unfold completionPercent. cbv zeta.
  rewrite previewFinalState_state.
  pose proof (getEnabledRequiredHabits_length w) as L4.
  destruct (count_fold_bounds
              (fun h => isHabitValidated w h (Some l))
              (getEnabledRequiredHabits w) 0) as [B E].
  cbv zeta in B, E. cbn [Nat.add] in B, E.
  destruct (Nat.ltb_spec 0 (length (getEnabledRequiredHabits w))) as [P|P].
  - destruct (roundPercent_spec _ (length (getEnabledRequiredHabits w))
                (proj2 B) ltac:(lia)) as [R1 R2].
    split; [exact R1|]. rewrite R2, E.
    destruct (forallb _ _); split; intro H; try reflexivity; discriminate.
  - destruct (getEnabledRequiredHabits w); [|cbn in P; lia].
    cbn. split; [lia|]. split; reflexivity.
Qed.

(** The names the [forEach] of [previewFinalState] collects. *)
Lemma preview_fold_missing (w : World) (log : option DayLog) (hs : list string)
    (acc : bool * list string) :
  snd (fold_left
         (fun (acc : bool * list string) habitId =>
            if negb (isHabitValidated w habitId log)
            then (false, (snd acc ++ [getHabitDisplayName habitId])%list)
            else acc) hs acc)
  = (snd acc
     ++ map getHabitDisplayName
          (List.filter (fun h => negb (isHabitValidated w h log)) hs))%list.
Proof.
  revert acc. induction hs as [|h hs IH]; intro acc; cbn [fold_left List.filter map].
  - now rewrite app_nil_r.
  - rewrite IH. destruct (isHabitValidated w h log); cbn [negb snd map].
    + reflexivity.
    + now rewrite <- app_assoc.
Qed.

Lemma filter_failing_nil {A} (p : A -> bool) (l : list A) :
  List.filter (fun x => negb (p x)) l = [] <-> forallb p l = true.
Proof.
  induction l as [|x l IH]; cbn [List.filter forallb]; [tauto|].
  destruct (p x); cbn [negb andb]; [exact IH|].
  split; discriminate.
Qed.

(** X12. What [previewFinalState] reports: the missing habits are the
    display names of the enabled required habits that are not validated, in
    the order of the list; the state is COMPLETED exactly when no habit is
    missing and MISSED otherwise; and the MIT count is the number of MITs
    ticked. *)
Theorem previewFinalState_reports_the_failing_habits (w : World) (l : DayLog) :
  missingHabits (previewFinalState w (Some l))
  = map getHabitDisplayName
      (List.filter (fun h => negb (isHabitValidated w h (Some l)))
                   (getEnabledRequiredHabits w))
  /\ (state (previewFinalState w (Some l)) = COMPLETED <->
      missingHabits (previewFinalState w (Some l)) = [])
  /\ (state (previewFinalState w (Some l)) = MISSED <->
      missingHabits (previewFinalState w (Some l)) <> [])
  /\ mitsCompleted (previewFinalState w (Some l))
     = Z.of_nat (length (List.filter (fun b : bool => b) (mitsDone l))).
Proof.
  assert (M : missingHabits (previewFinalState w (Some l))
              = map getHabitDisplayName
                  (List.filter (fun h => negb (isHabitValidated w h (Some l)))
                               (getEnabledRequiredHabits w))).
  { unfold previewFinalState.
    pose proof (preview_fold_missing w (Some l) (getEnabledRequiredHabits w) (true, []))
      as P.
    destruct (fold_left _ (getEnabledRequiredHabits w) (true, [])) as [allMet missing].
    cbn [snd app] in P. exact P. }
  split; [exact M|].
  rewrite M, previewFinalState_state.
  split; [|split].
  - destruct (forallb _ _) eqn:E.
    + split; [|reflexivity]. intros _.
      apply filter_failing_nil in E. now rewrite E.
    + split; [discriminate|]. intro N.
      apply map_eq_nil in N. apply filter_failing_nil in N. congruence.
  - destruct (forallb _ _) eqn:E.
    + split; [discriminate|]. intro N. exfalso. apply N.
      apply filter_failing_nil in E. now rewrite E.
    + split; [|reflexivity]. intros _ N.
      apply map_eq_nil in N. apply filter_failing_nil in N. congruence.
  - unfold previewFinalState.
    destruct (fold_left _ (getEnabledRequiredHabits w) (true, [])) as [allMet missing].
    cbn [mitsCompleted]. f_equal.
    induction (mitsDone l) as [|b bs IH]; [reflexivity|].
    rewrite filter_cons. cbn [List.filter].
    destruct b; cbn [length]; [rewrite decide_True by exact I|rewrite decide_False by tauto];
      cbn [length]; now rewrite IH.
Qed.

(** ** The streak loops of script.js, habit by habit *)

Lemma fold_update_other (today : string) (log : DayLog)
    (ks : list StreakKey) (w : World) (k : StreakKey) :
  ~ In k ks ->
  same_entry k w (fold_left (updateStreakOf today log) ks w).
Proof.
  revert w. induction ks as [|j ks IH]; intros w N; simpl.
  - apply same_entry_refl.
  - assert (Nj : j <> k) by (intros ->; apply N; now left).
    assert (Nk : ~ In k ks) by (intro I; apply N; now right).
    eapply same_entry_trans; [apply updateStreakOf_other, Nj|apply IH, Nk].
Qed.

(** Where [validateAndUpdateAllStreaks] stands when its loop reaches habit
    [k]: nothing outside the streak tables has changed, the entry of [k] is
    as it was, and the step taken there gives the entry's final value. *)
Lemma validate_reaches (today : string) (w : World) (l : DayLog) (k : StreakKey) :
  dailyLogs (dashboardData w) !! today = Some l ->
  exists wp,
    same_outside_streaks w wp
    /\ same_entry k w wp
    /\ same_entry k (updateStreakOf today l wp k)
         (validateAndUpdateAllStreaks today w).
Proof.
  intro L. unfold validateAndUpdateAllStreaks.
  rewrite (getTodayLog_found today w l L).
  destruct (streakKeys_split k) as (pre & post & -> & Npre & Npost).
  rewrite fold_left_app. simpl fold_left.
  exists (fold_left (updateStreakOf today l) pre w).
  split; [apply fold_update_frame|].
  split; [now apply fold_update_other|].
  now apply fold_update_other.
Qed.

Lemma penalty_reaches (today : string) (w : World) (l : DayLog) (k : StreakKey) :
  dailyLogs (dashboardData w) !! today = Some l ->
  exists wp,
    same_outside_streaks w wp
    /\ same_entry k w wp
    /\ same_entry k (penalizeStreakOf today l (sensitivityOf w) wp k)
         (applyMissedDayPenalty today w).
Proof.
  intro L. unfold applyMissedDayPenalty.
  rewrite (getTodayLog_found today w l L).
  destruct (streakKeys_split k) as (pre & post & -> & Npre & Npost).
  rewrite fold_left_app. simpl fold_left.
  exists (fold_left (penalizeStreakOf today l (sensitivityOf w)) pre w).
  split; [apply fold_penalize_frame|].
  split; [now apply fold_penalize_other|].
  now apply fold_penalize_other.
Qed.

Ltac norm_entry :=
  repeat first [rewrite streakOf_set_history
               | rewrite streakOf_set_streak_same
               | rewrite historyOf_set_history_same
               | rewrite historyOf_set_streak].

(** One step of the update loop on a habit that is switched on and not yet
    stamped with the date. *)
Lemma updateStreakOf_enabled (today : string) (log : DayLog) (w : World)
    (k : StreakKey) :
  sa_get_enabled w (habitId k) <> Some false ->
  StreakHistory.lastUpdated (historyOf w k) <> Some today ->
  (isHabitValidated w (habitId k) (Some log) = false ->
   streakOf (updateStreakOf today log w k) k = streakOf w k
   /\ historyOf (updateStreakOf today log w k) k
      = with_lastUpdated (Some today) (historyOf w k))
  /\ (isHabitValidated w (habitId k) (Some log) = true ->
      StreakHistory.recoveryDays (historyOf w k) <= 0 ->
      streakOf (updateStreakOf today log w k) k = streakOf w k + 1
      /\ historyOf (updateStreakOf today log w k) k
         = StreakHistory.mk
             (Z.max (StreakHistory.best (historyOf w k)) (streakOf w k + 1))
             (StreakHistory.lastBroken (historyOf w k))
             (StreakHistory.recoveryDays (historyOf w k))
             (Some today))
  /\ (isHabitValidated w (habitId k) (Some log) = true ->
      0 < StreakHistory.recoveryDays (historyOf w k) ->
      streakOf (updateStreakOf today log w k) k
      = (if StreakHistory.recoveryDays (historyOf w k) =? 1 then 1
         else streakOf w k)
      /\ historyOf (updateStreakOf today log w k) k
         = StreakHistory.mk
             (StreakHistory.best (historyOf w k))
             (StreakHistory.lastBroken (historyOf w k))
             (StreakHistory.recoveryDays (historyOf w k) - 1)
             (Some today)).
Proof.
  intros E U.
  unfold updateStreakOf, checkHabitCompletion.
  rewrite enabledKey_habitId, (is_false_false _ E), (str_is_false _ _ U).
  cbv zeta.
  split; [|split].
  - intros V. rewrite V.
    destruct (0 <? StreakHistory.recoveryDays (historyOf w k));
      rewrite streakOf_set_history, historyOf_set_history_same;
      split; reflexivity.
  - intros V R. rewrite V.
    apply Z.ltb_ge in R. rewrite R.
    rewrite historyOf_set_streak, streakOf_set_streak_same.
    destruct (Z.ltb_spec (StreakHistory.best (historyOf w k)) (streakOf w k + 1))
      as [B|B]; norm_entry; (split; [reflexivity|]);
      unfold with_lastUpdated, with_best;
      cbn [StreakHistory.best StreakHistory.lastBroken
           StreakHistory.recoveryDays StreakHistory.lastUpdated];
      f_equal; lia.
  - intros V R. rewrite V.
    apply Z.ltb_lt in R. rewrite R.
    rewrite historyOf_set_history_same.
    cbn [with_recoveryDays StreakHistory.recoveryDays].
    destruct (Z.eqb_spec (StreakHistory.recoveryDays (historyOf w k) - 1) 0)
      as [Z0|NZ].
    + assert (R1 : (StreakHistory.recoveryDays (historyOf w k) =? 1) = true)
        by (apply Z.eqb_eq; lia).
      rewrite R1. norm_entry. split; reflexivity.
    + assert (R1 : (StreakHistory.recoveryDays (historyOf w k) =? 1) = false)
        by (apply Z.eqb_neq; lia).
      rewrite R1. norm_entry. split; reflexivity.
Qed.

(** X13. What [validateAndUpdateAllStreaks] does to each habit that is
    switched on and not yet stamped with today's date, whatever the other
    habits are: a habit that is not done is only stamped; a habit that is
    done and not in recovery gains a day, and its best follows the counter;
    a habit that is done in recovery loses one recovery day, keeps its best,
    and restarts at 1 when the last recovery day is served. *)
Theorem validateAndUpdateAllStreaks_on_each_habit
    (today : string) (w : World) (l : DayLog) (k : StreakKey) :
  dailyLogs (dashboardData w) !! today = Some l ->
  sa_get_enabled w (habitId k) <> Some false ->
  StreakHistory.lastUpdated (historyOf w k) <> Some today ->
  (isHabitValidated w (habitId k) (Some l) = false ->
   streakOf (validateAndUpdateAllStreaks today w) k = streakOf w k
   /\ historyOf (validateAndUpdateAllStreaks today w) k
      = with_lastUpdated (Some today) (historyOf w k))
  /\ (isHabitValidated w (habitId k) (Some l) = true ->
      StreakHistory.recoveryDays (historyOf w k) <= 0 ->
      streakOf (validateAndUpdateAllStreaks today w) k = streakOf w k + 1
      /\ historyOf (validateAndUpdateAllStreaks today w) k
         = StreakHistory.mk
             (Z.max (StreakHistory.best (historyOf w k)) (streakOf w k + 1))
             (StreakHistory.lastBroken (historyOf w k))
             (StreakHistory.recoveryDays (historyOf w k))
             (Some today))
  /\ (isHabitValidated w (habitId k) (Some l) = true ->
      0 < StreakHistory.recoveryDays (historyOf w k) ->
      streakOf (validateAndUpdateAllStreaks today w) k
      = (if StreakHistory.recoveryDays (historyOf w k) =? 1 then 1
         else streakOf w k)
      /\ historyOf (validateAndUpdateAllStreaks today w) k
         = StreakHistory.mk
             (StreakHistory.best (historyOf w k))
             (StreakHistory.lastBroken (historyOf w k))
             (StreakHistory.recoveryDays (historyOf w k) - 1)
             (Some today)).
Proof.
  intros L E U.
  destruct (validate_reaches today w l k L) as (wp & F & [Ks Kh] & [-> ->]).
  rewrite <- Ks, <- Kh.
  rewrite <- (isHabitValidated_frame w wp _ _ F).
  apply updateStreakOf_enabled.
  - now rewrite (sa_get_enabled_frame w wp _ F).
  - now rewrite Kh.
Qed.

(** One step of the penalty loop on a habit that is switched on, not done
    and not yet stamped with the date. *)
Lemma penalizeStreakOf_enabled (today : string) (log : DayLog) (s : string)
    (w : World) (k : StreakKey) :
  sa_get_enabled w (habitId k) <> Some false ->
  isHabitValidated w (habitId k) (Some log) = false ->
  StreakHistory.lastUpdated (historyOf w k) <> Some today ->
  (s = "moderate" ->
   streakOf (penalizeStreakOf today log s w k) k = streakOf w k / 2
   /\ historyOf (penalizeStreakOf today log s w k) k
      = with_lastUpdated (Some today) (historyOf w k))
  /\ (s <> "strict" -> s <> "moderate" ->
      streakOf (penalizeStreakOf today log s w k) k = streakOf w k
      /\ historyOf (penalizeStreakOf today log s w k) k
         = with_lastUpdated (Some today) (historyOf w k))
  /\ (s = "strict" -> streakOf w k <= 0 ->
      streakOf (penalizeStreakOf today log s w k) k = 0
      /\ historyOf (penalizeStreakOf today log s w k) k
         = StreakHistory.mk (StreakHistory.best (historyOf w k))
             (Some today) 5 (Some today)).
Proof.
  intros E V U.
  unfold penalizeStreakOf.
  rewrite enabledKey_habitId, (is_false_false _ E), V, (str_is_false _ _ U).
  simpl negb. cbv iota zeta.
  split; [|split].
  - intros ->.
    change (String.eqb "moderate" "strict") with false.
    change (String.eqb "moderate" "moderate") with true. cbv iota.
    norm_entry. split; reflexivity.
  - intros N1 N2.
    apply String.eqb_neq in N1, N2. rewrite N1, N2.
    norm_entry. split; reflexivity.
  - intros -> P.
    change (String.eqb "strict" "strict") with true. cbv iota.
    assert (P' : (0 <? streakOf w k) = false) by (apply Z.ltb_ge; lia).
    rewrite P'. norm_entry. split; reflexivity.
Qed.

(** X14. A habit that is done keeps its counter and its history through
    [applyMissedDayPenalty]: on a MISSED day only the habits that were
    missed are touched. *)
Theorem applyMissedDayPenalty_spares_a_done_habit
    (today : string) (w : World) (l : DayLog) (k : StreakKey) :
  dailyLogs (dashboardData w) !! today = Some l ->
  isHabitValidated w (habitId k) (Some l) = true ->
  streakOf (applyMissedDayPenalty today w) k = streakOf w k
  /\ historyOf (applyMissedDayPenalty today w) k = historyOf w k.
Proof.
  intros L V.
  destruct (penalty_reaches today w l k L) as (wp & F & [Ks Kh] & [-> ->]).
  rewrite penalizeStreakOf_spared_id; [split; assumption|].
  right; left.
  now rewrite (isHabitValidated_frame w wp _ _ F).
Qed.

(** X15. What [applyMissedDayPenalty] does to each habit that is switched
    on, not done and not yet stamped with today's date, by sensitivity:
    'moderate' halves the counter, rounding down; any sensitivity other than
    'strict' and 'moderate' (the default 'normal' among them) keeps the
    counter; in both cases the history is only stamped.  'strict' on a habit
    without a running streak still writes the break date and five recovery
    days. *)
Theorem applyMissedDayPenalty_by_sensitivity
    (today : string) (w : World) (l : DayLog) (k : StreakKey) :
  dailyLogs (dashboardData w) !! today = Some l ->
  sa_get_enabled w (habitId k) <> Some false ->
  isHabitValidated w (habitId k) (Some l) = false ->
  StreakHistory.lastUpdated (historyOf w k) <> Some today ->
  (sensitivityOf w = "moderate" ->
   streakOf (applyMissedDayPenalty today w) k = streakOf w k / 2
   /\ historyOf (applyMissedDayPenalty today w) k
      = with_lastUpdated (Some today) (historyOf w k))
  /\ (sensitivityOf w <> "strict" -> sensitivityOf w <> "moderate" ->
      streakOf (applyMissedDayPenalty today w) k = streakOf w k
      /\ historyOf (applyMissedDayPenalty today w) k
         = with_lastUpdated (Some today) (historyOf w k))
  /\ (sensitivityOf w = "strict" -> streakOf w k <= 0 ->
      streakOf (applyMissedDayPenalty today w) k = 0
      /\ historyOf (applyMissedDayPenalty today w) k
         = StreakHistory.mk (StreakHistory.best (historyOf w k))
             (Some today) 5 (Some today)).
Proof.
  intros L E V U.
  destruct (penalty_reaches today w l k L) as (wp & F & [Ks Kh] & [-> ->]).
  rewrite <- Ks, <- Kh.
  apply penalizeStreakOf_enabled.
  - now rewrite (sa_get_enabled_frame w wp _ F).
  - now rewrite (isHabitValidated_frame w wp _ _ F).
  - now rewrite Kh.
Qed.

(** ** The order of the streak entries *)

Ltac to_Z :=
  repeat match goal with
         | H : (_ <? _) = true |- _ => apply Z.ltb_lt in H
         | H : (_ <? _) = false |- _ => apply Z.ltb_ge in H
         | H : (_ =? _) = true |- _ => apply Z.eqb_eq in H
         | H : (_ =? _) = false |- _ => apply Z.eqb_neq in H
         end.

Lemma updateStreakOf_entry_in_order (today : string) (log : DayLog) (w : World)
    (k : StreakKey) :
  entry_in_order (streakOf w k) (historyOf w k) ->
  entry_in_order (streakOf (updateStreakOf today log w k) k)
    (historyOf (updateStreakOf today log w k) k).
Proof.
  unfold entry_in_order. intros (A & B & C).
  unfold updateStreakOf. cbv zeta.
  rewrite ?historyOf_set_history_same, ?historyOf_set_streak,
    ?streakOf_set_streak_same.
  cbn [with_recoveryDays StreakHistory.recoveryDays].
  split_ifs; norm_entry;
    cbn [with_recoveryDays with_lastUpdated with_best
         StreakHistory.recoveryDays StreakHistory.best];
    to_Z; lia.
Qed.

Lemma penalizeStreakOf_entry_in_order (today : string) (log : DayLog)
    (s : string) (w : World) (k : StreakKey) :
  entry_in_order (streakOf w k) (historyOf w k) ->
  entry_in_order (streakOf (penalizeStreakOf today log s w k) k)
    (historyOf (penalizeStreakOf today log s w k) k).
Proof.
  unfold entry_in_order. intros (A & B & C).
  unfold penalizeStreakOf. cbv zeta.
  split_ifs; norm_entry;
    cbn [with_recoveryDays with_lastUpdated with_best with_lastBroken
         StreakHistory.recoveryDays StreakHistory.best];
    to_Z; try lia.
  all: assert (D := Z.div_pos (streakOf w k) 2 A ltac:(lia));
    repeat split; try lia; intro P; rewrite (C P); reflexivity.
Qed.

Lemma updateStreakOf_in_order (today : string) (log : DayLog) (w : World)
    (j : StreakKey) :
  streaks_in_order w -> streaks_in_order (updateStreakOf today log w j).
Proof.
  intros O k. destruct (decide (j = k)) as [->|N].
  - apply updateStreakOf_entry_in_order, O.
  - destruct (updateStreakOf_other today log w j k N) as [-> ->]. apply O.
Qed.

Lemma penalizeStreakOf_in_order (today : string) (log : DayLog) (s : string)
    (w : World) (j : StreakKey) :
  streaks_in_order w -> streaks_in_order (penalizeStreakOf today log s w j).
Proof.
  intros O k. destruct (decide (j = k)) as [->|N].
  - apply penalizeStreakOf_entry_in_order, O.
  - destruct (penalizeStreakOf_other today log s w j k N) as [-> ->]. apply O.
Qed.

Lemma fold_update_in_order (today : string) (log : DayLog)
    (ks : list StreakKey) (w : World) :
  streaks_in_order w ->
  streaks_in_order (fold_left (updateStreakOf today log) ks w).
Proof.
  revert w. induction ks as [|j ks IH]; intros w O; simpl; [exact O|].
  apply IH, updateStreakOf_in_order, O.
Qed.

Lemma fold_penalize_in_order (today : string) (log : DayLog) (s : string)
    (ks : list StreakKey) (w : World) :
  streaks_in_order w ->
  streaks_in_order (fold_left (penalizeStreakOf today log s) ks w).
Proof.
  revert w. induction ks as [|j ks IH]; intros w O; simpl; [exact O|].
  apply IH, penalizeStreakOf_in_order, O.
Qed.

(** The order only reads the two streak tables. *)
Lemma streaks_in_order_tables (w w' : World) :
  streaks (dashboardData w') = streaks (dashboardData w) ->
  streakHistory (dashboardData w') = streakHistory (dashboardData w) ->
  streaks_in_order w -> streaks_in_order w'.
Proof.
  intros S H O k. unfold streakOf, historyOf. rewrite S, H. apply O.
Qed.

Lemma getTodayLog_in_order (today : string) (w : World) :
  streaks_in_order w -> streaks_in_order (snd (getTodayLog today w)).
Proof.
  pose proof (getTodayLog_frame today w) as (_ & _ & _ & S & H & _).
  now apply streaks_in_order_tables.
Qed.

Lemma validateAndUpdateAllStreaks_in_order (today : string) (w : World) :
  streaks_in_order w -> streaks_in_order (validateAndUpdateAllStreaks today w).
Proof.
  intro O. unfold validateAndUpdateAllStreaks.
  pose proof (getTodayLog_in_order today w O) as O0.
  destruct (getTodayLog today w) as [log w0]. simpl in O0.
  now apply fold_update_in_order.
Qed.

Lemma applyMissedDayPenalty_in_order (today : string) (w : World) :
  streaks_in_order w -> streaks_in_order (applyMissedDayPenalty today w).
Proof.
  intro O. unfold applyMissedDayPenalty.
  pose proof (getTodayLog_in_order today w O) as O0.
  destruct (getTodayLog today w) as [log w0]. simpl in O0.
  now apply fold_penalize_in_order.
Qed.

Lemma finalizeToday_in_order (today now : string) (l : DayLog) (w0 : World) :
  streaks_in_order w0 -> streaks_in_order (finalizeToday today now l w0).
Proof.
  intro O. unfold finalizeToday. cbv zeta.
  match goal with
  | |- streaks_in_order
         (set_dashboardData (set_lastActiveDate _ (dashboardData ?w4)) ?w4) =>
      apply (streaks_in_order_tables w4); [reflexivity|reflexivity|]
  end.
  match goal with
  | |- streaks_in_order
         (set_dashboardData (set_lifeScore _ (dashboardData ?w3)) ?w3) =>
      apply (streaks_in_order_tables w3); [reflexivity|reflexivity|]
  end.
  set (w2 := putLog today _ (putLog today _ w0)).
  assert (O2 : streaks_in_order w2)
    by (apply (streaks_in_order_tables w0); [reflexivity|reflexivity|exact O]).
  clearbody w2.
  destruct (calculateDayState _ _);
    first [exact O2
          | now apply validateAndUpdateAllStreaks_in_order
          | now apply applyMissedDayPenalty_in_order].
Qed.


(** ** What [saveNow] leaves alone, and what it stores *)















(** ** The day rollover *)

Lemma same_streak_tables_refl (w : World) : same_streak_tables w w.
Proof. split; reflexivity. Qed.

Lemma same_streak_tables_trans (w1 w2 w3 : World) :
  same_streak_tables w1 w2 -> same_streak_tables w2 w3 ->
  same_streak_tables w1 w3.
Proof. intros [a b] [c d]. split; congruence. Qed.

Lemma createTodayLog_tables (today : string) (w : World) :
  same_streak_tables w (snd (createTodayLog today w)).
Proof.
  unfold createTodayLog.
  destruct (dailyLogs (dashboardData w) !! today); split; reflexivity.
Qed.

Lemma archiveDay_tables (d : string) (w : World) :
  same_streak_tables w (archiveDay d w).
Proof.
  unfold archiveDay.
  destruct (dailyLogs (dashboardData w) !! d) as [l|]; [|split; reflexivity].
  destruct (negb (archived l)); split; reflexivity.
Qed.

Lemma finalizeDayState_tables (d : string) (w : World) :
  same_streak_tables w (finalizeDayState d w).
Proof.
  unfold finalizeDayState.
  destruct (dailyLogs (dashboardData w) !! d) as [l|]; [|split; reflexivity].
  destruct (finalized l); split; reflexivity.
Qed.

Lemma fillGapDays_tables (dateDaysAgo : Z -> string) (i : nat) (w : World) :
  same_streak_tables w (fillGapDays dateDaysAgo i w).
Proof.
  revert w. induction i as [|j IH]; intro w; [apply same_streak_tables_refl|].
  cbn [fillGapDays]. cbv zeta.
  eapply same_streak_tables_trans; [|apply IH].
  destruct (dailyLogs (dashboardData w) !! _); split; reflexivity.
Qed.

Lemma handleInactivityGap_tables (dateDaysAgo : Z -> string) (today : string)
    (n : Z) (w : World) :
  same_streak_tables w (handleInactivityGap dateDaysAgo today n w).
Proof.
  unfold handleInactivityGap.
  eapply same_streak_tables_trans; [apply fillGapDays_tables|].
  split; reflexivity.
Qed.

Lemma handleDayTransition_tables
    (dateDaysAgo : Z -> string) (getDaysBetween : string -> string -> Z)
    (today : string) (w : World) :
  same_streak_tables w (handleDayTransition dateDaysAgo getDaysBetween today w).
Proof.
  unfold handleDayTransition.
  destruct (negb (str_truthy (lastActiveDate (dashboardData w)))).
  - apply createTodayLog_tables.
  - cbv zeta.
    destruct (0 <? getDaysBetween _ today).
    + eapply same_streak_tables_trans; [|apply createTodayLog_tables].
      eapply same_streak_tables_trans; [apply archiveDay_tables|].
      eapply same_streak_tables_trans; [apply finalizeDayState_tables|].
      destruct (1 <? getDaysBetween _ today);
        [apply handleInactivityGap_tables|apply same_streak_tables_refl].
    + destruct (dailyLogs (dashboardData w) !! today);
        [apply same_streak_tables_refl|apply createTodayLog_tables].
Qed.

(** X20. The day rollover never touches a streak: whatever the last active
    date, the length of the gap and the state of the old logs, the counters
    and the histories after [handleDayTransition] are those before.  A day
    that was left without a save costs nothing. *)
Theorem handleDayTransition_never_touches_streaks
    (dateDaysAgo : Z -> string) (getDaysBetween : string -> string -> Z)
    (today : string) (w : World) (k : StreakKey) :
  streakOf (handleDayTransition dateDaysAgo getDaysBetween today w) k = streakOf w k
  /\ historyOf (handleDayTransition dateDaysAgo getDaysBetween today w) k
     = historyOf w k.
Proof.
  destruct (handleDayTransition_tables dateDaysAgo getDaysBetween today w)
    as [S H].
  unfold streakOf, historyOf. rewrite S, H.
  split; reflexivity.
Qed.

Lemma createTodayLog_has_log (today : string) (w : World) :
  is_Some (dailyLogs (dashboardData (snd (createTodayLog today w))) !! today).
Proof.
  unfold createTodayLog.
  destruct (dailyLogs (dashboardData w) !! today) as [l|] eqn:E; simpl.
  - rewrite E. eexists; reflexivity.
  - rewrite lookup_insert_eq. eexists; reflexivity.
Qed.

Ltac kept :=
  repeat match goal with |- _ /\ _ => split end;
  try assumption; try reflexivity; try (intros _; reflexivity).

Lemma same_day_data_refl (l : DayLog) : same_day_data l l.
Proof. reflexivity. Qed.

Lemma logs_kept_refl (w : World) : logs_kept w w.
Proof.
  intros d l E. exists l. kept.
Qed.

Lemma logs_kept_trans (w1 w2 w3 : World) :
  logs_kept w1 w2 -> logs_kept w2 w3 -> logs_kept w1 w3.
Proof.
  intros K1 K2 d l E.
  destruct (K1 d l E) as (l2 & E2 & D2 & F2 & S2).
  destruct (K2 d l2 E2) as (l3 & E3 & D3 & F3 & S3).
  exists l3. split; [exact E3|].
  split; [unfold same_day_data in *; congruence|].
  split; [congruence|].
  intro Fl. rewrite S3 by congruence. now apply S2.
Qed.

Lemma logs_extended_kept (w w' : World) : logs_extended w w' -> logs_kept w w'.
Proof.
  intros X d l E. exists l. apply X in E. kept.
Qed.

Lemma logs_extended_refl (w : World) : logs_extended w w.
Proof. intros d l E. exact E. Qed.

Lemma logs_extended_trans (w1 w2 w3 : World) :
  logs_extended w1 w2 -> logs_extended w2 w3 -> logs_extended w1 w3.
Proof. intros X1 X2 d l E. now apply X2, X1. Qed.

Lemma putLog_new_extends (d : string) (l : DayLog) (w : World) :
  dailyLogs (dashboardData w) !! d = None -> logs_extended w (putLog d l w).
Proof.
  intros N d' l' E. simpl.
  rewrite lookup_insert_ne; [exact E|]. intros ->. congruence.
Qed.

Lemma saveToStorage_extends (today : string) (w : World) :
  logs_extended w (saveToStorage today w).
Proof. intros d l E. exact E. Qed.

Lemma createTodayLog_extends (today : string) (w : World) :
  logs_extended w (snd (createTodayLog today w)).
Proof.
  unfold createTodayLog.
  destruct (dailyLogs (dashboardData w) !! today) as [l|] eqn:E; simpl.
  - apply logs_extended_refl.
  - intros d' l' E'. simpl.
    rewrite lookup_insert_ne; [exact E'|]. intros ->. congruence.
Qed.

Lemma fillGapDays_extends (dateDaysAgo : Z -> string) (i : nat) (w : World) :
  logs_extended w (fillGapDays dateDaysAgo i w).
Proof.
  revert w. induction i as [|j IH]; intro w; [apply logs_extended_refl|].
  cbn [fillGapDays]. cbv zeta.
  eapply logs_extended_trans; [|apply IH].
  destruct (dailyLogs (dashboardData w) !! _) eqn:E;
    [apply logs_extended_refl|now apply putLog_new_extends].
Qed.

Lemma handleInactivityGap_extends (dateDaysAgo : Z -> string) (today : string)
    (n : Z) (w : World) :
  logs_extended w (handleInactivityGap dateDaysAgo today n w).
Proof.
  unfold handleInactivityGap.
  eapply logs_extended_trans; [apply fillGapDays_extends|].
  apply saveToStorage_extends.
Qed.

Lemma archiveDay_keeps (d : string) (w : World) : logs_kept w (archiveDay d w).
Proof.
  unfold archiveDay.
  destruct (dailyLogs (dashboardData w) !! d) as [l|] eqn:E;
    [|apply logs_kept_refl].
  destruct (negb (archived l)); [|apply logs_kept_refl].
  intros d' l' E'. simpl.
  destruct (decide (d = d')) as [<-|N].
  - rewrite lookup_insert_eq. replace l' with l by congruence.
    exists (with_archived true l). kept.
  - rewrite lookup_insert_ne by exact N.
    exists l'. kept.
Qed.

Lemma finalizeDayState_keeps (d : string) (w : World) :
  logs_kept w (finalizeDayState d w).
Proof.
  unfold finalizeDayState.
  destruct (dailyLogs (dashboardData w) !! d) as [l|] eqn:E;
    [|apply logs_kept_refl].
  destruct (finalized l) eqn:Fl; [apply logs_kept_refl|].
  intros d' l' E'. simpl.
  destruct (decide (d = d')) as [<-|N].
  - rewrite lookup_insert_eq. replace l' with l by congruence.
    exists (with_archived true (with_finalState (Some NOT_COUNTED) l)).
    kept. intro T. congruence.
  - rewrite lookup_insert_ne by exact N.
    exists l'. kept.
Qed.

Lemma handleDayTransition_keeps
    (dateDaysAgo : Z -> string) (getDaysBetween : string -> string -> Z)
    (today : string) (w : World) :
  logs_kept w (handleDayTransition dateDaysAgo getDaysBetween today w).
Proof.
  unfold handleDayTransition.
  destruct (negb (str_truthy (lastActiveDate (dashboardData w)))).
  - apply logs_extended_kept, createTodayLog_extends.
  - cbv zeta.
    destruct (0 <? getDaysBetween _ today).
    + eapply logs_kept_trans; [|apply logs_extended_kept, createTodayLog_extends].
      eapply logs_kept_trans; [apply archiveDay_keeps|].
      eapply logs_kept_trans; [apply finalizeDayState_keeps|].
      destruct (1 <? getDaysBetween _ today);
        [apply logs_extended_kept, handleInactivityGap_extends
        |apply logs_kept_refl].
    + destruct (dailyLogs (dashboardData w) !! today);
        [apply logs_kept_refl|apply logs_extended_kept, createTodayLog_extends].
Qed.

(** X21. [handleDayTransition] keeps what was logged.  Afterwards there is
    a log for today, and every log that existed is still there with the
    same entries and the same [finalized] flag: the rollover changes at most
    the [archived] flag and the stored state, and the stored state of a
    finalized day it never changes. *)
Theorem handleDayTransition_keeps_what_was_logged
    (dateDaysAgo : Z -> string) (getDaysBetween : string -> string -> Z)
    (today : string) (w : World) :
  is_Some (dailyLogs
             (dashboardData (handleDayTransition dateDaysAgo getDaysBetween today w))
           !! today)
  /\ (forall d l,
        dailyLogs (dashboardData w) !! d = Some l ->
        exists l',
          dailyLogs
            (dashboardData (handleDayTransition dateDaysAgo getDaysBetween today w))
          !! d = Some l'
          /\ with_archived true (with_finalState None l')
             = with_archived true (with_finalState None l)
          /\ finalized l' = finalized l
          /\ (finalized l = true -> finalState l' = finalState l)).
Proof.
  split; [|apply handleDayTransition_keeps].
  unfold handleDayTransition.
  destruct (negb (str_truthy (lastActiveDate (dashboardData w))));
    [apply createTodayLog_has_log|].
  cbv zeta.
  destruct (0 <? getDaysBetween _ today); [apply createTodayLog_has_log|].
  destruct (dailyLogs (dashboardData w) !! today) as [l|] eqn:E.
  - rewrite E. eexists; reflexivity.
  - apply createTodayLog_has_log.
Qed.

Lemma with_archived_id (l : DayLog) : archived l = true -> with_archived true l = l.
Proof. destruct l; simpl; intros ->; reflexivity. Qed.

(** X22. What the rollover does to the log of the last active date once
    that date has passed: a day that was finalized keeps its state and is
    archived; a day that was not finalized is archived with the stored state
    NOT_COUNTED, and stays unfinalized. *)
Theorem handleDayTransition_closes_the_last_active_day
    (dateDaysAgo : Z -> string) (getDaysBetween : string -> string -> Z)
    (today : string) (w : World) (d : string) (l : DayLog) :
  lastActiveDate (dashboardData w) = Some d ->
  d <> "" ->
  0 < getDaysBetween d today ->
  dailyLogs (dashboardData w) !! d = Some l ->
  dailyLogs (dashboardData (handleDayTransition dateDaysAgo getDaysBetween today w))
    !! d
  = Some (if finalized l then with_archived true l
          else with_archived true (with_finalState (Some NOT_COUNTED) l)).
Proof.
  intros A N G L.
  unfold handleDayTransition. rewrite A.
  apply String.eqb_neq in N.
  unfold str_truthy, str_or. rewrite N. simpl negb. cbv iota zeta.
  apply Z.ltb_lt in G. rewrite G.
  apply createTodayLog_extends.
  assert (X : forall v,
             logs_extended v
               (if 1 <? getDaysBetween d today
                then handleInactivityGap dateDaysAgo today (getDaysBetween d today) v
                else v)).
  { intro v. destruct (1 <? getDaysBetween d today);
      [apply handleInactivityGap_extends|apply logs_extended_refl]. }
  apply X.
  assert (L1 : dailyLogs (dashboardData (archiveDay d w)) !! d
               = Some (with_archived true l)).
  { unfold archiveDay. rewrite L.
    destruct (archived l) eqn:Ar; simpl negb; cbv iota.
    - now rewrite with_archived_id.
    - simpl. apply lookup_insert_eq. }
  unfold finalizeDayState. rewrite L1.
  change (finalized (with_archived true l)) with (finalized l).
  destruct (finalized l); [exact L1|].
  simpl. apply lookup_insert_eq.
Qed.

Lemma fillGapDays_spec (dateDaysAgo : Z -> string) (i : nat) (w : World) :
  (forall n, (1 <= n <= i)%nat ->
     is_Some (dailyLogs (dashboardData (fillGapDays dateDaysAgo i w))
              !! dateDaysAgo (Z.of_nat n)))
  /\ (forall d,
        dailyLogs (dashboardData (fillGapDays dateDaysAgo i w)) !! d
        = dailyLogs (dashboardData w) !! d
        \/ (dailyLogs (dashboardData w) !! d = None
            /\ (exists n, (1 <= n <= i)%nat /\ d = dateDaysAgo (Z.of_nat n))
            /\ dailyLogs (dashboardData (fillGapDays dateDaysAgo i w)) !! d
               = Some (gapLog d))).
Proof.
  revert w. induction i as [|j IH]; intro w.
  - split; [intros n [A B]; lia|]. intro d. left. reflexivity.
  - cbn [fillGapDays]. cbv zeta.
    set (g := dateDaysAgo (Z.of_nat (S j))).
    set (w' := match dailyLogs (dashboardData w) !! g with
               | Some _ => w
               | None => putLog g (gapLog g) w
               end).
    destruct (IH w') as [I1 I2].
    assert (Hg : is_Some (dailyLogs (dashboardData w') !! g)).
    { subst w'. destruct (dailyLogs (dashboardData w) !! g) as [x|] eqn:E.
      - rewrite E. eexists; reflexivity.
      - simpl. rewrite lookup_insert_eq. eexists; reflexivity. }
    split.
    + intros n [A B].
      destruct (Nat.eq_dec n (S j)) as [->|Nn].
      * destruct Hg as [x Hx]. fold g.
        rewrite (fillGapDays_extends dateDaysAgo j w' g x Hx).
        eexists; reflexivity.
      * apply I1. lia.
    + intro d. subst w'.
      destruct (dailyLogs (dashboardData w) !! g) as [x|] eqn:E.
      * destruct (I2 d) as [Same|(No & (n & Rn & Dn) & Gap)].
        -- left. exact Same.
        -- right. split; [exact No|]. split; [|exact Gap].
           exists n. split; [lia|exact Dn].
      * destruct (decide (d = g)) as [->|Nd].
        -- right. split; [exact E|].
           split; [exists (S j); split; [lia|reflexivity]|].
           apply fillGapDays_extends. simpl. apply lookup_insert_eq.
        -- destruct (I2 d) as [Same|(No & (n & Rn & Dn) & Gap)].
           ++ left. rewrite Same. simpl. now apply lookup_insert_ne.
           ++ right. split.
              { rewrite <- No. simpl. symmetry. now apply lookup_insert_ne. }
              split; [|exact Gap].
              exists n. split; [lia|exact Dn].
Qed.

(** X23. [handleInactivityGap] fills the gap and nothing else.  Every day
    from [daysMissed - 1] days ago to yesterday has a log afterwards; a log
    that existed is kept as it is; and a log that is new belongs to one of
    those days and is the placeholder: nothing logged, not finalized, stored
    state NOT_COUNTED. *)
Theorem handleInactivityGap_fills_only_the_gap
    (dateDaysAgo : Z -> string) (today : string) (daysMissed : Z) (w : World) :
  (forall i, 1 <= i < daysMissed ->
     is_Some (dailyLogs
                (dashboardData (handleInactivityGap dateDaysAgo today daysMissed w))
              !! dateDaysAgo i))
  /\ (forall d,
        dailyLogs (dashboardData (handleInactivityGap dateDaysAgo today daysMissed w))
          !! d
        = dailyLogs (dashboardData w) !! d
        \/ (dailyLogs (dashboardData w) !! d = None
            /\ (exists i, 1 <= i < daysMissed /\ d = dateDaysAgo i)
            /\ dailyLogs
                 (dashboardData (handleInactivityGap dateDaysAgo today daysMissed w))
               !! d
               = Some (gapLog d)))
  /\ (forall d, finalized (gapLog d) = false
                /\ finalState (gapLog d) = Some NOT_COUNTED
                /\ hasAnyData (Some (gapLog d)) = false).
Proof.
  destruct (fillGapDays_spec dateDaysAgo (Z.to_nat (daysMissed - 1)) w) as [S1 S2].
  split; [|split].
  - intros i R.
    specialize (S1 (Z.to_nat i)). rewrite Z2Nat.id in S1 by lia.
    apply S1. lia.
  - intro d.
    destruct (S2 d) as [Same|(No & (n & Rn & Dn) & Gap)].
    + left. exact Same.
    + right. split; [exact No|]. split; [|exact Gap].
      exists (Z.of_nat n). split; [lia|exact Dn].
  - intro d. repeat split.
Qed.

(** ** Screen time and the recovery period *)

Lemma slowRecoveryOf_frame (w : World) (k : StreakKey) :
  same_outside_streaks w (slowRecoveryOf w k).
Proof. unfold slowRecoveryOf. split_ifs; solve_frame. Qed.

Lemma slowRecoveryOf_other (w : World) (j k : StreakKey) :
  j <> k -> same_entry k w (slowRecoveryOf w j).
Proof. intro N. unfold slowRecoveryOf. split_ifs; solve_entry N. Qed.

Lemma fold_slowRecovery_frame (ks : list StreakKey) (w : World) :
  same_outside_streaks w (fold_left slowRecoveryOf ks w).
Proof.
  revert w. induction ks as [|j ks IH]; intro w; simpl.
  - apply same_outside_streaks_refl.
  - eapply same_outside_streaks_trans; [apply slowRecoveryOf_frame|apply IH].
Qed.

Lemma fold_slowRecovery_other (ks : list StreakKey) (w : World) (k : StreakKey) :
  ~ In k ks -> same_entry k w (fold_left slowRecoveryOf ks w).
Proof.
  revert w. induction ks as [|j ks IH]; intros w N; simpl.
  - apply same_entry_refl.
  - assert (Nj : j <> k) by (intros ->; apply N; now left).
    assert (Nk : ~ In k ks) by (intro I; apply N; now right).
    eapply same_entry_trans; [apply slowRecoveryOf_other, Nj|apply IH, Nk].
Qed.

(** The entry of a habit after the loop of [applyScreenTimePunishment]. *)
Lemma fold_slowRecovery_entry (w : World) (k : StreakKey) :
  streakOf (fold_left slowRecoveryOf streakKeys w) k = streakOf w k
  /\ historyOf (fold_left slowRecoveryOf streakKeys w) k
     = if 0 <? StreakHistory.recoveryDays (historyOf w k)
       then with_recoveryDays
              (Z.min (StreakHistory.recoveryDays (historyOf w k) + 1) 7)
              (historyOf w k)
       else historyOf w k.
Proof.
  destruct (streakKeys_split k) as (pre & post & -> & Npre & Npost).
  rewrite fold_left_app. simpl fold_left.
  set (wp := fold_left slowRecoveryOf pre w).
  destruct (fold_slowRecovery_other post (slowRecoveryOf wp k) k Npost) as [-> ->].
  destruct (fold_slowRecovery_other pre w k Npre) as [Ps Ph].
  fold wp in Ps, Ph. rewrite <- Ps, <- Ph.
  unfold slowRecoveryOf.
  destruct (0 <? StreakHistory.recoveryDays (historyOf wp k)); norm_entry;
    split; reflexivity.
Qed.

(** X24. [applyScreenTimePunishment] can only lengthen a recovery that is
    under way.  It never changes a counter, a best streak or a date; a habit
    that is not in recovery keeps its history; when the hours are not above
    twice the goal nothing changes at all; and above it, a recovery of [r]
    days becomes one of [min (r + 1) 7] days.  With a goal that is absent,
    nothing changes unless the goal is null and the hours are above 0, where
    a recovery is lengthened in the same way. *)
Theorem applyScreenTimePunishment_only_lengthens_a_recovery
    (goalIsNull : bool) (hours : Q) (w : World) (k : StreakKey) :
  streakOf (applyScreenTimePunishment goalIsNull hours w) k = streakOf w k
  /\ with_recoveryDays 0 (historyOf (applyScreenTimePunishment goalIsNull hours w) k)
     = with_recoveryDays 0 (historyOf w k)
  /\ (StreakHistory.recoveryDays (historyOf w k) <= 0 ->
      historyOf (applyScreenTimePunishment goalIsNull hours w) k = historyOf w k)
  /\ (forall goal,
        screenTimeGoal (settings (dashboardData w)) = Some goal ->
        (hours <= goal * 2)%Q ->
        applyScreenTimePunishment goalIsNull hours w = w)
  /\ (forall goal,
        screenTimeGoal (settings (dashboardData w)) = Some goal ->
        (goal * 2 < hours)%Q ->
        0 < StreakHistory.recoveryDays (historyOf w k) ->
        StreakHistory.recoveryDays
          (historyOf (applyScreenTimePunishment goalIsNull hours w) k)
        = Z.min (StreakHistory.recoveryDays (historyOf w k) + 1) 7)
  /\ (screenTimeGoal (settings (dashboardData w)) = None ->
      goalIsNull = false \/ (hours <= 0)%Q ->
      applyScreenTimePunishment goalIsNull hours w = w)
  /\ (screenTimeGoal (settings (dashboardData w)) = None ->
      goalIsNull = true ->
      (0 < hours)%Q ->
      0 < StreakHistory.recoveryDays (historyOf w k) ->
      StreakHistory.recoveryDays
        (historyOf (applyScreenTimePunishment goalIsNull hours w) k)
      = Z.min (StreakHistory.recoveryDays (historyOf w k) + 1) 7).
Proof.
  destruct (fold_slowRecovery_entry w k) as [S H].
  unfold applyScreenTimePunishment. cbv zeta.
  destruct (match screenTimeGoal (settings (dashboardData w)) with
            | Some goal => Qlt_bool (goal * 2) hours
            | None => goalIsNull && Qlt_bool 0 hours
            end) eqn:Over.
  - rewrite S, H.
    split; [reflexivity|].
    split.
    { destruct (0 <? StreakHistory.recoveryDays (historyOf w k)); reflexivity. }
    split.
    { intro R. apply Z.ltb_ge in R. now rewrite R. }
    split.
    { intros g G Le. rewrite G in Over. apply Qlt_bool_iff in Over.
      exfalso. apply (Qlt_not_le _ _ Over Le). }
    split.
    { intros g _ _ R. apply Z.ltb_lt in R. rewrite R. reflexivity. }
    split.
    { intros G N. rewrite G in Over. apply andb_true_iff in Over.
      destruct Over as [Nu Pos]. apply Qlt_bool_iff in Pos.
      destruct N as [N|N]; [congruence|].
      exfalso. apply (Qlt_not_le _ _ Pos N). }
    intros _ _ _ R. apply Z.ltb_lt in R. rewrite R. reflexivity.
  - split; [reflexivity|]. split; [reflexivity|].
    split; [reflexivity|]. split; [reflexivity|].
    split.
    { intros g G Lt. rewrite G in Over. apply Qlt_bool_iff in Lt. congruence. }
    split; [reflexivity|].
    intros G Nu Pos _. rewrite G, Nu in Over.
    apply Qlt_bool_iff in Pos. simpl in Over. congruence.
Qed.

Lemma applyScreenTimePunishment_goal (goalIsNull : bool) (hours : Q) (w : World) :
  screenTimeGoal (settings (dashboardData (applyScreenTimePunishment goalIsNull hours w)))
  = screenTimeGoal (settings (dashboardData w)).
Proof.
  unfold applyScreenTimePunishment. cbv zeta.
  destruct (match screenTimeGoal (settings (dashboardData w)) with
            | Some goal => Qlt_bool (goal * 2) hours
            | None => goalIsNull && Qlt_bool 0 hours
            end); [|reflexivity].
  destruct (fold_slowRecovery_frame streakKeys w) as (_ & _ & _ & _ & E & _).
  now rewrite E.
Qed.

(** X25. [applyScreenTimePunishment] has no guard by date: it runs at every
    change of the screen-time input, and with the hours above twice the
    goal each run adds a day to a recovery under way, up to seven.  After
    [n] runs a recovery of [r] days stands at [min (r + n) 7]. *)
Theorem applyScreenTimePunishment_adds_up
    (goalIsNull : bool) (hours goal : Q) (w : World) (k : StreakKey) (n : nat) :
  screenTimeGoal (settings (dashboardData w)) = Some goal ->
  (goal * 2 < hours)%Q ->
  0 < StreakHistory.recoveryDays (historyOf w k) <= 7 ->
  StreakHistory.recoveryDays
    (historyOf (Nat.iter n (applyScreenTimePunishment goalIsNull hours) w) k)
  = Z.min (StreakHistory.recoveryDays (historyOf w k) + Z.of_nat n) 7.
Proof.
  intros G Over R.
  assert (I : screenTimeGoal
                (settings
                   (dashboardData
                      (Nat.iter n (applyScreenTimePunishment goalIsNull hours) w)))
              = Some goal
              /\ StreakHistory.recoveryDays
                   (historyOf
                      (Nat.iter n (applyScreenTimePunishment goalIsNull hours) w) k)
                 = Z.min (StreakHistory.recoveryDays (historyOf w k) + Z.of_nat n) 7).
  { induction n as [|m [IG IR]].
    - split; [exact G|]. simpl. lia.
    - rewrite !Nat.iter_succ.
      set (v := Nat.iter m (applyScreenTimePunishment goalIsNull hours) w) in *.
      split; [now rewrite applyScreenTimePunishment_goal|].
      destruct (fold_slowRecovery_entry v k) as [_ H].
      unfold applyScreenTimePunishment. cbv zeta. rewrite IG.
      apply Qlt_bool_iff in Over. rewrite Over, H.
      assert (P : (0 <? StreakHistory.recoveryDays (historyOf v k)) = true)
        by (apply Z.ltb_lt; lia).
      rewrite P. cbn [with_recoveryDays StreakHistory.recoveryDays].
      rewrite IR. lia. }
  apply I.
Qed.

(** ** The two implementations of the streak rules side by side *)

Lemma streakOf_saveToStorage (today : string) (w : World) (k : StreakKey) :
  streakOf (saveToStorage today w) k = streakOf w k.
Proof. reflexivity. Qed.

Lemma historyOf_saveToStorage (today : string) (w : World) (k : StreakKey) :
  historyOf (saveToStorage today w) k = historyOf w k.
Proof. reflexivity. Qed.

Lemma getHabit_streak_habit (k : StreakKey) :
  exists habit, getHabit (habitId k) = Some habit
                /\ Habit.streakEnabled habit = true.
Proof. destruct k; eexists; split; reflexivity. Qed.

(** X26. [breakSingleStreak] of script.js computes what
    [HabitStreakAuthority.breakHabitStreak] of habitSystem.js computes, on
    the entry of its habit and with the date as the break stamp; the entries
    of the other habits stay. *)
Theorem breakSingleStreak_agrees_with_breakHabitStreak
    (today : string) (w : World) (k : StreakKey) :
  streakDataOf (breakSingleStreak today k w) k
  = breakHabitStreak today (habitId k) (streakDataOf w k)
  /\ (forall j, j <> k ->
        streakOf (breakSingleStreak today k w) j = streakOf w j
        /\ historyOf (breakSingleStreak today k w) j = historyOf w j).
Proof.
  split.
  - unfold breakSingleStreak, breakHabitStreak, streakDataOf.
    cbn [StreakData.current StreakData.best StreakData.lastUpdated].
    rewrite !int_or_Some. cbv zeta.
    destruct (streakOf w k =? 0) eqn:Z0; [reflexivity|].
    rewrite streakOf_saveToStorage, historyOf_saveToStorage.
    destruct (Z.ltb_spec (StreakHistory.best (historyOf w k)) (streakOf w k))
      as [B|B]; norm_entry;
      cbn [with_recoveryDays with_lastBroken with_best
           StreakHistory.best StreakHistory.lastBroken
           StreakHistory.recoveryDays StreakHistory.lastUpdated];
      f_equal; f_equal; lia.
  - intros j N. unfold breakSingleStreak. cbv zeta.
    destruct (streakOf w k =? 0); [split; reflexivity|].
    rewrite streakOf_saveToStorage, historyOf_saveToStorage.
    assert (E : forall v, same_entry j w v ->
                          streakOf v j = streakOf w j
                          /\ historyOf v j = historyOf w j)
      by (intros v Ev; exact Ev).
    apply E.
    assert (N' : k <> j) by congruence.
    destruct (StreakHistory.best (historyOf w k) <? streakOf w k);
      solve_entry N'.
Qed.

(** X27. On a finalized day on which the habit is done, the update step of
    the loop in script.js and [HabitStreakAuthority.updateHabitStreak] of
    habitSystem.js compute the same record from the same entry, in recovery
    and out of it, the date being the stamp: for a habit that is switched on
    in both settings and that the loop has not yet stamped today. *)
Theorem update_step_agrees_with_updateHabitStreak
    (today : string) (log : DayLog) (settings : option Settings)
    (w : World) (k : StreakKey) :
  finalized log = true ->
  hs_enabled (habitSettingsOf settings (habitId k)) <> Some false ->
  sa_get_enabled w (habitId k) <> Some false ->
  StreakHistory.lastUpdated (historyOf w k) <> Some today ->
  isHabitComplete (habitId k) (Some log) settings = true ->
  isHabitValidated w (habitId k) (Some log) = true ->
  streakDataOf (updateStreakOf today log w k) k
  = updateHabitStreak today (habitId k) log (streakDataOf w k) settings.
Proof.
  intros Fl Es Ew U Cs Cw.
  destruct (updateStreakOf_enabled today log w k Ew U) as (_ & Out & In).
  unfold updateHabitStreak.
  destruct (getHabit_streak_habit k) as (habit & -> & ->).
  simpl negb. cbv iota.
  rewrite (is_false_false _ Es), Fl, Cs. simpl negb. cbv iota zeta.
  unfold streakDataOf.
  cbn [StreakData.current StreakData.best StreakData.recoveryDays
       StreakData.lastBroken StreakData.lastUpdated].
  rewrite !int_or_Some.
  destruct (Z.ltb_spec 0 (StreakHistory.recoveryDays (historyOf w k))) as [R|R].
  - destruct (In Cw R) as [-> ->].
    cbn [StreakHistory.best StreakHistory.lastBroken
         StreakHistory.recoveryDays StreakHistory.lastUpdated].
    destruct (Z.eqb_spec (StreakHistory.recoveryDays (historyOf w k)) 1) as [E1|N1];
      destruct (Z.eqb_spec (StreakHistory.recoveryDays (historyOf w k) - 1) 0);
      try lia; reflexivity.
  - destruct (Out Cw R) as [-> ->].
    cbn [StreakHistory.best StreakHistory.lastBroken
         StreakHistory.recoveryDays StreakHistory.lastUpdated].
    f_equal. f_equal. lia.
Qed.

(** X28. [updateSingleHabitStreak] takes the step of the loop of
    [validateAndUpdateAllStreaks] on its habit when the habit is switched
    on, and leaves the other habits alone. *)
Theorem updateSingleHabitStreak_takes_the_loop_step
    (today : string) (w : World) (l : DayLog) (k : StreakKey) :
  dailyLogs (dashboardData w) !! today = Some l ->
  sa_get_enabled w (habitId k) <> Some false ->
  (streakOf (updateSingleHabitStreak today k w) k
   = streakOf (updateStreakOf today l w k) k
   /\ historyOf (updateSingleHabitStreak today k w) k
      = historyOf (updateStreakOf today l w k) k)
  /\ (forall j, j <> k ->
        streakOf (updateSingleHabitStreak today k w) j = streakOf w j
        /\ historyOf (updateSingleHabitStreak today k w) j = historyOf w j).
Proof.
  intros L E.
  unfold updateSingleHabitStreak, updateStreakOf.
  rewrite (getTodayLog_found today w l L).
  rewrite enabledKey_habitId, (is_false_false _ E).
  cbv zeta.
  split.
  - split_ifs; rewrite ?streakOf_saveToStorage, ?historyOf_saveToStorage;
      split; reflexivity.
  - intros j N.
    assert (X : forall v, same_entry j w v ->
                          streakOf v j = streakOf w j
                          /\ historyOf v j = historyOf w j)
      by (intros v Ev; exact Ev).
    assert (N' : k <> j) by congruence.
    split_ifs; rewrite ?streakOf_saveToStorage, ?historyOf_saveToStorage;
      apply X; solve_entry N'.
Qed.

(** ** The order of the streak entries, through every function that
    writes them *)

Lemma saveNow_in_order
    (today now : string) (btn : bool) (failure : option FailPoint) (w : World) :
  streaks_in_order w -> streaks_in_order (saveNow today now btn failure w).
Proof.
  intro O. unfold saveNow.
  destruct btn; simpl negb; cbv iota; [|exact O].
  pose proof (getTodayLog_in_order today w O) as O0.
  destruct (getTodayLog today w) as [log w0]. simpl in O0.
  destruct (finalized log); [exact O0|].
  pose proof (finalizeToday_in_order today now log w0 O0) as O5.
  generalize dependent (finalizeToday today now log w0). intros w5 O5.
  assert (R : forall v, streaks_in_order v -> streaks_in_order (revertFinalized today v)).
  { intros v Ov. now apply (streaks_in_order_tables v). }
  assert (S : streaks_in_order (set_localStorage (Some (dashboardData w5)) w5)).
  { now apply (streaks_in_order_tables w5). }
  destruct failure as [[| |]|]; cbv zeta.
  - now apply R.
  - destruct (raised _ _); [now apply R|exact S].
  - destruct (raised _ _); [now apply R|exact S].
  - destruct (raised _ _); [now apply R|exact S].
Qed.

Lemma applyScreenTimePunishment_in_order (goalIsNull : bool) (hours : Q)
    (w : World) :
  streaks_in_order w ->
  streaks_in_order (applyScreenTimePunishment goalIsNull hours w).
Proof.
  intros O k. specialize (O k). revert O.
  unfold applyScreenTimePunishment. cbv zeta.
  destruct (match screenTimeGoal (settings (dashboardData w)) with
            | Some goal => Qlt_bool (goal * 2) hours
            | None => goalIsNull && Qlt_bool 0 hours
            end); [|intro O; exact O].
  destruct (fold_slowRecovery_entry w k) as [-> ->].
  unfold entry_in_order.
  destruct (Z.ltb_spec 0 (StreakHistory.recoveryDays (historyOf w k)));
    cbn [with_recoveryDays StreakHistory.recoveryDays]; lia.
Qed.

(** X16. Streak entries in order stay in order: through [saveNow], whether
    it runs through or fails at any point, through
    [applyScreenTimePunishment] and through the day rollover, no counter
    becomes negative, no recovery period leaves the range 0 to 7, and a
    habit in recovery has a counter of 0. *)
Theorem streaks_stay_in_order
    (dateDaysAgo : Z -> string) (getDaysBetween : string -> string -> Z)
    (today now : string) (btn : bool) (failure : option FailPoint)
    (goalIsNull : bool) (hours : Q) (w : World) :
  streaks_in_order w ->
  streaks_in_order (saveNow today now btn failure w)
  /\ streaks_in_order (applyScreenTimePunishment goalIsNull hours w)
  /\ streaks_in_order (handleDayTransition dateDaysAgo getDaysBetween today w).
Proof.
  intro O. split; [|split].
  - now apply saveNow_in_order.
  - now apply applyScreenTimePunishment_in_order.
  - destruct (handleDayTransition_tables dateDaysAgo getDaysBetween today w)
      as [S H].
    now apply (streaks_in_order_tables w).
Qed.

(** ** One evaluation per habit and date *)

Lemma str_is_true (a : option string) (b : string) :
  str_is a b = true <-> a = Some b.
Proof.
  destruct a as [s|]; simpl; [|split; discriminate].
  rewrite String.eqb_eq. split; congruence.
Qed.

Lemma fold_update_settled_id (today : string) (log : DayLog)
    (ks : list StreakKey) (w : World) :
  (forall k, In k ks -> settled today w k) ->
  fold_left (updateStreakOf today log) ks w = w.
Proof.
  induction ks as [|j ks IH]; intro A; simpl; [reflexivity|].
  rewrite updateStreakOf_settled_id by (apply A; now left).
  apply IH. intros k I. apply A. now right.
Qed.

Lemma fold_penalize_spared_id (today : string) (log : DayLog) (s : string)
    (ks : list StreakKey) (w : World) :
  (forall k, In k ks -> spared today log w k) ->
  fold_left (penalizeStreakOf today log s) ks w = w.
Proof.
  induction ks as [|j ks IH]; intro A; simpl; [reflexivity|].
  rewrite penalizeStreakOf_spared_id by (apply A; now left).
  apply IH. intros k I. apply A. now right.
Qed.

Lemma fold_update_keeps_settled (today : string) (log : DayLog)
    (ks : list StreakKey) (w : World) (k : StreakKey) :
  settled today w k -> settled today (fold_left (updateStreakOf today log) ks w) k.
Proof.
  revert w. induction ks as [|j ks IH]; intros w S; simpl; [exact S|].
  apply IH. now apply updateStreakOf_keeps_settled.
Qed.

Lemma fold_penalize_keeps_spared (today : string) (log : DayLog) (s : string)
    (ks : list StreakKey) (w : World) (k : StreakKey) :
  spared today log w k ->
  spared today log (fold_left (penalizeStreakOf today log s) ks w) k.
Proof.
  revert w. induction ks as [|j ks IH]; intros w S; simpl; [exact S|].
  apply IH. now apply penalizeStreakOf_keeps_spared.
Qed.

(** After the loop every streak habit is settled for the date. *)
Lemma fold_update_settles (today : string) (log : DayLog) (w : World)
    (k : StreakKey) :
  settled today (fold_left (updateStreakOf today log) streakKeys w) k.
Proof.
  destruct (streakKeys_split k) as (pre & post & -> & _ & _).
  rewrite fold_left_app. simpl fold_left.
  apply fold_update_keeps_settled, updateStreakOf_settles.
Qed.

Lemma fold_penalize_spares (today : string) (log : DayLog) (s : string)
    (w : World) (k : StreakKey) :
  spared today log (fold_left (penalizeStreakOf today log s) streakKeys w) k.
Proof.
  destruct (streakKeys_split k) as (pre & post & -> & _ & _).
  rewrite fold_left_app. simpl fold_left.
  apply fold_penalize_keeps_spared, penalizeStreakOf_spares.
Qed.

(** Two calls of [updateHabitStreak] on a finalized day on which the habit
    is complete and not in recovery. *)
Lemma updateHabitStreak_adds_one
    (now h : string) (habit : Habit.t) (dayLog : DayLog)
    (streakData : StreakData.t) (settings : option Settings) :
  getHabit h = Some habit ->
  Habit.streakEnabled habit = true ->
  hs_enabled (habitSettingsOf settings h) <> Some false ->
  finalized dayLog = true ->
  isHabitComplete h (Some dayLog) settings = true ->
  int_or (StreakData.recoveryDays streakData) 0 <= 0 ->
  updateHabitStreak now h dayLog streakData settings
  = StreakData.mk
      (Some (int_or (StreakData.current streakData) 0 + 1))
      (Some (Z.max (int_or (StreakData.current streakData) 0 + 1)
                   (int_or (StreakData.best streakData) 0)))
      (StreakData.recoveryDays streakData)
      (StreakData.lastBroken streakData)
      (Some now).
Proof.
  intros G S E F C R.
  unfold updateHabitStreak. rewrite G, S, (is_false_false _ E), F, C.
  simpl negb. cbv iota zeta.
  apply Z.ltb_ge in R. rewrite R. reflexivity.
Qed.

(** C3, as the code has it.  The streak evaluation of the finalize path is
    idempotent per habit and date.  The step that [validateAndUpdateAllStreaks]
    and [applyMissedDayPenalty] take for one habit returns the state
    unchanged when the habit's [lastUpdated] is already the date; the update
    step stamps the date on every habit that is switched on; so for every
    habit, log, settings and streak state a second step on the same date
    gives the state of the first, and so does a second run of either loop.
    [HabitStreakAuthority.updateHabitStreak] of habitSystem.js, which
    nothing calls, compares no date: on a finalized day on which the habit
    is complete and not in recovery every call adds one to the counter. *)
Theorem streak_evaluation_is_idempotent_per_date
    (today : string) (log : DayLog) (sensitivity : string) (w : World)
    (k : StreakKey)
    (now h : string) (habit : Habit.t) (dayLog : DayLog)
    (streakData : StreakData.t) (settings : option Settings) :
  (StreakHistory.lastUpdated (historyOf w k) = Some today ->
   updateStreakOf today log w k = w
   /\ penalizeStreakOf today log sensitivity w k = w)
  /\ (sa_get_enabled w (habitId k) <> Some false ->
      StreakHistory.lastUpdated (historyOf (updateStreakOf today log w k) k)
      = Some today)
  /\ updateStreakOf today log (updateStreakOf today log w k) k
     = updateStreakOf today log w k
  /\ penalizeStreakOf today log sensitivity
       (penalizeStreakOf today log sensitivity w k) k
     = penalizeStreakOf today log sensitivity w k
  /\ validateAndUpdateAllStreaks today (validateAndUpdateAllStreaks today w)
     = validateAndUpdateAllStreaks today w
  /\ applyMissedDayPenalty today (applyMissedDayPenalty today w)
     = applyMissedDayPenalty today w
  /\ (getHabit h = Some habit ->
      Habit.streakEnabled habit = true ->
      hs_enabled (habitSettingsOf settings h) <> Some false ->
      finalized dayLog = true ->
      isHabitComplete h (Some dayLog) settings = true ->
      int_or (StreakData.recoveryDays streakData) 0 <= 0 ->
      StreakData.current (updateHabitStreak now h dayLog streakData settings)
      = Some (int_or (StreakData.current streakData) 0 + 1)
      /\ StreakData.current
           (updateHabitStreak now h dayLog
              (updateHabitStreak now h dayLog streakData settings) settings)
         = Some (int_or (StreakData.current streakData) 0 + 2)).
Proof.
  split; [|split; [|split; [|split; [|split; [|split]]]]].
  - intro U. apply str_is_true in U. split.
    + apply updateStreakOf_settled_id. now right.
    + apply penalizeStreakOf_spared_id. right; now right.
  - intro E.
    destruct (updateStreakOf_settles today log w k) as [D|D].
    + rewrite (sa_get_enabled_frame w _ _ (updateStreakOf_frame today log w k)) in D.
      rewrite enabledKey_habitId in D. apply not_false_is_false in D.
      contradiction.
    + now apply str_is_true.
  - apply updateStreakOf_settled_id, updateStreakOf_settles.
  - apply penalizeStreakOf_spared_id, penalizeStreakOf_spares.
  - unfold validateAndUpdateAllStreaks at 2 3.
    pose proof (getTodayLog_frame today w) as (_ & _ & _ & _ & _ & L).
    destruct (getTodayLog today w) as [l w0]. simpl in L.
    pose proof (fold_update_frame today l streakKeys w0) as (_ & _ & _ & Lg & _).
    pose proof (fold_update_settles today l w0) as St.
    generalize dependent (fold_left (updateStreakOf today l) streakKeys w0).
    intros w1 Lg St.
    unfold validateAndUpdateAllStreaks.
    rewrite (getTodayLog_found today w1 l) by (now rewrite Lg).
    apply fold_update_settled_id. intros j _. apply St.
  - unfold applyMissedDayPenalty at 2 3.
    pose proof (getTodayLog_frame today w) as (_ & _ & _ & _ & _ & L).
    destruct (getTodayLog today w) as [l w0]. simpl in L.
    pose proof (fold_penalize_frame today l (sensitivityOf w0) streakKeys w0) as Fr.
    pose proof (fold_penalize_spares today l (sensitivityOf w0) w0) as Sp.
    generalize dependent
      (fold_left (penalizeStreakOf today l (sensitivityOf w0)) streakKeys w0).
    intros w1 Fr Sp.
    unfold applyMissedDayPenalty.
    rewrite (getTodayLog_found today w1 l)
      by (destruct Fr as (_ & _ & _ & Lg & _); now rewrite Lg).
    apply fold_penalize_spared_id. intros j _. apply Sp.
  - intros G S E F C R.
    rewrite (updateHabitStreak_adds_one now h habit dayLog streakData settings
               G S E F C R).
    split; [reflexivity|].
    rewrite (updateHabitStreak_adds_one now h habit dayLog _ settings G S E F C)
      by exact R.
    cbn [StreakData.current]. rewrite int_or_Some. f_equal. lia.
Qed.

End Tracker.

(** ** The properties at concrete inputs *)

(** [clockMs] reads the default wake-up target as 05:45. *)
Example clockMs_default : clockMs "05:45" = Some 20700000.
Proof. reflexivity. Qed.

Example clockMs_rejects_empty : clockMs "" = None.
Proof. reflexivity. Qed.

Lemma unfinalized_day_is_NOT_COUNTED_witness :
  finalized (goodDay "2026-03-02") = false
  /\ calculateDayState clockMs
       (worldWith SettingsAuthority_defaults (goodDay "2026-03-02") false)
       (Some (goodDay "2026-03-02")) = NOT_COUNTED
  /\ calculateState clockMs (Some (goodDay "2026-03-02"))
       (Some SettingsAuthority_defaults) = NOT_COUNTED.
Proof.
  split; [reflexivity|].
  destruct (unfinalized_day_is_NOT_COUNTED clockMs
              (worldWith SettingsAuthority_defaults (goodDay "2026-03-02") false)
              (Some SettingsAuthority_defaults) (goodDay "2026-03-02"))
    as (A & B & _); [reflexivity|].
  split; [exact A|exact B].
Defined.

Lemma finalized_day_is_all_or_nothing_witness :
  finalized (with_finalized true (thinDay "2026-03-02")) = true
  /\ (calculateDayState clockMs
        (worldWith SettingsAuthority_defaults (thinDay "2026-03-02") false)
        (Some (with_finalized true (thinDay "2026-03-02"))) = COMPLETED
      \/ calculateDayState clockMs
           (worldWith SettingsAuthority_defaults (thinDay "2026-03-02") false)
           (Some (with_finalized true (thinDay "2026-03-02"))) = MISSED)
  /\ (calculateState clockMs (Some (with_finalized true (thinDay "2026-03-02")))
        (Some SettingsAuthority_defaults) = COMPLETED
      \/ calculateState clockMs (Some (with_finalized true (thinDay "2026-03-02")))
           (Some SettingsAuthority_defaults) = MISSED).
Proof.
  split; [reflexivity|].
  destruct (finalized_day_is_all_or_nothing clockMs
              (worldWith SettingsAuthority_defaults (thinDay "2026-03-02") false)
              (Some SettingsAuthority_defaults)
              (with_finalized true (thinDay "2026-03-02")))
    as ((_ & _ & _ & A) & (_ & _ & _ & B)); [reflexivity|].
  split; [exact A|exact B].
Defined.

(** The thin day is MISSED once finalized: the workout is not done. *)
Example thinDay_is_MISSED :
  calculateDayState clockMs
    (worldWith SettingsAuthority_defaults (thinDay "2026-03-02") false)
    (Some (with_finalized true (thinDay "2026-03-02"))) = MISSED
  /\ calculateState clockMs (Some (with_finalized true (thinDay "2026-03-02")))
       (Some SettingsAuthority_defaults) = MISSED.
Proof. split; vm_compute; reflexivity. Qed.

Example goodDay_is_COMPLETED :
  calculateDayState clockMs
    (worldWith SettingsAuthority_defaults (goodDay "2026-03-02") false)
    (Some (with_finalized true (goodDay "2026-03-02"))) = COMPLETED
  /\ calculateState clockMs (Some (with_finalized true (goodDay "2026-03-02")))
       (Some SettingsAuthority_defaults) = COMPLETED.
Proof. split; vm_compute; reflexivity. Qed.

Lemma preview_agrees_with_finalize_witness :
  state (previewFinalState clockMs
           (worldWith SettingsAuthority_defaults (thinDay "2026-03-02") false)
           (Some (thinDay "2026-03-02"))) = MISSED
  /\ (finalState <$>
        dailyLogs
          (dashboardData
             (saveNow clockMs (fun _ => 0) "2026-03-02" "2026-03-02T21:00:00.000Z"
                true None
                (worldWith SettingsAuthority_defaults (thinDay "2026-03-02") false)))
        !! "2026-03-02") = Some (Some MISSED).
Proof.
  destruct (preview_agrees_with_finalize clockMs (fun _ => 0)
              (worldWith SettingsAuthority_defaults (thinDay "2026-03-02") false)
              (thinDay "2026-03-02") "2026-03-02" "2026-03-02T21:00:00.000Z")
    as (_ & _ & S).
  split; [reflexivity|].
  rewrite S; reflexivity.
Defined.

(** C5, counterexample.  With the default minimum of two hours a day, one
    hour of learning with the toggle on passes [isHabitValidated]. *)
Lemma learning_below_minimum_is_validated :
  hs_minHoursDaily (habitSettingsOf (Some SettingsAuthority_defaults) "learning")
  = Some 2%Q
  /\ learningHours (thinDay "2026-03-02") = Some 1%Q
  /\ isHabitValidated clockMs
       (worldWith SettingsAuthority_defaults (thinDay "2026-03-02") false)
       "learning" (Some (thinDay "2026-03-02")) = true
  /\ ~ (isHabitValidated clockMs
          (worldWith SettingsAuthority_defaults (thinDay "2026-03-02") false)
          "learning" (Some (thinDay "2026-03-02")) = true
        <-> learningDone (thinDay "2026-03-02") = true /\ (2 <= 1)%Q).
Proof.
  split; [reflexivity|]. split; [reflexivity|]. split; [reflexivity|].
  intros [H _]. destruct (H eq_refl) as [_ Q]. now apply Q.
Qed.

(** C6, counterexample.  [DayStateMachine.isHabitComplete] rejects a habit
    id it does not know. *)
Lemma unknown_habit_is_not_complete :
  isHabitComplete clockMs "meditation" (Some (goodDay "2026-03-02"))
    (Some SettingsAuthority_defaults) <> true.
Proof. vm_compute. discriminate. Qed.

Lemma unknown_habit_rule_witness :
  isHabitValidated clockMs
    (worldWith SettingsAuthority_defaults (goodDay "2026-03-02") false)
    "meditation" (Some (goodDay "2026-03-02")) = true
  /\ isHabitComplete clockMs "meditation" (Some (goodDay "2026-03-02"))
       (Some SettingsAuthority_defaults) = false.
Proof.
  apply (unknown_habit_rule clockMs
           (worldWith SettingsAuthority_defaults (goodDay "2026-03-02") false)
           (Some SettingsAuthority_defaults) (goodDay "2026-03-02") "meditation");
    discriminate.
Defined.

(** C3, counterexample.  [HabitStreakAuthority.updateHabitStreak] has no
    date guard: given its own result and the same finalized day, it counts
    the day a second time. *)
Theorem updateHabitStreak_counts_a_day_twice :
  let day := with_finalized true (goodDay "2026-03-02") in
  let cfg := Some SettingsAuthority_defaults in
  let start := StreakData.mk (Some 0) (Some 0) (Some 0) None None in
  let once :=
    updateHabitStreak clockMs "2026-03-02T21:00:00.000Z" "learning" day start cfg in
  let twice :=
    updateHabitStreak clockMs "2026-03-02T21:00:00.000Z" "learning" day once cfg in
  StreakData.current once = Some 1
  /\ StreakData.lastUpdated once = Some "2026-03-02T21:00:00.000Z"
  /\ StreakData.current twice = Some 2
  /\ twice <> once.
Proof.
  vm_compute. repeat split; try reflexivity. discriminate.
Qed.

(** The same day through the loop of script.js: the second run is stopped
    by the [lastUpdated] guard. *)
Example validateAndUpdateAllStreaks_counts_a_day_once :
  let w := worldWith SettingsAuthority_defaults
             (with_finalized true (goodDay "2026-03-02")) false in
  let once := validateAndUpdateAllStreaks clockMs "2026-03-02" w in
  let twice := validateAndUpdateAllStreaks clockMs "2026-03-02" once in
  streakOf once k_learning = 1 /\ streakOf twice k_learning = 1.
Proof. vm_compute. split; reflexivity. Qed.

(** C4, counterexample.  Under the strict sensitivity a missed workout
    after a four-day streak gives five recovery days, not
    [min (ceil (4 / 3)) 5 = 2]. *)
Lemma strict_penalty_recovery_is_five :
  sensitivityOf (strictWorld "2026-03-02" false) = "strict"
  /\ streakOf (strictWorld "2026-03-02" false) k_gym = 4
  /\ Z.min (ceil_div3 4) 5 = 2
  /\ StreakHistory.recoveryDays
       (historyOf (applyMissedDayPenalty clockMs "2026-03-02"
                     (strictWorld "2026-03-02" false)) k_gym) = 5
  /\ StreakHistory.recoveryDays
       (historyOf (applyMissedDayPenalty clockMs "2026-03-02"
                     (strictWorld "2026-03-02" false)) k_gym)
     <> Z.min (ceil_div3 (streakOf (strictWorld "2026-03-02" false) k_gym)) 5.
Proof.
  vm_compute. repeat split; try reflexivity. discriminate.
Qed.

(** Under the strict sensitivity the loop of script.js also stamps a habit
    whose streak is 0: the break date and five recovery days are written. *)
Example strict_penalty_on_a_zero_streak :
  let w := worldWith settings_strict (thinDay "2026-03-02") false in
  streakOf w k_gym = 0
  /\ historyOf w k_gym = StreakHistory.mk 0 None 0 None
  /\ historyOf (applyMissedDayPenalty clockMs "2026-03-02" w) k_gym
     = StreakHistory.mk 0 (Some "2026-03-02") 5 (Some "2026-03-02").
Proof. vm_compute. repeat split; reflexivity. Qed.

Lemma streak_break_rule_witness :
  breakHabitStreak "2026-03-02T21:00:00.000Z" "gym"
    (StreakData.mk (Some 7) (Some 4) None None None)
  = StreakData.mk (Some 0) (Some 7) (Some 3) (Some "2026-03-02T21:00:00.000Z") None
  /\ breakHabitStreak "2026-03-02T21:00:00.000Z" "gym"
       (StreakData.mk None (Some 4) None None None)
     = StreakData.mk None (Some 4) None None None
  /\ streakOf (applyMissedDayPenalty clockMs "2026-03-02"
                 (strictWorld "2026-03-02" false)) k_gym = 0
  /\ historyOf (applyMissedDayPenalty clockMs "2026-03-02"
                  (strictWorld "2026-03-02" false)) k_gym
     = StreakHistory.mk 4 (Some "2026-03-02") 5 (Some "2026-03-02").
Proof.
  pose proof (streak_break_rule clockMs "2026-03-02T21:00:00.000Z" "gym"
                (StreakData.mk (Some 7) (Some 4) None None None)
                "2026-03-02" (strictWorld "2026-03-02" false) k_gym) as T7.
  pose proof (streak_break_rule clockMs "2026-03-02T21:00:00.000Z" "gym"
                (StreakData.mk None (Some 4) None None None)
                "2026-03-02" (strictWorld "2026-03-02" false) k_gym) as T0.
  cbv zeta in T7, T0.
  destruct T7 as (A & _ & _ & D). destruct T0 as (_ & B & _ & _).
  split; [apply A; discriminate|].
  split; [apply B; reflexivity|].
  apply D.
  - reflexivity.
  - vm_compute. discriminate.
  - reflexivity.
  - vm_compute. discriminate.
  - reflexivity.
Defined.

Lemma disabled_habit_streak_unchanged_witness :
  updateHabitStreak clockMs "2026-03-02T21:00:00.000Z" "gym"
    (with_finalized true (goodDay "2026-03-02"))
    (StreakData.mk (Some 3) (Some 5) None None None)
    (Some (settings_without "gym"))
  = StreakData.mk (Some 3) (Some 5) None None None
  /\ streakOf (validateAndUpdateAllStreaks clockMs "2026-03-02"
                 (worldWith (settings_without "gym") (goodDay "2026-03-02") false))
       k_gym = 0
  /\ historyOf (applyMissedDayPenalty clockMs "2026-03-02"
                  (worldWith (settings_without "gym") (goodDay "2026-03-02") false))
       k_gym = StreakHistory.mk 0 None 0 None.
Proof.
  destruct (disabled_habit_streak_unchanged clockMs
              "2026-03-02T21:00:00.000Z" "2026-03-02"
              (with_finalized true (goodDay "2026-03-02"))
              (StreakData.mk (Some 3) (Some 5) None None None)
              (Some (settings_without "gym")) "gym"
              (worldWith (settings_without "gym") (goodDay "2026-03-02") false)
              k_gym)
    as (A & B & _ & _ & C); [reflexivity|reflexivity|].
  split; [exact A|]. split; [exact B|exact C].
Defined.

Lemma fresh_log_satisfies_sleep_witness :
  wakeUp (fst (createTodayLog "2026-03-02" firstStart)) = Some "05:45"
  /\ isHabitValidated clockMs (snd (createTodayLog "2026-03-02" firstStart)) "sleep"
       (Some (fst (createTodayLog "2026-03-02" firstStart))) = true
  /\ ~ In "Wake-up"
         (missingHabits
            (previewFinalState clockMs (snd (createTodayLog "2026-03-02" firstStart))
               (Some (fst (createTodayLog "2026-03-02" firstStart))))).
Proof.
  pose proof (fresh_log_satisfies_sleep clockMs "2026-03-02" firstStart 20700000)
    as T.
  cbv zeta in T.
  destruct T as (A & _ & _ & _ & B & C & _);
    [reflexivity|discriminate|reflexivity|].
  split; [exact A|]. split; [exact B|exact C].
Defined.

(** What the preview reports for that new log: the two toggles. *)
Example fresh_log_preview :
  previewFinalState clockMs (snd (createTodayLog "2026-03-02" firstStart))
    (Some (fst (createTodayLog "2026-03-02" firstStart)))
  = mkPreview MISSED ["Learning"; "Workout"] 0.
Proof. vm_compute. reflexivity. Qed.

(** C8, when the backend save fails.  The backend is in use and the awaited
    [saveToBackendSync] throws.  The [catch] branch clears the [finalized]
    flag of the log in memory and nothing else: the stored state, the
    timestamps and the streak updates stay, and the copy written to
    [localStorage] just before keeps [finalized = true]. *)
Theorem saveNow_failure_is_not_rolled_back (score : DashboardData -> Z) :
  let today := "2026-03-02" in
  let now := "2026-03-02T21:00:00.000Z" in
  let before := worldWith SettingsAuthority_defaults (goodDay today) true in
  let after := saveNow clockMs score today now true (Some AtBackend) before in
  (* before the call *)
  (dailyLogs (dashboardData before) !! today = Some (goodDay today)
   /\ finalState (goodDay today) = None
   /\ streakOf before k_learning = 0
   /\ StreakHistory.lastUpdated (historyOf before k_learning) = None
   /\ localStorage before = None)
  (* after the failed call *)
  /\ (finalized <$> dailyLogs (dashboardData after) !! today) = Some false
  /\ (finalState <$> dailyLogs (dashboardData after) !! today) = Some (Some COMPLETED)
  /\ (finalizedAt <$> dailyLogs (dashboardData after) !! today) = Some (Some now)
  /\ streakOf after k_learning = 1
  /\ streakOf after k_gym = 1
  /\ streakOf after k_sleep = 1
  /\ StreakHistory.lastUpdated (historyOf after k_learning) = Some today
  /\ lastActiveDate (dashboardData after) = Some today
  /\ (match localStorage after with
      | Some stored => finalized <$> dailyLogs stored !! today
      | None => None
      end) = Some true.
Proof.
  vm_compute. repeat split; reflexivity.
Qed.

(** The same failure on a missed day under the strict sensitivity: the
    streak break and its five recovery days survive the failed call. *)
Example saveNow_failure_keeps_the_penalty (score : DashboardData -> Z) :
  let today := "2026-03-02" in
  let before := strictWorld today true in
  let after :=
    saveNow clockMs score today "2026-03-02T21:00:00.000Z" true (Some AtBackend)
      before in
  (streakOf before k_gym = 4
   /\ StreakHistory.recoveryDays (historyOf before k_gym) = 0)
  /\ (finalized <$> dailyLogs (dashboardData after) !! today) = Some false
  /\ (finalState <$> dailyLogs (dashboardData after) !! today) = Some (Some MISSED)
  /\ streakOf after k_gym = 0
  /\ StreakHistory.recoveryDays (historyOf after k_gym) = 5.
Proof.
  vm_compute. repeat split; reflexivity.
Qed.

(** A retry after the failure: the day is finalized and the streaks are not
    counted again. *)
Example saveNow_retry_after_failure (score : DashboardData -> Z) :
  let today := "2026-03-02" in
  let now := "2026-03-02T21:00:00.000Z" in
  let before := worldWith SettingsAuthority_defaults (goodDay today) true in
  let failed := saveNow clockMs score today now true (Some AtBackend) before in
  let retried := saveNow clockMs score today now true None failed in
  (finalized <$> dailyLogs (dashboardData retried) !! today) = Some true
  /\ streakOf retried k_learning = 1.
Proof.
  vm_compute. repeat split; reflexivity.
Qed.

(** ** The further properties at concrete inputs *)

Example marchDaysAgo_sample :
  marchDaysAgo "2026-03-04" 2 = "2026-03-02"
  /\ marchDaysBetween "2026-03-02" "2026-03-04" = 2.
Proof. split; reflexivity. Qed.

Lemma updateHabitStreak_only_on_finalized_streak_habits_witness :
  updateHabitStreak clockMs "2026-03-02T21:00:00.000Z" "screenTime"
    (with_finalized true (goodDay "2026-03-02"))
    (StreakData.mk (Some 3) (Some 5) None None None)
    (Some SettingsAuthority_defaults)
  = StreakData.mk (Some 3) (Some 5) None None None.
Proof.
  apply (updateHabitStreak_only_on_finalized_streak_habits clockMs).
  right. repeat split; discriminate.
Defined.

Lemma updateHabitStreak_keeps_good_order_witness :
  streak_wf (StreakData.mk (Some 3) (Some 5) None None None)
  /\ streak_wf
       (updateHabitStreak clockMs "2026-03-02T21:00:00.000Z" "learning"
          (with_finalized true (goodDay "2026-03-02"))
          (StreakData.mk (Some 3) (Some 5) None None None)
          (Some SettingsAuthority_defaults)).
Proof.
  assert (W : streak_wf (StreakData.mk (Some 3) (Some 5) None None None))
    by (unfold streak_wf; simpl; lia).
  split; [exact W|].
  apply (updateHabitStreak_keeps_good_order clockMs). exact W.
Defined.

Lemma updateHabitStreak_missed_day_penalizes_once_witness :
  isHabitComplete clockMs "gym" (Some (with_finalized true (thinDay "2026-03-02")))
    (Some SettingsAuthority_defaults) = false
  /\ updateHabitStreak clockMs "2026-03-02T21:00:00.000Z" "gym"
       (with_finalized true (thinDay "2026-03-02"))
       (updateHabitStreak clockMs "2026-03-02T21:00:00.000Z" "gym"
          (with_finalized true (thinDay "2026-03-02"))
          (StreakData.mk (Some 4) (Some 4) None None None)
          (Some SettingsAuthority_defaults))
       (Some SettingsAuthority_defaults)
     = updateHabitStreak clockMs "2026-03-02T21:00:00.000Z" "gym"
         (with_finalized true (thinDay "2026-03-02"))
         (StreakData.mk (Some 4) (Some 4) None None None)
         (Some SettingsAuthority_defaults).
Proof.
  split; [reflexivity|].
  apply (updateHabitStreak_missed_day_penalizes_once clockMs). reflexivity.
Defined.

Lemma recovery_ends_after_its_length_witness :
  StreakData.current
    (fold_left
       (fun s d =>
          updateHabitStreak clockMs "2026-03-03T21:00:00.000Z" "learning" d s
            (Some SettingsAuthority_defaults))
       [with_finalized true (goodDay "2026-03-02");
        with_finalized true (goodDay "2026-03-03")]
       (StreakData.mk (Some 0) (Some 4) (Some 2) (Some "2026-03-01") None))
  = Some 1.
Proof.
  pose proof (recovery_ends_after_its_length clockMs
                "2026-03-03T21:00:00.000Z" "learning"
                (Habit.mk "learning" "Learning" true true false true)
                (Some SettingsAuthority_defaults)
                [with_finalized true (goodDay "2026-03-02");
                 with_finalized true (goodDay "2026-03-03")]
                (StreakData.mk (Some 0) (Some 4) (Some 2) (Some "2026-03-01") None))
    as T.
  cbv zeta in T.
  destruct T as (_ & One & _).
  - reflexivity.
  - reflexivity.
  - vm_compute. discriminate.
  - repeat constructor.
  - simpl. lia.
  - simpl. lia.
  - apply One. reflexivity.
Defined.

Lemma breakHabitStreak_recovery_length_witness :
  int_or (StreakData.recoveryDays
            (breakHabitStreak "2026-03-02T21:00:00.000Z" "gym"
               (StreakData.mk (Some 4) (Some 4) None None None))) 0
  <= int_or (StreakData.recoveryDays
               (breakHabitStreak "2026-03-02T21:00:00.000Z" "gym"
                  (StreakData.mk (Some 13) (Some 13) None None None))) 0.
Proof.
  pose proof (breakHabitStreak_recovery_length "2026-03-02T21:00:00.000Z" "gym"
                (StreakData.mk (Some 4) (Some 4) None None None)
                (StreakData.mk (Some 13) (Some 13) None None None)) as T.
  cbv zeta in T.
  destruct T as (_ & _ & _ & Le).
  - simpl. lia.
  - simpl. lia.
  - exact Le.
Defined.

Lemma fresh_log_ui_state_witness :
  getUIState clockMs (fun s => s) (snd (createTodayLog "2026-03-02" firstStart))
    (Some (fst (createTodayLog "2026-03-02" firstStart))) = NOT_STARTED
  /\ DayStateMachine_getUIState clockMs
       (Some (fst (createTodayLog "2026-03-02" firstStart)))
       (Some SettingsAuthority_defaults) = IN_PROGRESS.
Proof.
  apply (fresh_log_ui_state clockMs (fun s => s) "2026-03-02" firstStart
           (Some SettingsAuthority_defaults)).
  - reflexivity.
  - discriminate.
Defined.

Lemma completion_lists_agree_witness :
  map Habit.id (getCompletionHabits (Some SettingsAuthority_defaults))
  = getEnabledRequiredHabits firstStart.
Proof.
  apply (completion_lists_agree firstStart
           (mkSettingsAuthority (Some SettingsAuthority_defaults))).
  - reflexivity.
  - intro h. unfold habitSettingsOf, SettingsAuthority_defaults.
    cbn [current nonNegotiables].
    destruct (decide (h = "learning")) as [->|N1]; [vm_compute; discriminate|].
    rewrite lookup_insert_ne by congruence.
    destruct (decide (h = "gym")) as [->|N2]; [vm_compute; discriminate|].
    rewrite lookup_insert_ne by congruence.
    destruct (decide (h = "sleep")) as [->|N3]; [vm_compute; discriminate|].
    rewrite lookup_insert_ne by congruence.
    destruct (decide (h = "screenTime")) as [->|N4]; [vm_compute; discriminate|].
    rewrite lookup_insert_ne by congruence.
    rewrite lookup_empty. discriminate.
Defined.

Lemma validateAndUpdateAllStreaks_on_each_habit_witness :
  streakOf
    (validateAndUpdateAllStreaks clockMs "2026-03-02"
       (worldWith SettingsAuthority_defaults (goodDay "2026-03-02") false))
    k_learning = 1
  /\ streakOf
       (validateAndUpdateAllStreaks clockMs "2026-03-02"
          (recoveringWorld "2026-03-02" 1))
       k_gym = 1
  /\ StreakHistory.recoveryDays
       (historyOf
          (validateAndUpdateAllStreaks clockMs "2026-03-02"
             (recoveringWorld "2026-03-02" 2))
          k_gym) = 1.
Proof.
  destruct (validateAndUpdateAllStreaks_on_each_habit clockMs "2026-03-02"
              (worldWith SettingsAuthority_defaults (goodDay "2026-03-02") false)
              (goodDay "2026-03-02") k_learning) as (_ & Out & _);
    [reflexivity|vm_compute; discriminate|vm_compute; discriminate|].
  destruct (validateAndUpdateAllStreaks_on_each_habit clockMs "2026-03-02"
              (recoveringWorld "2026-03-02" 1)
              (goodDay "2026-03-02") k_gym) as (_ & _ & In1);
    [reflexivity|vm_compute; discriminate|vm_compute; discriminate|].
  destruct (validateAndUpdateAllStreaks_on_each_habit clockMs "2026-03-02"
              (recoveringWorld "2026-03-02" 2)
              (goodDay "2026-03-02") k_gym) as (_ & _ & In2);
    [reflexivity|vm_compute; discriminate|vm_compute; discriminate|].
  split; [|split].
  - apply Out; [reflexivity|vm_compute; discriminate].
  - apply In1; reflexivity.
  - destruct In2 as [_ H]; [reflexivity|reflexivity|].
    rewrite H. reflexivity.
Defined.

Lemma applyMissedDayPenalty_spares_a_done_habit_witness :
  streakOf
    (applyMissedDayPenalty clockMs "2026-03-02"
       (set_streak k_learning 6 (strictWorld "2026-03-02" false)))
    k_learning = 6
  /\ streakOf
       (applyMissedDayPenalty clockMs "2026-03-02"
          (set_streak k_learning 6 (strictWorld "2026-03-02" false)))
       k_gym = 0.
Proof.
  split; [|reflexivity].
  apply (applyMissedDayPenalty_spares_a_done_habit clockMs "2026-03-02"
           (set_streak k_learning 6 (strictWorld "2026-03-02" false))
           (thinDay "2026-03-02") k_learning); reflexivity.
Defined.

Lemma applyMissedDayPenalty_by_sensitivity_witness :
  streakOf (moderateWorld "2026-03-02") k_gym = 5
  /\ streakOf (applyMissedDayPenalty clockMs "2026-03-02" (moderateWorld "2026-03-02"))
       k_gym = 2
  /\ streakOf
       (applyMissedDayPenalty clockMs "2026-03-02"
          (set_streak k_gym 5
             (worldWith SettingsAuthority_defaults (thinDay "2026-03-02") false)))
       k_gym = 5.
Proof.
  destruct (applyMissedDayPenalty_by_sensitivity clockMs "2026-03-02"
              (moderateWorld "2026-03-02") (thinDay "2026-03-02") k_gym)
    as (Mod & _ & _);
    [reflexivity|vm_compute; discriminate|reflexivity|vm_compute; discriminate|].
  destruct (applyMissedDayPenalty_by_sensitivity clockMs "2026-03-02"
              (set_streak k_gym 5
                 (worldWith SettingsAuthority_defaults (thinDay "2026-03-02") false))
              (thinDay "2026-03-02") k_gym)
    as (_ & Normal & _);
    [reflexivity|vm_compute; discriminate|reflexivity|vm_compute; discriminate|].
  split; [reflexivity|]. split.
  - apply Mod. reflexivity.
  - apply Normal; vm_compute; discriminate.
Defined.

Lemma streaks_stay_in_order_witness :
  streaks_in_order (strictWorld "2026-03-02" false)
  /\ streaks_in_order
       (saveNow clockMs (fun _ => 0) "2026-03-02" "2026-03-02T21:00:00.000Z"
          true None (strictWorld "2026-03-02" false))
  /\ streaks_in_order
       (applyScreenTimePunishment false 7 (strictWorld "2026-03-02" false))
  /\ streaks_in_order
       (handleDayTransition (marchDaysAgo "2026-03-04") marchDaysBetween
          "2026-03-04" (strictWorld "2026-03-02" false)).
Proof.
  assert (O : streaks_in_order (strictWorld "2026-03-02" false)).
  { intro k. unfold entry_in_order. destruct k; vm_compute;
      repeat split; intro; discriminate. }
  split; [exact O|].
  apply (streaks_stay_in_order clockMs (fun _ => 0) (marchDaysAgo "2026-03-04")
           marchDaysBetween "2026-03-02" "2026-03-02T21:00:00.000Z" true None
           false 7 (strictWorld "2026-03-02" false)).
  exact O.
Defined.


Lemma handleDayTransition_closes_the_last_active_day_witness :
  dailyLogs
    (dashboardData
       (handleDayTransition (marchDaysAgo "2026-03-04") marchDaysBetween
          "2026-03-04" (leftOpen "2026-03-02")))
    !! "2026-03-02"
  = Some (with_archived true
            (with_finalState (Some NOT_COUNTED) (thinDay "2026-03-02"))).
Proof.
  apply (handleDayTransition_closes_the_last_active_day
           (marchDaysAgo "2026-03-04") marchDaysBetween "2026-03-04"
           (leftOpen "2026-03-02") "2026-03-02" (thinDay "2026-03-02")).
  - reflexivity.
  - discriminate.
  - reflexivity.
  - reflexivity.
Defined.

Lemma applyScreenTimePunishment_adds_up_witness :
  StreakHistory.recoveryDays
    (historyOf
       (Nat.iter 3 (applyScreenTimePunishment false 7)
          (recoveringWorld "2026-03-02" 5))
       k_gym) = 7.
Proof.
  apply (applyScreenTimePunishment_adds_up false 7 3
           (recoveringWorld "2026-03-02" 5) k_gym 3).
  - reflexivity.
  - reflexivity.
  - simpl. lia.
Defined.

Lemma update_step_agrees_with_updateHabitStreak_witness :
  streakDataOf
    (updateStreakOf clockMs "2026-03-02" (with_finalized true (goodDay "2026-03-02"))
       (recoveringWorld "2026-03-02" 1) k_gym)
    k_gym
  = updateHabitStreak clockMs "2026-03-02" "gym"
      (with_finalized true (goodDay "2026-03-02"))
      (streakDataOf (recoveringWorld "2026-03-02" 1) k_gym)
      (Some SettingsAuthority_defaults).
Proof.
  apply (update_step_agrees_with_updateHabitStreak clockMs "2026-03-02"
           (with_finalized true (goodDay "2026-03-02"))
           (Some SettingsAuthority_defaults)
           (recoveringWorld "2026-03-02" 1) k_gym).
  - reflexivity.
  - vm_compute. discriminate.
  - vm_compute. discriminate.
  - vm_compute. discriminate.
  - reflexivity.
  - reflexivity.
Defined.

Lemma updateSingleHabitStreak_takes_the_loop_step_witness :
  streakOf
    (updateSingleHabitStreak clockMs "2026-03-02" k_gym
       (worldWith SettingsAuthority_defaults (goodDay "2026-03-02") false))
    k_gym
  = streakOf
      (updateStreakOf clockMs "2026-03-02" (goodDay "2026-03-02")
         (worldWith SettingsAuthority_defaults (goodDay "2026-03-02") false) k_gym)
      k_gym.
Proof.
  destruct (updateSingleHabitStreak_takes_the_loop_step clockMs "2026-03-02"
              (worldWith SettingsAuthority_defaults (goodDay "2026-03-02") false)
              (goodDay "2026-03-02") k_gym) as [[S _] _].
  - reflexivity.
  - vm_compute. discriminate.
  - exact S.
Defined.

Lemma streak_evaluation_is_idempotent_per_date_witness :
  streakOf
    (validateAndUpdateAllStreaks clockMs "2026-03-02"
       (validateAndUpdateAllStreaks clockMs "2026-03-02"
          (worldWith SettingsAuthority_defaults
             (with_finalized true (goodDay "2026-03-02")) false)))
    k_learning = 1
  /\ StreakData.current
       (updateHabitStreak clockMs "2026-03-02T21:00:00.000Z" "learning"
          (with_finalized true (goodDay "2026-03-02"))
          (updateHabitStreak clockMs "2026-03-02T21:00:00.000Z" "learning"
             (with_finalized true (goodDay "2026-03-02"))
             (StreakData.mk (Some 0) (Some 0) (Some 0) None None)
             (Some SettingsAuthority_defaults))
          (Some SettingsAuthority_defaults))
     = Some 2.
Proof.
  destruct (streak_evaluation_is_idempotent_per_date clockMs "2026-03-02"
              (with_finalized true (goodDay "2026-03-02")) "normal"
              (worldWith SettingsAuthority_defaults
                 (with_finalized true (goodDay "2026-03-02")) false)
              k_learning
              "2026-03-02T21:00:00.000Z" "learning"
              (Habit.mk "learning" "Learning" true true false true)
              (with_finalized true (goodDay "2026-03-02"))
              (StreakData.mk (Some 0) (Some 0) (Some 0) None None)
              (Some SettingsAuthority_defaults))
    as (_ & _ & _ & _ & V & _ & H).
  split.
  - rewrite V. reflexivity.
  - apply H.
    + reflexivity.
    + reflexivity.
    + vm_compute. discriminate.
    + reflexivity.
    + reflexivity.
    + simpl. lia.
Defined.
